(** * The teacher views of the classroom quiz application

    A shallow embedding of [django_school/classroom/views/teachers.py]:
    the relational store behind the models, the query operations the views
    issue against it, and the views themselves as functions from a request
    and a store to a response and a store.

    Python strings are sequences of Unicode code points; primary keys are
    integers; a table is the list of its rows in the order a plain scan
    returns them.  A response is the redirect, the error page, or the
    template with the context handed to it; the rendering of templates and
    the flash messages of [django.contrib.messages] are left out. *)

From Stdlib Require Import List ZArith NArith Bool String Ascii Lia.
From Stdlib Require Import Permutation Sorted DecimalString.
Import ListNotations.

(** ** Python strings *)

Module PyStr.

Definition codepoint := N.
Definition str := list codepoint.

(** An ASCII literal as a Python string. *)
Definition of_string (s : string) : str :=
  map N_of_ascii (list_ascii_of_string s).

Fixpoint eqb (a b : str) : bool :=
  match a, b with
  | [], [] => true
  | x :: a', y :: b' => N.eqb x y && eqb a' b'
  | _, _ => false
  end.

(** The code points of Unicode general category Nd come in runs of ten,
    each run starting at the digit zero of its script.  These are the
    zeros (Unicode 14, the table of CPython 3.11). *)
Definition decimal_zeros : list N :=
  [ 48; 1632; 1776; 1984; 2406; 2534; 2662; 2790; 2918; 3046; 3174; 3302;
    3430; 3558; 3664; 3792; 3872; 4160; 4240; 6112; 6160; 6470; 6608; 6784;
    6800; 6992; 7088; 7232; 7248; 42528; 43216; 43264; 43472; 43504; 43600;
    44016; 65296; 66720; 68912; 69734; 69872; 69942; 70096; 70384; 70736;
    70864; 71248; 71360; 71472; 71904; 72016; 72784; 73040; 73120; 92768;
    92864; 93008; 120782; 120792; 120802; 120812; 120822; 123200; 123632;
    125264; 130032 ]%N.

(** Code points whose Numeric_Type is Digit but not Decimal: superscripts,
    subscripts, circled and parenthesised digits and the like. *)
Definition digit_only_ranges : list (N * N) :=
  [ (178, 179); (185, 185); (4969, 4977); (6618, 6618); (8304, 8304);
    (8308, 8313); (8320, 8329); (9312, 9320); (9332, 9340); (9352, 9360);
    (9450, 9450); (9461, 9469); (9471, 9471); (10102, 10110);
    (10112, 10120); (10122, 10130); (68160, 68163); (69216, 69224);
    (69714, 69722); (127232, 127242) ]%N.

(** The decimal value of a code point, when it is a decimal digit. *)
Definition decimal_value (c : codepoint) : option N :=
  match find (fun z => (z <=? c) && (c <? z + 10))%N decimal_zeros with
  | Some z => Some (c - z)%N
  | None => None
  end.

Definition char_isdecimal (c : codepoint) : bool :=
  match decimal_value c with Some _ => true | None => false end.

Definition char_isdigit (c : codepoint) : bool :=
  char_isdecimal c
  || existsb (fun r => (fst r <=? c) && (c <=? snd r))%N digit_only_ranges.

(** [str.isdigit()]: at least one character, and all of them digits. *)
Definition isdigit (s : str) : bool :=
  match s with
  | [] => false
  | _ => forallb char_isdigit s
  end.

(** [int(s)] for a string with no sign, blank or underscore (the only
    strings [isdigit] lets through): every character has to be a decimal
    digit, otherwise Python raises [ValueError]. *)
Fixpoint int_acc (acc : Z) (s : str) : option Z :=
  match s with
  | [] => Some acc
  | c :: s' =>
      match decimal_value c with
      | Some d => int_acc (10 * acc + Z.of_N d)%Z s'
      | None => None
      end
  end.

Definition int (s : str) : option Z :=
  match s with
  | [] => None
  | _ => int_acc 0%Z s
  end.

(** [str(n)] for a non-negative integer. *)
Definition of_nat (n : nat) : str :=
  of_string (NilZero.string_of_uint (Nat.to_uint n)).

(** [n] printed on at least [width] digits, zero filled ([%02d]). *)
Definition zfill (width : nat) (s : str) : str :=
  repeat 48%N (width - List.length s) ++ s.

(** Case folding as the store does it for [icontains] (ASCII letters). *)
Definition lower_char (c : codepoint) : codepoint :=
  if ((65 <=? c) && (c <=? 90))%N then (c + 32)%N else c.

Definition lower (s : str) : str := map lower_char s.

Fixpoint startswith (s prefix : str) : bool :=
  match prefix, s with
  | [], _ => true
  | p :: prefix', c :: s' => N.eqb p c && startswith s' prefix'
  | _ :: _, [] => false
  end.

(** [needle in s]. *)
Fixpoint contains (s needle : str) : bool :=
  startswith s needle
  || match s with
     | [] => false
     | _ :: s' => contains s' needle
     end.

(** Binary collation: code point by code point. *)
Fixpoint leb (a b : str) : bool :=
  match a, b with
  | [], _ => true
  | _ :: _, [] => false
  | x :: a', y :: b' => (x <? y)%N || (N.eqb x y && leb a' b')
  end.

End PyStr.

Definition str := PyStr.str.
Definition py := PyStr.of_string.


(** ** The models

    Modelled from the spec: the models of [classroom/models.py], which the
    views import but which is not part of the sources at hand.  A row
    carries its primary key, its foreign keys as the key of the row they
    point to, and the fields the views read. *)

Record User := {
  user_pk : Z;
  is_authenticated : bool;
  is_teacher : bool }.

Record Subject := { subject_pk : Z; subject_name : str }.

Record Quiz := {
  quiz_pk : Z;
  quiz_owner : Z;
  quiz_name : str;
  quiz_subject : option Z }.

Record Question := {
  question_pk : Z;
  question_quiz : Z;
  question_text : str }.

Record Answer := {
  answer_pk : Z;
  answer_question : Z;
  answer_text : str;
  answer_is_correct : bool }.

Record Student := { student_pk : Z }.

Record date := { year : nat; month : nat; day : nat }.

Record datetime := {
  date_of : date;
  hour : nat;
  minute : nat;
  second : nat }.

(** The score of an attempt is read by none of the operations below and is
    left out. *)
Record TakenQuiz := {
  taken_pk : Z;
  taken_student : Z;
  taken_quiz : Z;
  taken_date : datetime }.

Record StudentAnswer := {
  student_answer_pk : Z;
  student_answer_student : Z;
  student_answer_answer : Z }.

(** The store: one list of rows per table. *)
Record DB := {
  subjects : list Subject;
  quizzes : list Quiz;
  questions : list Question;
  answers : list Answer;
  students : list Student;
  taken_quizzes : list TakenQuiz;
  student_answers : list StudentAnswer }.

(** ** Requests, responses and exceptions *)

Inductive Exception :=
| Http404
| DoesNotExist
| MultipleObjectsReturned
| ValueError
| DatabaseError.

(** One submitted form of the answer formset, its fields already converted
    by [to_python]: the hidden [id], [text], [is_correct] and the [DELETE]
    box. *)
Record AnswerFormData := {
  af_id : option Z;
  af_text : str;
  af_is_correct : bool;
  af_DELETE : bool }.

(** The forms of a submitted formset; the management form's INITIAL_FORMS
    says how many of them, from the first, stand for stored answers. *)
Record FormSetData := {
  INITIAL_FORMS : nat;
  forms_data : list AnswerFormData }.

(** [request.POST] as the forms of these views read it. *)
Record POSTData := {
  post_name : str;
  post_subject : option Z;
  post_text : str;
  post_answers : FormSetData }.

Record Request := {
  user : User;
  method : str;
  GET : list (str * str);
  POST : POSTData }.

(** [QueryDict.get(key)]: the last value given for the key, if any. *)
Definition QueryDict_get (d : list (str * str)) (key : str) : option str :=
  match filter (fun kv => PyStr.eqb (fst kv) key) d with
  | [] => None
  | kvs => Some (snd (last kvs (key, [])))
  end.

(** What a view answers: [context] is what it hands to its template, or
    the body of the file it sends. *)
Inductive Response (context : Type) :=
| NotFound
| RedirectToLogin
| Redirect (to : string) (args : list Z)
| Render (template : string) (ctx : context)
| FileResponse (filename : str) (body : context)
| ServerError (e : Exception).

Arguments NotFound {context}.
Arguments RedirectToLogin {context}.
Arguments Redirect {context} to args.
Arguments Render {context} template ctx.
Arguments FileResponse {context} filename body.
Arguments ServerError {context} e.

(** An exception that leaves a view: [Http404] becomes the not-found page,
    anything else a server error. *)
Definition handle_exception {C} (e : Exception) : Response C :=
  match e with
  | Http404 => NotFound
  | _ => ServerError e
  end.

(** Modelled from the spec: [login_required] and [teacher_required] of
    [classroom/decorators.py] (absent): a visitor who is not a signed-in
    teacher is sent to the login page and the view does not run. *)
Definition login_required {A} (request : Request) (denied view : A) : A :=
  if is_authenticated (user request) then view else denied.

Definition teacher_required {A} (request : Request) (denied view : A) : A :=
  if is_teacher (user request) then view else denied.

(** ** Queries *)

(** [queryset.get()]. *)
Definition queryset_get {A} (queryset : list A) : Exception + A :=
  match queryset with
  | [] => inl DoesNotExist
  | [x] => inr x
  | _ :: _ :: _ => inl MultipleObjectsReturned
  end.

(** [get_object_or_404(queryset)], and [get_object] of the generic views:
    a missing row is the not-found page. *)
Definition get_object_or_404 {A} (queryset : list A) : Exception + A :=
  match queryset_get queryset with
  | inl DoesNotExist => inl Http404
  | r => r
  end.

(** [user.quizzes.all()]: the reverse side of [Quiz.owner]. *)
Definition user_quizzes (u : User) (d : DB) : list Quiz :=
  filter (fun q => quiz_owner q =? user_pk u)%Z (quizzes d).

(** [quiz.questions.all()]. *)
Definition quiz_questions (quiz : Quiz) (d : DB) : list Question :=
  filter (fun q => question_quiz q =? quiz_pk quiz)%Z (questions d).

(** [question.answers.all()]. *)
Definition question_answers (question : Question) (d : DB) : list Answer :=
  filter (fun a => answer_question a =? question_pk question)%Z (answers d).

(** [Count(..., distinct=True)] over a join: the number of distinct
    primary keys among the joined rows. *)
Definition count_distinct (pks : list Z) : nat :=
  List.length (nodup Z.eq_dec pks).

(** The key an auto-incremented primary key column gives to a new row:
    one more than the largest key of the table. *)
Definition next_pk (pks : list Z) : Z :=
  (1 + fold_right Z.max 0 pks)%Z.

(** ** Writes, failures and transactions

    A write may fail: [faults] says, for the writes still to come, which of
    them the store refuses ([true]); past its end every write succeeds. *)

Record World := { db : DB; faults : list bool }.

Definition Tx (A : Type) := World -> (Exception + A) * World.

Definition ret {A} (x : A) : Tx A := fun w => (inr x, w).

Definition bind {A B} (m : Tx A) (k : A -> Tx B) : Tx B :=
  fun w =>
    match m w with
    | (inr x, w') => k x w'
    | (inl e, w') => (inl e, w')
    end.

Definition read {A} (f : DB -> A) : Tx A := fun w => (inr (f (db w)), w).

Definition write (f : DB -> DB) : Tx unit :=
  fun w =>
    match faults w with
    | true :: fs => (inl DatabaseError, {| db := db w; faults := fs |})
    | false :: fs => (inr tt, {| db := f (db w); faults := fs |})
    | [] => (inr tt, {| db := f (db w); faults := [] |})
    end.

(** [with transaction.atomic(): body]: when the body raises, the store is
    put back as it was on entry and the exception goes on. *)
Definition transaction_atomic {A} (body : Tx A) : Tx A :=
  fun w =>
    match body w with
    | (inr x, w') => (inr x, w')
    | (inl e, w') => (inl e, {| db := db w; faults := faults w' |})
    end.

Declare Scope tx_scope.
Delimit Scope tx_scope with tx.
Notation "x <- m ;; k" := (bind m (fun x => k))
  (at level 61, m at next level, right associativity) : tx_scope.
Notation "m ;;; k" := (bind m (fun _ => k))
  (at level 61, right associativity) : tx_scope.

(** A sequence of writes, one after the other. *)
Fixpoint for_each {A} (f : A -> Tx unit) (l : list A) : Tx unit :=
  match l with
  | [] => ret tt
  | x :: l' => bind (f x) (fun _ => for_each f l')
  end.

(** A view body run to its response. *)
Definition respond {C} (m : Tx (Response C)) (w : World) : Response C * World :=
  match m w with
  | (inr r, w') => (r, w')
  | (inl e, w') => (handle_exception e, w')
  end.

(** Row operations. *)
Definition set_quizzes (f : list Quiz -> list Quiz) (d : DB) : DB :=
  {| subjects := subjects d; quizzes := f (quizzes d);
     questions := questions d; answers := answers d; students := students d;
     taken_quizzes := taken_quizzes d; student_answers := student_answers d |}.

Definition set_questions (f : list Question -> list Question) (d : DB) : DB :=
  {| subjects := subjects d; quizzes := quizzes d;
     questions := f (questions d); answers := answers d;
     students := students d; taken_quizzes := taken_quizzes d;
     student_answers := student_answers d |}.

Definition set_answers (f : list Answer -> list Answer) (d : DB) : DB :=
  {| subjects := subjects d; quizzes := quizzes d; questions := questions d;
     answers := f (answers d); students := students d;
     taken_quizzes := taken_quizzes d; student_answers := student_answers d |}.

(** [UPDATE ... WHERE pk = ...]. *)
Definition update_row {A} (pk : A -> Z) (row : A) (rows : list A) : list A :=
  map (fun r => if (pk r =? pk row)%Z then row else r) rows.

(** [DELETE ... WHERE pk = ...]. *)
Definition delete_row {A} (pk : A -> Z) (key : Z) (rows : list A) : list A :=
  filter (fun r => negb (pk r =? key)%Z) rows.

(** ** The quiz list *)

(** A query that groups and carries no ORDER BY leaves the order of its
    groups to the database engine: some rearrangement of them. *)
Class Backend := {
  emit_groups : forall A : Type, list A -> list A;
  emit_groups_perm :
    forall (A : Type) (l : list A), Permutation l (emit_groups A l) }.

Arguments emit_groups {Backend A} l.

(** A quiz with the two counts the list view annotates it with. *)
Record QuizRow := {
  row_quiz : Quiz;
  questions_count : nat;
  taken_count : nat }.

Definition annotate_counts (d : DB) (q : Quiz) : QuizRow :=
  {| row_quiz := q;
     questions_count :=
       count_distinct
         (map question_pk
            (filter (fun x => question_quiz x =? quiz_pk q)%Z (questions d)));
     taken_count :=
       count_distinct
         (map taken_pk
            (filter (fun x => taken_quiz x =? quiz_pk q)%Z (taken_quizzes d))) |}.

(** A queryset not yet evaluated: the selected rows and the ORDER BY. *)
Record QuerySet := {
  selected : list QuizRow;
  order_by : option str }.

(** [filter(name__icontains=value)]. *)
Definition filter_name_icontains (value : str) (qs : QuerySet) : QuerySet :=
  {| selected :=
       filter (fun r => PyStr.contains (PyStr.lower (quiz_name (row_quiz r)))
                                       (PyStr.lower value))
              (selected qs);
     order_by := order_by qs |}.

(** [filter(subject__pk=value)]: the value is converted with [int] when the
    filter is built, and a string that is no integer raises. *)
Definition filter_subject_pk (value : str) (qs : QuerySet)
  : Exception + QuerySet :=
  match PyStr.int value with
  | None => inl ValueError
  | Some n =>
      inr {| selected :=
               filter (fun r => match quiz_subject (row_quiz r) with
                                | Some s => (s =? n)%Z
                                | None => false
                                end)
                      (selected qs);
             order_by := order_by qs |}
  end.

(** The view overrides [get_queryset] without calling the inherited one,
    so its [ordering] attribute plays no part: the queryset is ordered only
    when the request asks for it. *)
Definition QuizListView_get_queryset (request : Request) (d : DB)
  : Exception + QuerySet :=
  let find_query := QueryDict_get (GET request) (py "q") in
  let type_query := QueryDict_get (GET request) (py "type") in
  let ordering_query := QueryDict_get (GET request) (py "ordering") in
  let queryset :=
    {| selected := map (annotate_counts d) (user_quizzes (user request) d);
       order_by := None |} in
  let queryset :=
    match find_query with
    | Some q => filter_name_icontains q queryset
    | None => queryset
    end in
  match
    match type_query with
    | Some t =>
        if PyStr.isdigit t then filter_subject_pk t queryset
        else inr queryset
    | None => inr queryset
    end
  with
  | inl e => inl e
  | inr queryset =>
      inr match ordering_query with
          | Some o =>
              if PyStr.eqb o (py "name") || PyStr.eqb o (py "-name")
              then {| selected := selected queryset; order_by := Some o |}
              else queryset
          | None => queryset
          end
  end.

Fixpoint insert_by {A} (le : A -> A -> bool) (x : A) (l : list A) : list A :=
  match l with
  | [] => [x]
  | y :: l' => if le x y then x :: l else y :: insert_by le x l'
  end.

Definition sort_by {A} (le : A -> A -> bool) (l : list A) : list A :=
  fold_right (insert_by le) [] l.

(** Running the query: the groups as the engine emits them, sorted when an
    ORDER BY was asked for (["name"] ascending, ["-name"] descending). *)
Definition evaluate `{Backend} (qs : QuerySet) : list QuizRow :=
  let emitted := emit_groups (selected qs) in
  match order_by qs with
  | None => emitted
  | Some o =>
      if PyStr.eqb o (py "name")
      then sort_by (fun a b => PyStr.leb (quiz_name (row_quiz a))
                                         (quiz_name (row_quiz b))) emitted
      else sort_by (fun a b => PyStr.leb (quiz_name (row_quiz b))
                                         (quiz_name (row_quiz a))) emitted
  end.

Record QuizListContext := {
  ctx_quizzes : list QuizRow;
  ctx_subjects_list : list Subject }.

Definition QuizListView `{Backend} (request : Request) (d : DB)
  : Response QuizListContext :=
  login_required request RedirectToLogin
    (teacher_required request RedirectToLogin
       match QuizListView_get_queryset request d with
       | inl e => handle_exception e
       | inr qs =>
           Render "classroom/teachers/quiz_change_list.html"
             {| ctx_quizzes := evaluate qs;
                ctx_subjects_list := subjects d |}
       end).

(** ** Attempts per day *)

Definition date_eqb (a b : date) : bool :=
  (year a =? year b)%nat && (month a =? month b)%nat && (day a =? day b)%nat.

(** [TruncDate('date')]. *)
Definition TruncDate (t : datetime) : date := date_of t.

Fixpoint distinct_dates (l : list date) : list date :=
  match l with
  | [] => []
  | x :: l' => x :: filter (fun y => negb (date_eqb y x)) (distinct_dates l')
  end.

(** [values('date_only').annotate(count=Count('id'))]: one group per date,
    with the number of rows that fall on it. *)
Definition group_by_date (l : list date) : list (date * nat) :=
  map (fun x => (x, List.length (filter (date_eqb x) l))) (distinct_dates l).

(** [strftime("%m/%d/%Y")]. *)
Definition strftime_mdY (x : date) : str :=
  PyStr.zfill 2 (PyStr.of_nat (month x)) ++ py "/"
  ++ PyStr.zfill 2 (PyStr.of_nat (day x)) ++ py "/"
  ++ PyStr.zfill 4 (PyStr.of_nat (year x)).

(** The attempts at the quizzes of [u] ([filter(quiz__owner=user)], a join
    with the quiz table). *)
Definition taken_of_owner (u : User) (d : DB) : list TakenQuiz :=
  filter (fun t =>
            existsb (fun q => (quiz_pk q =? taken_quiz t)%Z
                              && (quiz_owner q =? user_pk u)%Z) (quizzes d))
         (taken_quizzes d).

Record AnalyticsContext := {
  labels : list str;
  data : list nat }.

Definition analytics_queryset `{Backend} (u : User) (d : DB)
  : list (date * nat) :=
  emit_groups (group_by_date (map (fun t => TruncDate (taken_date t))
                                  (taken_of_owner u d))).

Definition get_analytics_by_count_taken_quizzes `{Backend}
  (request : Request) (d : DB) : Response AnalyticsContext :=
  login_required request RedirectToLogin
    (teacher_required request RedirectToLogin
       (let queryset := analytics_queryset (user request) d in
        let '(labels, data) :=
          fold_left (fun '(labels, data) entry =>
                       (labels ++ [strftime_mdY (fst entry)],
                        data ++ [snd entry]))
                    queryset ([], []) in
        Render "classroom/teachers/analytics.html"
          {| labels := labels; data := data |})).

(** *** Words to speak about the quiz list *)

(** Whether a quiz passes the name filter and the subject filter of a
    request. *)
Definition name_matches (request : Request) (q : Quiz) : bool :=
  match QueryDict_get (GET request) (py "q") with
  | Some v => PyStr.contains (PyStr.lower (quiz_name q)) (PyStr.lower v)
  | None => true
  end.

Definition subject_matches (request : Request) (q : Quiz) : bool :=
  match QueryDict_get (GET request) (py "type") with
  | Some t =>
      if PyStr.isdigit t then
        match PyStr.int t, quiz_subject q with
        | Some n, Some s => (s =? n)%Z
        | _, _ => false
        end
      else true
  | None => true
  end.



(** *** Words to speak about the analytics *)





(** ** The answers of a student *)

(** A Python [dict] with string keys: the entries in insertion order.
    Assigning to a key already present replaces its value in place. *)
Fixpoint dict_set {V} (k : str) (v : V) (d : list (str * V))
  : list (str * V) :=
  match d with
  | [] => [(k, v)]
  | (k', v') :: d' =>
      if PyStr.eqb k' k then (k', v) :: d' else (k', v') :: dict_set k v d'
  end.

Fixpoint dict_get {V} (k : str) (d : list (str * V)) : option V :=
  match d with
  | [] => None
  | (k', v') :: d' => if PyStr.eqb k' k then Some v' else dict_get k d'
  end.

Definition dict_keys {V} (d : list (str * V)) : list str := map fst d.

Record StudentsAnswersContext := {
  ctx_quiz : Quiz;
  ctx_answers : list (str * list Answer);
  ctx_students_answers : list Answer;
  ctx_student : Student }.

(** [Quiz] rows with the given key and owner. *)
Definition quiz_by_pk_owner (pk : Z) (u : User) (d : DB) : list Quiz :=
  filter (fun q => (quiz_pk q =? pk)%Z && (quiz_owner q =? user_pk u)%Z)
         (quizzes d).

(** [answer.student_answer.filter(student=student).exists()]. *)
Definition selected_by (student : Student) (d : DB) (answer : Answer) : bool :=
  existsb (fun sa => (student_answer_answer sa =? answer_pk answer)%Z
                     && (student_answer_student sa =? student_pk student)%Z)
          (student_answers d).

(** {question.text: question.answers.all() for question in questions} *)
Definition answers_by_text (questions : list Question) (d : DB)
  : list (str * list Answer) :=
  fold_left (fun acc question =>
               dict_set (question_text question) (question_answers question d)
                        acc)
            questions [].

(** The two nested loops that collect the selected answers. *)
Definition collect_students_answers (student : Student) (d : DB)
  (all_answers : list (list Answer)) : list Answer :=
  fold_left (fun students_answers question_answer =>
               fold_left (fun students_answers answer =>
                            if selected_by student d answer
                            then students_answers ++ [answer]
                            else students_answers)
                         question_answer students_answers)
            all_answers [].

Definition view_students_answers_body (request : Request)
  (quiz_pk' student_pk' : Z) (d : DB)
  : Exception + Response StudentsAnswersContext :=
  match get_object_or_404 (quiz_by_pk_owner quiz_pk' (user request) d) with
  | inl e => inl e
  | inr quiz =>
  match get_object_or_404
          (filter (fun s => student_pk s =? student_pk')%Z (students d)) with
  | inl e => inl e
  | inr student =>
  match queryset_get (quiz_by_pk_owner quiz_pk' (user request) d) with
  | inl e => inl e
  | inr quiz' =>
      let questions := quiz_questions quiz' d in
      let answers := answers_by_text questions d in
      let all_answers :=
        map (fun question => question_answers question d) questions in
      let students_answers := collect_students_answers student d all_answers in
      inr (Render "classroom/teachers/user_quiz_answers.html"
             {| ctx_quiz := quiz;
                ctx_answers := answers;
                ctx_students_answers := students_answers;
                ctx_student := student |})
  end end end.

Definition view_students_answers (request : Request)
  (quiz_pk' student_pk' : Z) (d : DB) : Response StudentsAnswersContext :=
  login_required request RedirectToLogin
    (teacher_required request RedirectToLogin
       match view_students_answers_body request quiz_pk' student_pk' d with
       | inl e => handle_exception e
       | inr r => r
       end).

(** *** Words to speak about the mapping *)

Definition str_eq_dec : forall a b : str, {a = b} + {a <> b} :=
  list_eq_dec N.eq_dec.

(** The last question of a list that has the given text. *)
Definition last_with_text (t : str) (questions : list Question)
  : option Question :=
  find (fun q => PyStr.eqb (question_text q) t) (rev questions).

(** The answers of the questions of a quiz, question after question. *)
Definition quiz_answers (quiz : Quiz) (d : DB) : list Answer :=
  flat_map (fun question => question_answers question d)
           (quiz_questions quiz d).

(** ** The quiz as a PDF

    Of the FPDF object the view uses the current font and the cells written
    so far; a cell records the font it was written in.  [alias_nb_pages]
    and [add_page] open the first page and write no cell; page breaks are
    FPDF's own and are not part of the cells. *)

Record Font := { family : string; style : string; size : nat }.

Record Cell := {
  cell_font : option Font;
  cell_w : nat;
  cell_h : nat;
  cell_txt : str;
  cell_ln : nat }.

Record FPDF := { current_font : option Font; cells : list Cell }.

Definition FPDF_new : FPDF := {| current_font := None; cells := [] |}.

Definition set_font (family style : string) (size : nat) (pdf : FPDF) : FPDF :=
  {| current_font := Some {| family := family; style := style; size := size |};
     cells := cells pdf |}.

Definition cell (w h : nat) (txt : str) (ln : nat) (pdf : FPDF) : FPDF :=
  {| current_font := current_font pdf;
     cells := cells pdf
              ++ [{| cell_font := current_font pdf; cell_w := w; cell_h := h;
                     cell_txt := txt; cell_ln := ln |}] |}.

(** The body of the inner loop, on the pair (pdf, answer_lines). *)
Definition pdf_answer (st : FPDF * nat) (answer : Answer) : FPDF * nat :=
  let '(pdf, answer_lines) := st in
  let pdf :=
    cell 0 10 (PyStr.of_nat answer_lines ++ py ". " ++ answer_text answer) 1
         pdf in
  (pdf, answer_lines + 1).

(** The body of the outer loop, on the pair (pdf, question_lines). *)
Definition pdf_question (d : DB) (st : FPDF * nat) (question : Question)
  : FPDF * nat :=
  let '(pdf, question_lines) := st in
  let pdf := cell 0 10 [] 1 pdf in
  let pdf := set_font "Times" "B" 14 pdf in
  let pdf :=
    cell 0 10
         (PyStr.of_nat question_lines ++ py ". " ++ question_text question) 1
         pdf in
  let pdf := set_font "Times" "" 14 pdf in
  let pdf := cell 0 10 [] 1 pdf in
  let question_lines := question_lines + 1 in
  let answer_lines := 1 in
  let '(pdf, _) :=
    fold_left pdf_answer (question_answers question d) (pdf, answer_lines) in
  (pdf, question_lines).

Definition get_quiz_in_pdf_body (request : Request) (quiz_pk' : Z) (d : DB)
  : Exception + Response FPDF :=
  match get_object_or_404 (quiz_by_pk_owner quiz_pk' (user request) d) with
  | inl e => inl e
  | inr quiz =>
      let pdf := FPDF_new in
      let pdf := set_font "Times" "B" 16 pdf in
      let pdf := cell 0 10 (quiz_name quiz) 1 pdf in
      let pdf := set_font "Times" "" 14 pdf in
      match queryset_get (quiz_by_pk_owner quiz_pk' (user request) d) with
      | inl e => inl e
      | inr quiz' =>
          let questions := quiz_questions quiz' d in
          let question_lines := 1 in
          let '(pdf, _) :=
            fold_left (pdf_question d) questions (pdf, question_lines) in
          inr (FileResponse (quiz_name quiz ++ py ".pdf") pdf)
      end
  end.

Definition get_quiz_in_pdf (request : Request) (quiz_pk' : Z) (d : DB)
  : Response FPDF :=
  login_required request RedirectToLogin
    (teacher_required request RedirectToLogin
       match get_quiz_in_pdf_body request quiz_pk' d with
       | inl e => handle_exception e
       | inr r => r
       end).

(** *** The document as the specification describes it

    The title line, then for each question a block: a blank line, the
    numbered heading, a blank line, and the answers numbered from one. *)

Definition Times (style : string) (size : nat) : option Font :=
  Some {| family := "Times"; style := style; size := size |}.

Definition line (font : option Font) (txt : str) : Cell :=
  {| cell_font := font; cell_w := 0; cell_h := 10; cell_txt := txt;
     cell_ln := 1 |}.

Definition numbered (n : nat) (txt : str) : str :=
  PyStr.of_nat n ++ py ". " ++ txt.

Fixpoint answer_list (n : nat) (answers : list Answer) : list Cell :=
  match answers with
  | [] => []
  | a :: rest =>
      line (Times "" 14) (numbered n (answer_text a))
      :: answer_list (S n) rest
  end.

Fixpoint question_blocks (d : DB) (n : nat) (questions : list Question)
  : list Cell :=
  match questions with
  | [] => []
  | q :: rest =>
      [ line (Times "" 14) [];
        line (Times "B" 14) (numbered n (question_text q));
        line (Times "" 14) [] ]
      ++ answer_list 1 (question_answers q d)
      ++ question_blocks d (S n) rest
  end.


(** ** Forms

    Modelled from the spec: [classroom/forms.py] and the field declarations
    of [classroom/models.py] are not part of the sources at hand.  What the
    model forms built from them reject is taken as given: the error codes
    each field validation yields (none when the value is accepted), and the
    formset-wide check [BaseAnswerInlineFormSet.clean]. *)
Class Forms := {
  Quiz_name_errors : str -> list string;
  Quiz_subject_errors : DB -> option Z -> list string;
  Question_text_errors : str -> list string;
  Answer_text_errors : str -> list string;
  BaseAnswerInlineFormSet_clean : list AnswerFormData -> list string }.

Definition no_errors (errors : list string) : bool :=
  match errors with [] => true | _ :: _ => false end.

(** A view body that only reads the store. *)
Definition query {A} (f : DB -> Exception + A) : Tx A :=
  fun w => (f (db w), w).

(** The two decorators in front of a view that may write. *)
Definition teacher_only {C} (request : Request)
  (view : World -> Response C * World) : World -> Response C * World :=
  login_required request (fun w => (RedirectToLogin, w))
    (teacher_required request (fun w => (RedirectToLogin, w)) view).

(** ** Changing and deleting a quiz *)

Definition QuizUpdateView_get_queryset (request : Request) (d : DB)
  : list Quiz :=
  user_quizzes (user request) d.

Definition QuizDeleteView_get_queryset (request : Request) (d : DB)
  : list Quiz :=
  user_quizzes (user request) d.

(** [SingleObjectMixin.get_object]: the row of the queryset with the key
    of the URL. *)
Definition get_object (queryset : list Quiz) (pk : Z) : Exception + Quiz :=
  get_object_or_404 (filter (fun q => quiz_pk q =? pk)%Z queryset).

Record QuizChangeContext := {
  ctx_object : Quiz;
  ctx_questions : list (Question * nat);
  ctx_form_errors : list string }.

(** [questions.annotate(answers_count=Count('answers'))]. *)
Definition QuizUpdateView_get_context_data (request : Request) (pk : Z)
  (object : Quiz) (errors : list string) : Tx QuizChangeContext :=
  (quiz <- query (fun d => get_object (QuizUpdateView_get_queryset request d) pk) ;;
   questions <- read (fun d =>
     map (fun q => (q, List.length (question_answers q d)))
         (quiz_questions quiz d)) ;;
   ret {| ctx_object := object; ctx_questions := questions;
          ctx_form_errors := errors |})%tx.

Definition QuizUpdateView_get (request : Request) (pk : Z)
  : World -> Response QuizChangeContext * World :=
  teacher_only request (respond
    (object <- query (fun d => get_object (QuizUpdateView_get_queryset request d) pk) ;;
     ctx <- QuizUpdateView_get_context_data request pk object [] ;;
     ret (Render "classroom/teachers/quiz_change_form.html" ctx))%tx).

(** Validation copies every accepted field into the instance; the instance
    is stored only when all of them are accepted. *)
Definition QuizUpdateView_post `{Forms} (request : Request) (pk : Z)
  : World -> Response QuizChangeContext * World :=
  teacher_only request (respond
    (object <- query (fun d => get_object (QuizUpdateView_get_queryset request d) pk) ;;
     let name := post_name (POST request) in
     let subject := post_subject (POST request) in
     subject_errors <- read (fun d => Quiz_subject_errors d subject) ;;
     let object :=
       {| quiz_pk := quiz_pk object;
          quiz_owner := quiz_owner object;
          quiz_name := if no_errors (Quiz_name_errors name)
                       then name else quiz_name object;
          quiz_subject := if no_errors subject_errors
                          then subject else quiz_subject object |} in
     match Quiz_name_errors name ++ subject_errors with
     | [] =>
         write (set_quizzes (update_row quiz_pk object)) ;;;
         ret (Redirect "teachers:quiz_change" [quiz_pk object])
     | errors =>
         ctx <- QuizUpdateView_get_context_data request pk object errors ;;
         ret (Render "classroom/teachers/quiz_change_form.html" ctx)
     end)%tx).

(** Modelled from the spec: deleting a quiz removes its questions and their
    answers with it, in one transaction. *)
Definition delete_quiz (quiz : Quiz) : Tx unit :=
  transaction_atomic
    (write (fun d =>
        set_answers
          (filter (fun a =>
             negb (existsb (fun q => (question_pk q =? answer_question a)%Z
                                     && (question_quiz q =? quiz_pk quiz)%Z)
                           (questions d)))) d) ;;;
     write (set_questions
              (filter (fun q => negb (question_quiz q =? quiz_pk quiz)%Z))) ;;;
     write (set_quizzes (delete_row quiz_pk (quiz_pk quiz))))%tx.

Definition QuizDeleteView_delete (request : Request) (pk : Z)
  : World -> Response Quiz * World :=
  teacher_only request (respond
    (quiz <- query (fun d => get_object (QuizDeleteView_get_queryset request d) pk) ;;
     object <- query (fun d => get_object (QuizDeleteView_get_queryset request d) pk) ;;
     delete_quiz object ;;;
     ret (Redirect "teachers:quiz_change_list" []))%tx).

(** ** Adding a question *)

Record QuestionAddContext := {
  add_quiz : Quiz;
  add_form_errors : list string }.

(** [question.save()] of a new row: the store gives it its key. *)
Definition insert_question (quiz : Quiz) (text : str) : Tx Question :=
  (new_pk <- read (fun d => next_pk (map question_pk (questions d))) ;;
   let question :=
     {| question_pk := new_pk; question_quiz := quiz_pk quiz;
        question_text := text |} in
   write (set_questions (fun rows => rows ++ [question])) ;;;
   ret question)%tx.

Definition question_add `{Forms} (request : Request) (pk : Z)
  : World -> Response QuestionAddContext * World :=
  teacher_only request (respond
    (quiz <- query (fun d =>
       get_object_or_404 (quiz_by_pk_owner pk (user request) d)) ;;
     if PyStr.eqb (method request) (py "POST") then
       match Question_text_errors (post_text (POST request)) with
       | [] =>
           question <- insert_question quiz (post_text (POST request)) ;;
           ret (Redirect "teachers:question_change"
                         [quiz_pk quiz; question_pk question])
       | errors =>
           ret (Render "classroom/teachers/question_add_form.html"
                       {| add_quiz := quiz; add_form_errors := errors |})
       end
     else
       ret (Render "classroom/teachers/question_add_form.html"
                   {| add_quiz := quiz; add_form_errors := [] |}))%tx).

(** ** Changing a question and its answers

    The inline formset of the view: [min_num=2], [max_num=10], both
    validated; forms can be marked for deletion; at most [absolute_max]
    forms are ever built. *)

Definition min_num : nat := 2.
Definition max_num : nat := 10.
Definition absolute_max : nat := max_num + 1000.

(** A form of the bound formset: its data, its place, whether it is one of
    the initial forms, and the stored answer its [id] names (if any). *)
Record AnswerForm := {
  form_data : AnswerFormData;
  form_index : nat;
  is_initial : bool;
  instance : option Answer }.

Definition construct_form (queryset : list Answer) (initial_form_count : nat)
  (i : nat) (fd : AnswerFormData) : AnswerForm :=
  let pk_required := (i <? initial_form_count)%nat in
  {| form_data := fd;
     form_index := i;
     is_initial := pk_required;
     instance :=
       if pk_required then
         match af_id fd with
         | Some pk => find (fun a => answer_pk a =? pk)%Z queryset
         | None => None
         end
       else None |}.

Definition construct_forms (queryset : list Answer) (initial_form_count : nat)
  (data : list AnswerFormData) : list AnswerForm :=
  map (fun p => construct_form queryset initial_form_count (fst p) (snd p))
      (combine (seq 0 (List.length data)) data).

(** The forms of the bound formset: no more than [absolute_max] of the
    submitted ones are built. *)
Definition formset_forms (question : Question) (fs : FormSetData) (d : DB)
  : list AnswerForm :=
  construct_forms (question_answers question d) (INITIAL_FORMS fs)
                  (firstn absolute_max (forms_data fs)).

(** Whether the submitted fields differ from what the form started with:
    the stored answer for a form that has one, blank fields otherwise. *)
Definition has_changed (f : AnswerForm) : bool :=
  let fd := form_data f in
  match instance f with
  | Some a =>
      negb (PyStr.eqb (af_text fd) (answer_text a))
      || negb (Bool.eqb (af_is_correct fd) (answer_is_correct a))
      || af_DELETE fd
  | None =>
      match af_id fd with Some _ => true | None => false end
      || negb (PyStr.eqb (af_text fd) [])
      || af_is_correct fd
      || af_DELETE fd
  end.

(** Extra forms past the minimum may be left blank. *)
Definition empty_permitted (f : AnswerForm) : bool :=
  negb (is_initial f) && (min_num <=? form_index f)%nat.

Definition id_errors (queryset : list Answer) (f : AnswerForm) : list string :=
  match af_id (form_data f) with
  | None => if is_initial f then ["required"%string] else []
  | Some pk =>
      if existsb (fun a => answer_pk a =? pk)%Z queryset then []
      else ["invalid_choice"%string]
  end.

Definition form_errors `{Forms} (queryset : list Answer) (f : AnswerForm)
  : list string :=
  if empty_permitted f && negb (has_changed f) then []
  else id_errors queryset f ++ Answer_text_errors (af_text (form_data f)).

Definition should_delete_form (f : AnswerForm) : bool :=
  af_DELETE (form_data f).

(** Forms due to be deleted do not make the formset invalid. *)
Definition forms_valid `{Forms} (queryset : list Answer)
  (forms : list AnswerForm) : bool :=
  forallb (fun f => no_errors (form_errors queryset f))
          (filter (fun f => negb (should_delete_form f)) forms).

(** The forms marked for deletion; none while some kept form has errors. *)
Definition deleted_forms `{Forms} (queryset : list Answer)
  (forms : list AnswerForm) : list AnswerForm :=
  if forms_valid queryset forms then
    filter (fun f =>
              if negb (is_initial f) && negb (has_changed f) then false
              else should_delete_form f)
           forms
  else [].

(** The formset-wide part of [full_clean]: too many forms, too few, and
    then the formset's own [clean]. *)
Definition non_form_errors `{Forms} (queryset : list Answer)
  (fs : FormSetData) (forms : list AnswerForm) : list string :=
  let total_form_count := List.length forms in
  let deleted := List.length (deleted_forms queryset forms) in
  let empty_forms_count :=
    List.length
      (filter (fun f => negb (has_changed f) && negb (is_initial f)) forms) in
  if (max_num <? total_form_count - deleted)%nat
     || (absolute_max <? List.length (forms_data fs))%nat
  then ["too_many_forms"%string]
  else if (total_form_count - deleted - empty_forms_count <? min_num)%nat
  then ["too_few_forms"%string]
  else BaseAnswerInlineFormSet_clean (map form_data forms).

Definition formset_is_valid `{Forms} (queryset : list Answer)
  (fs : FormSetData) (forms : list AnswerForm) : bool :=
  forms_valid queryset forms
  && no_errors (non_form_errors queryset fs forms).

Definition insert_answer (question : Question) (fd : AnswerFormData)
  : Tx unit :=
  write (set_answers (fun rows =>
    rows ++ [{| answer_pk := next_pk (map answer_pk rows);
                answer_question := question_pk question;
                answer_text := af_text fd;
                answer_is_correct := af_is_correct fd |}])).

(** [save_existing_objects]: a stored answer is deleted when its form is
    marked, rewritten when its form changed, left alone otherwise. *)
Definition save_existing_objects (forms : list AnswerForm) : Tx unit :=
  for_each
    (fun f =>
       match instance f with
       | None => ret tt
       | Some obj =>
           if should_delete_form f then
             write (set_answers (delete_row answer_pk (answer_pk obj)))
           else if has_changed f then
             write (set_answers (update_row answer_pk
               {| answer_pk := answer_pk obj;
                  answer_question := answer_question obj;
                  answer_text := af_text (form_data f);
                  answer_is_correct := af_is_correct (form_data f) |}))
           else ret tt
       end)
    (filter is_initial forms).

(** [save_new_objects]: every extra form that was filled in and is not
    marked for deletion becomes a new answer of the question. *)
Definition save_new_objects (question : Question) (forms : list AnswerForm)
  : Tx unit :=
  for_each
    (fun f =>
       if negb (has_changed f) then ret tt
       else if should_delete_form f then ret tt
       else insert_answer question (form_data f))
    (filter (fun f => negb (is_initial f)) forms).

Definition formset_save (question : Question) (forms : list AnswerForm)
  : Tx unit :=
  (save_existing_objects forms ;;; save_new_objects question forms)%tx.

(** [form.save()] of the question form. *)
Definition form_save (question : Question) : Tx unit :=
  write (set_questions (update_row question_pk question)).

Record QuestionChangeContext := {
  change_quiz : Quiz;
  change_question : Question;
  change_form_errors : list string;
  change_formset_errors : list (list string);
  change_non_form_errors : list string }.

Definition question_change `{Forms} (request : Request)
  (quiz_pk' question_pk' : Z)
  : World -> Response QuestionChangeContext * World :=
  teacher_only request (respond
    (quiz <- query (fun d =>
       get_object_or_404 (quiz_by_pk_owner quiz_pk' (user request) d)) ;;
     question <- query (fun d =>
       get_object_or_404
         (filter (fun q => (question_pk q =? question_pk')%Z
                           && (question_quiz q =? quiz_pk quiz)%Z)
                 (questions d))) ;;
     if PyStr.eqb (method request) (py "POST") then
       let text := post_text (POST request) in
       let fs := post_answers (POST request) in
       queryset <- read (question_answers question) ;;
       forms <- read (formset_forms question fs) ;;
       let question :=
         if no_errors (Question_text_errors text)
         then {| question_pk := question_pk question;
                 question_quiz := question_quiz question;
                 question_text := text |}
         else question in
       if no_errors (Question_text_errors text)
          && formset_is_valid queryset fs forms
       then
         transaction_atomic
           (form_save question ;;; formset_save question forms) ;;;
         ret (Redirect "teachers:quiz_change" [quiz_pk quiz])
       else
         ret (Render "classroom/teachers/question_change_form.html"
                {| change_quiz := quiz;
                   change_question := question;
                   change_form_errors := Question_text_errors text;
                   change_formset_errors :=
                     map (form_errors queryset)
                         (filter (fun f => negb (should_delete_form f))
                                 forms);
                   change_non_form_errors :=
                     non_form_errors queryset fs forms |})
     else
       ret (Render "classroom/teachers/question_change_form.html"
              {| change_quiz := quiz;
                 change_question := question;
                 change_form_errors := [];
                 change_formset_errors := [];
                 change_non_form_errors := [] |}))%tx).

(** ** Creating a quiz *)

(** [quiz.save()] of a new row owned by the requesting user. *)
Definition insert_quiz (owner : User) (name : str) (subject : option Z)
  : Tx Quiz :=
  (new_pk <- read (fun d => next_pk (map quiz_pk (quizzes d))) ;;
   let quiz :=
     {| quiz_pk := new_pk; quiz_owner := user_pk owner; quiz_name := name;
        quiz_subject := subject |} in
   write (set_quizzes (fun rows => rows ++ [quiz])) ;;;
   ret quiz)%tx.

(** The form is the model form of [Quiz] on [name] and [subject], as in
    the update view; the context is the list of its errors. *)
Definition QuizCreateView_post `{Forms} (request : Request)
  : World -> Response (list string) * World :=
  teacher_only request (respond
    (let name := post_name (POST request) in
     let subject := post_subject (POST request) in
     subject_errors <- read (fun d => Quiz_subject_errors d subject) ;;
     match Quiz_name_errors name ++ subject_errors with
     | [] =>
         quiz <- insert_quiz (user request) name subject ;;
         ret (Redirect "teachers:quiz_change" [quiz_pk quiz])
     | errors =>
         ret (Render "classroom/teachers/quiz_add_form.html" errors)
     end)%tx).

(** ** The results of a quiz *)

(** Modelled from the spec: the score of an attempt and its average over a
    set of attempts ([Avg('score')], nothing for no attempt), whose type is
    declared in [classroom/models.py]. *)
Class Scoring := {
  Score : Type;
  Avg_score : list TakenQuiz -> option Score }.

(** The fields of a date and time, most significant first. *)
Definition datetime_key (t : datetime) : list nat :=
  [ year (date_of t); month (date_of t); day (date_of t);
    hour t; minute t; second t ].

Fixpoint lex_leb (a b : list nat) : bool :=
  match a, b with
  | [], _ => true
  | _ :: _, [] => false
  | x :: a', y :: b' => (x <? y)%nat || ((x =? y)%nat && lex_leb a' b')
  end.

Definition datetime_leb (a b : datetime) : bool :=
  lex_leb (datetime_key a) (datetime_key b).

(** [quiz.taken_quizzes]. *)
Definition quiz_taken_quizzes (quiz : Quiz) (d : DB) : list TakenQuiz :=
  filter (fun t => taken_quiz t =? quiz_pk quiz)%Z (taken_quizzes d).

Record QuizResultsContext `{Scoring} := {
  results_quiz : Quiz;
  results_taken_quizzes : list TakenQuiz;
  total_taken_quizzes : nat;
  quiz_score : option Score }.

Definition QuizResultsView_get_queryset (request : Request) (d : DB)
  : list Quiz :=
  user_quizzes (user request) d.

(** [order_by('-date')]: the latest attempt first. *)
Definition QuizResultsView_get_context_data `{Scoring} (request : Request)
  (pk : Z) (object : Quiz) (d : DB) : Exception + QuizResultsContext :=
  match get_object (QuizResultsView_get_queryset request d) pk with
  | inl e => inl e
  | inr quiz =>
      let taken_quizzes :=
        sort_by (fun a b => datetime_leb (taken_date b) (taken_date a))
                (quiz_taken_quizzes quiz d) in
      let total_taken_quizzes := List.length taken_quizzes in
      let quiz_score := Avg_score (quiz_taken_quizzes quiz d) in
      inr {| results_quiz := object;
             results_taken_quizzes := taken_quizzes;
             total_taken_quizzes := total_taken_quizzes;
             quiz_score := quiz_score |}
  end.

Definition QuizResultsView `{Scoring} (request : Request) (pk : Z) (d : DB)
  : Response QuizResultsContext :=
  login_required request RedirectToLogin
    (teacher_required request RedirectToLogin
       match get_object (QuizResultsView_get_queryset request d) pk with
       | inl e => handle_exception e
       | inr object =>
           match QuizResultsView_get_context_data request pk object d with
           | inl e => handle_exception e
           | inr ctx => Render "classroom/teachers/quiz_results.html" ctx
           end
       end).

(** ** Deleting a question *)

(** [Question.objects.filter(quiz__owner=user)]: a join with the quizzes. *)
Definition QuestionDeleteView_get_queryset (request : Request) (d : DB)
  : list Question :=
  filter (fun q =>
            existsb (fun z => (quiz_pk z =? question_quiz q)%Z
                              && (quiz_owner z =? user_pk (user request))%Z)
                    (quizzes d))
         (questions d).

(** [get_object] with [pk_url_kwarg = 'question_pk']. *)
Definition get_question (queryset : list Question) (question_pk' : Z)
  : Exception + Question :=
  get_object_or_404 (filter (fun q => question_pk q =? question_pk')%Z queryset).

(** Modelled from the spec: deleting a question removes its answers with
    it, in one transaction. *)
Definition delete_question (question : Question) : Tx unit :=
  transaction_atomic
    (write (set_answers
              (filter (fun a =>
                 negb (answer_question a =? question_pk question)%Z))) ;;;
     write (set_questions (delete_row question_pk (question_pk question))))%tx.

(** The view's [delete] fetches the question for its message, the
    inherited [delete] fetches it again, and [get_success_url] a third
    time, before the row is deleted. *)
Definition QuestionDeleteView_delete (request : Request) (question_pk' : Z)
  : World -> Response Question * World :=
  teacher_only request (respond
    (question <- query (fun d =>
       get_question (QuestionDeleteView_get_queryset request d) question_pk') ;;
     object <- query (fun d =>
       get_question (QuestionDeleteView_get_queryset request d) question_pk') ;;
     question <- query (fun d =>
       get_question (QuestionDeleteView_get_queryset request d) question_pk') ;;
     delete_question object ;;;
     ret (Redirect "teachers:quiz_change" [question_quiz question]))%tx).

(** *** Words to speak about what a view leaves alone *)

(** The store but for its questions and answers, and but for its quizzes. *)
Definition same_but_questions_answers (d d' : DB) : Prop :=
  subjects d' = subjects d /\ quizzes d' = quizzes d
  /\ students d' = students d /\ taken_quizzes d' = taken_quizzes d
  /\ student_answers d' = student_answers d.

Definition same_but_quizzes (d d' : DB) : Prop :=
  subjects d' = subjects d /\ questions d' = questions d
  /\ answers d' = answers d /\ students d' = students d
  /\ taken_quizzes d' = taken_quizzes d
  /\ student_answers d' = student_answers d.


(** The store with the marks of its answers set anew, each by [mark]. *)
Definition with_marks (mark : Answer -> bool) (d : DB) : DB :=
  set_answers
    (map (fun a => {| answer_pk := answer_pk a;
                      answer_question := answer_question a;
                      answer_text := answer_text a;
                      answer_is_correct := mark a |}))
    d.


(** *** Words to speak about a submission

    The answer set a submission asks for is made of its forms that are
    neither marked for deletion nor left blank. *)

Definition submitted_forms (question : Question) (fs : FormSetData) (d : DB)
  : list AnswerForm :=
  construct_forms (question_answers question d) (INITIAL_FORMS fs)
                  (forms_data fs).

Definition left_blank (f : AnswerForm) : bool :=
  negb (has_changed f) && negb (is_initial f).

Definition in_answer_set (f : AnswerForm) : bool :=
  negb (should_delete_form f) && negb (left_blank f).

Definition answer_set (question : Question) (fs : FormSetData) (d : DB)
  : list AnswerForm :=
  filter in_answer_set (submitted_forms question fs d).

(** What saving one initial form, and one extra form, does to the store
    when the store accepts the write. *)
Definition existing_saved (f : AnswerForm) (d : DB) : DB :=
  match instance f with
  | None => d
  | Some obj =>
      if should_delete_form f then
        set_answers (delete_row answer_pk (answer_pk obj)) d
      else if has_changed f then
        set_answers (update_row answer_pk
          {| answer_pk := answer_pk obj;
             answer_question := answer_question obj;
             answer_text := af_text (form_data f);
             answer_is_correct := af_is_correct (form_data f) |}) d
      else d
  end.

Definition new_saved (question : Question) (f : AnswerForm) (d : DB) : DB :=
  if negb (has_changed f) then d
  else if should_delete_form f then d
  else
    set_answers (fun rows =>
      rows ++ [{| answer_pk := next_pk (map answer_pk rows);
                  answer_question := question_pk question;
                  answer_text := af_text (form_data f);
                  answer_is_correct := af_is_correct (form_data f) |}]) d.

(** The store with the question and all of the formset saved. *)
Definition all_saved (question : Question) (forms : list AnswerForm) (d : DB)
  : DB :=
  fold_left (fun d f => new_saved question f d)
    (filter (fun f => negb (is_initial f)) forms)
    (fold_left (fun d f => existing_saved f d)
       (filter is_initial forms)
       (set_questions (update_row question_pk question) d)).

(** The text and the mark of a stored answer, and of a submitted form. *)
Definition answer_fields (a : Answer) : str * bool :=
  (answer_text a, answer_is_correct a).

Definition form_fields (f : AnswerForm) : str * bool :=
  (af_text (form_data f), af_is_correct (form_data f)).

(** The stored answers of the question with a given key. *)
Definition answers_of (question_pk' : Z) (d : DB) : list Answer :=
  filter (fun a => answer_question a =? question_pk')%Z (answers d).


(** The rows a view fetches before it does anything else. *)
Definition question_of_quiz (question_pk' : Z) (quiz : Quiz) (d : DB)
  : list Question :=
  filter (fun q => (question_pk q =? question_pk')%Z
                   && (question_quiz q =? quiz_pk quiz)%Z)
         (questions d).

(** The question with the text of the submission. *)
Definition with_text (question : Question) (text : str) : Question :=
  {| question_pk := question_pk question;
     question_quiz := question_quiz question;
     question_text := text |}.


(** ** Sample data, for the examples below *)

(** An engine that emits the groups as it first met them, and one that
    emits them last first. *)
Definition scan_order : Backend :=
  {| emit_groups := fun A l => l;
     emit_groups_perm := fun A l => Permutation_refl l |}.

Definition reverse_order : Backend :=
  {| emit_groups := fun A l => rev l;
     emit_groups_perm := fun A l => Permutation_rev l |}.

(** Forms that ask for a text that is not blank and check nothing else. *)
Definition required (value : str) : list string :=
  match value with [] => ["required"%string] | _ :: _ => [] end.

Definition plain_forms : Forms :=
  {| Quiz_name_errors := required;
     Quiz_subject_errors := fun d subject =>
       match subject with
       | None => ["required"%string]
       | Some s =>
           if existsb (fun x => subject_pk x =? s)%Z (subjects d) then []
           else ["invalid_choice"%string]
       end;
     Question_text_errors := required;
     Answer_text_errors := required;
     BaseAnswerInlineFormSet_clean := fun _ => [] |}.

Definition teacher (pk : Z) : User :=
  {| user_pk := pk; is_authenticated := true; is_teacher := true |}.

Definition no_POST : POSTData :=
  {| post_name := []; post_subject := None; post_text := [];
     post_answers := {| INITIAL_FORMS := 0; forms_data := [] |} |}.

Definition get_request (u : User) (params : list (str * str)) : Request :=
  {| user := u; method := py "GET"; GET := params; POST := no_POST |}.

Definition post_request (u : User) (p : POSTData) : Request :=
  {| user := u; method := py "POST"; GET := []; POST := p |}.

Definition new_answer (text : string) (is_correct : bool) : AnswerFormData :=
  {| af_id := None; af_text := py text; af_is_correct := is_correct;
     af_DELETE := false |}.

Definition at_noon (y m d : nat) : datetime :=
  {| date_of := {| year := y; month := m; day := d |};
     hour := 12; minute := 0; second := 0 |}.

(** Teacher 1 owns the quiz "Algebra" (two questions with the same text,
    "2+2=?", and four resp. two answers) ; teacher 2 owns "Geometry".
    Student 7 picked answer 2 twice and answer 5 once; the quiz of teacher
    1 was taken twice on 2024-01-01 and once on 2024-01-03. *)
Definition school : DB :=
  {| subjects := [ {| subject_pk := 1; subject_name := py "Math" |} ];
     quizzes :=
       [ {| quiz_pk := 1; quiz_owner := 1; quiz_name := py "Algebra";
            quiz_subject := Some 1%Z |};
         {| quiz_pk := 2; quiz_owner := 2; quiz_name := py "Geometry";
            quiz_subject := Some 1%Z |} ];
     questions :=
       [ {| question_pk := 1; question_quiz := 1;
            question_text := py "2+2=?" |};
         {| question_pk := 2; question_quiz := 1;
            question_text := py "2+2=?" |};
         {| question_pk := 3; question_quiz := 2;
            question_text := py "Sides of a square?" |} ];
     answers :=
       [ {| answer_pk := 1; answer_question := 1; answer_text := py "3";
            answer_is_correct := false |};
         {| answer_pk := 2; answer_question := 1; answer_text := py "4";
            answer_is_correct := true |};
         {| answer_pk := 3; answer_question := 1; answer_text := py "5";
            answer_is_correct := false |};
         {| answer_pk := 4; answer_question := 1; answer_text := py "6";
            answer_is_correct := false |};
         {| answer_pk := 5; answer_question := 2; answer_text := py "four";
            answer_is_correct := true |};
         {| answer_pk := 6; answer_question := 2; answer_text := py "five";
            answer_is_correct := false |} ];
     students := [ {| student_pk := 7 |}; {| student_pk := 8 |} ];
     taken_quizzes :=
       [ {| taken_pk := 1; taken_student := 7; taken_quiz := 1;
            taken_date := at_noon 2024 1 1 |};
         {| taken_pk := 2; taken_student := 8; taken_quiz := 1;
            taken_date := at_noon 2024 1 1 |};
         {| taken_pk := 3; taken_student := 7; taken_quiz := 1;
            taken_date := at_noon 2024 1 3 |};
         {| taken_pk := 4; taken_student := 7; taken_quiz := 2;
            taken_date := at_noon 2024 1 2 |} ];
     student_answers :=
       [ {| student_answer_pk := 1; student_answer_student := 7;
            student_answer_answer := 2 |};
         {| student_answer_pk := 2; student_answer_student := 7;
            student_answer_answer := 5 |};
         {| student_answer_pk := 3; student_answer_student := 7;
            student_answer_answer := 2 |} ] |}.

Definition calm (d : DB) : World := {| db := d; faults := [] |}.

(** A submission for the second question of "Algebra": a new text, the
    first stored answer reworded, the second deleted, one answer added and
    one extra form left blank. *)
Definition nine_question : POSTData :=
  {| post_name := [];
     post_subject := None;
     post_text := py "3*3=?";
     post_answers :=
       {| INITIAL_FORMS := 2;
          forms_data :=
            [ {| af_id := Some 5%Z; af_text := py "nine";
                 af_is_correct := true; af_DELETE := false |};
              {| af_id := Some 6%Z; af_text := py "five";
                 af_is_correct := false; af_DELETE := true |};
              new_answer "six" false;
              new_answer "" false ] |} |}.

(** A submission with three new answers and one with a single answer. *)
Definition three_answers : POSTData :=
  {| post_name := [];
     post_subject := None;
     post_text := py "3*3=?";
     post_answers :=
       {| INITIAL_FORMS := 0;
          forms_data :=
            [ new_answer "six" false; new_answer "nine" true;
              new_answer "twelve" false ] |} |}.

Definition one_answer : POSTData :=
  {| post_name := [];
     post_subject := None;
     post_text := py "3*3=?";
     post_answers :=
       {| INITIAL_FORMS := 0; forms_data := [ new_answer "nine" true ] |} |}.


Definition algebra : Quiz :=
  {| quiz_pk := 1; quiz_owner := 1; quiz_name := py "Algebra";
     quiz_subject := Some 1%Z |}.

(** What teacher 1 is shown of the answers of student 7 to "Algebra". *)
Definition algebra_page : StudentsAnswersContext :=
  {| ctx_quiz := algebra;
     ctx_answers := answers_by_text (quiz_questions algebra school) school;
     ctx_students_answers :=
       collect_students_answers {| student_pk := 7 |} school
         (map (fun question => question_answers question school)
              (quiz_questions algebra school));
     ctx_student := {| student_pk := 7 |} |}.

(** A quiz to create, a new name for "Algebra", scores that are not
    looked at, and a signed-in student. *)
Definition geography : POSTData :=
  {| post_name := py "Geography"; post_subject := Some 1%Z; post_text := [];
     post_answers := {| INITIAL_FORMS := 0; forms_data := [] |} |}.

Definition rename_algebra : POSTData :=
  {| post_name := py "Linear algebra"; post_subject := Some 1%Z;
     post_text := [];
     post_answers := {| INITIAL_FORMS := 0; forms_data := [] |} |}.

Definition no_scores : Scoring :=
  {| Score := unit;
     Avg_score := fun l => match l with [] => None | _ :: _ => Some tt end |}.



(** * Properties *)

(** ** Strings *)

Lemma PyStr_eqb_eq (a b : str) : PyStr.eqb a b = true <-> a = b.
Proof.
  revert b; induction a as [|x a IH]; intros [|y b]; simpl;
    try (split; discriminate); try tauto.
  rewrite andb_true_iff, N.eqb_eq, IH.
  split; [intros [-> ->]; reflexivity | intros E; inversion E; auto].
Qed.

Lemma PyStr_eqb_refl (a : str) : PyStr.eqb a a = true.
Proof. apply PyStr_eqb_eq; reflexivity. Qed.

Lemma PyStr_eqb_neq (a b : str) : PyStr.eqb a b = false <-> a <> b.
Proof.
  rewrite <- PyStr_eqb_eq. destruct (PyStr.eqb a b); split; congruence.
Qed.

(** ** Rows and keys *)

Lemma unique_key {A} (pk : A -> Z) (rows : list A) (a b : A) :
  NoDup (map pk rows) -> In a rows -> In b rows -> pk a = pk b -> a = b.
Proof.
  induction rows as [|r rows IH]; simpl; [tauto|].
  intros ND Ha Hb E. inversion ND as [|? ? Hnot ND']; subst.
  destruct Ha as [->|Ha], Hb as [->|Hb]; auto.
  - exfalso; apply Hnot. rewrite E. now apply in_map.
  - exfalso; apply Hnot. rewrite <- E. now apply in_map.
Qed.

Lemma filter_nil_iff {A} (p : A -> bool) (l : list A) :
  filter p l = [] <-> forall x, In x l -> p x = false.
Proof.
  induction l as [|y l IH]; simpl; [tauto|].
  destruct (p y) eqn:E; split.
  - discriminate.
  - intros Hall. specialize (Hall y (or_introl eq_refl)). congruence.
  - intros Hnil x [->|Hx]; [assumption | now apply IH].
  - intros Hall. apply IH. auto.
Qed.

Lemma filter_unique_key {A} (pk : A -> Z) (rows : list A) (a : A) :
  NoDup (map pk rows) -> In a rows ->
  filter (fun r => pk r =? pk a)%Z rows = [a].
Proof.
  induction rows as [|r rows IH]; simpl; [tauto|].
  intros ND Ha. inversion ND as [|? ? Hnot ND']; subst.
  destruct Ha as [->|Ha].
  - rewrite Z.eqb_refl. f_equal. apply filter_nil_iff.
    intros x Hx. apply Z.eqb_neq. intros E. apply Hnot. rewrite <- E.
    now apply in_map.
  - destruct (Z.eqb_spec (pk r) (pk a)) as [E|_]; [|auto].
    exfalso; apply Hnot. rewrite E. now apply in_map.
Qed.

(** ** C5: the quiz list *)

(** The superscript two passes [isdigit] and is no integer. *)
Example superscript_two_isdigit :
  PyStr.isdigit [178%N] = true /\ PyStr.int [178%N] = None.
Proof. split; reflexivity. Qed.

(** C5 (failing input): with [?type=] the superscript two, which
    [str.isdigit] accepts and [int] rejects, the quiz list does not ignore
    the value: building the subject filter raises [ValueError] and the view
    answers with a server error, for every teacher and every store. *)
Theorem QuizListView_superscript_type_raises :
  forall (B : Backend) (pk : Z) (d : DB),
    let request := get_request (teacher pk) [(py "type", [178%N])] in
    QuizListView_get_queryset request d = inl ValueError
    /\ QuizListView request d = ServerError ValueError.
Proof.
  intros B pk d request. split; reflexivity.
Qed.

(** X1: whatever the parameters, the only way the quiz list fails is the
    subject filter, on a value that is all digits and no integer. *)
Lemma QuizListView_get_queryset_error (request : Request) (d : DB) (e : Exception) :
  QuizListView_get_queryset request d = inl e ->
  e = ValueError
  /\ exists t, QueryDict_get (GET request) (py "type") = Some t
               /\ PyStr.isdigit t = true /\ PyStr.int t = None.
Proof.
  unfold QuizListView_get_queryset, filter_subject_pk.
  destruct (QueryDict_get (GET request) (py "type")) as [t|]; [|discriminate].
  destruct (PyStr.isdigit t) eqn:Hd; [|discriminate].
  destruct (PyStr.int t) eqn:Hi; [discriminate|].
  intros E; inversion E; subst. split; [reflexivity|]. now exists t.
Qed.

(** X2: when it does not fail, the quiz list holds quizzes of the
    requesting teacher only, each with its number of questions and of
    attempts. *)
Lemma QuizListView_get_queryset_owned (request : Request) (d : DB) (qs : QuerySet) :
  QuizListView_get_queryset request d = inr qs ->
  forall r, In r (selected qs) ->
    In (row_quiz r) (quizzes d)
    /\ quiz_owner (row_quiz r) = user_pk (user request)
    /\ r = annotate_counts d (row_quiz r).
Proof.
  unfold QuizListView_get_queryset, filter_subject_pk, filter_name_icontains.
  set (base := map (annotate_counts d) (user_quizzes (user request) d)).
  assert (Hbase : forall r, In r base ->
            In (row_quiz r) (quizzes d)
            /\ quiz_owner (row_quiz r) = user_pk (user request)
            /\ r = annotate_counts d (row_quiz r)).
  { intros r Hr. apply in_map_iff in Hr as [q [<- Hq]].
    apply filter_In in Hq as [Hq Ho]. apply Z.eqb_eq in Ho. simpl. auto. }
  intros E r Hr. apply Hbase.
  destruct (QueryDict_get (GET request) (py "q")) as [q|];
    destruct (QueryDict_get (GET request) (py "type")) as [t|];
    try destruct (PyStr.isdigit t); try destruct (PyStr.int t);
    try discriminate;
    destruct (QueryDict_get (GET request) (py "ordering")) as [o|];
    try destruct (PyStr.eqb o (py "name") || PyStr.eqb o (py "-name"));
    inversion E; subst; simpl in Hr;
    repeat (apply filter_In in Hr as [Hr _]); exact Hr.
Qed.

Lemma QuizListView_get_queryset_error_witness :
  ValueError = ValueError
  /\ exists t,
       QueryDict_get (GET (get_request (teacher 1) [(py "type", [178%N])]))
                     (py "type") = Some t
       /\ PyStr.isdigit t = true /\ PyStr.int t = None.
Proof.
  exact (QuizListView_get_queryset_error
           (get_request (teacher 1) [(py "type", [178%N])]) school ValueError
           eq_refl).
Defined.

(** The scenario of the specification: "Alg" finds the quiz "Algebra" of
    teacher 1, "Geo" finds nothing; a subject that is not a number and an
    ordering that is not a name are ignored. *)
Example quiz_list_scenario :
  QuizListView_get_queryset
    (get_request (teacher 1)
       [(py "q", py "Alg"); (py "type", py "abc"); (py "ordering", py "pk")])
    school
  = inr {| selected := [annotate_counts school algebra]; order_by := None |}
  /\ QuizListView_get_queryset
       (get_request (teacher 1) [(py "q", py "Geo")]) school
     = inr {| selected := []; order_by := None |}.
Proof. split; reflexivity. Qed.

Lemma QuizListView_get_queryset_owned_witness :
  In (row_quiz (annotate_counts school algebra)) (quizzes school)
  /\ quiz_owner (row_quiz (annotate_counts school algebra)) = 1%Z
  /\ annotate_counts school algebra
     = annotate_counts school (row_quiz (annotate_counts school algebra)).
Proof.
  exact (QuizListView_get_queryset_owned
           (get_request (teacher 1) [(py "q", py "Alg")]) school
           {| selected := [annotate_counts school algebra];
              order_by := None |}
           eq_refl (annotate_counts school algebra) (or_introl eq_refl)).
Defined.

(** ** C1: quizzes of other teachers *)

Lemma not_owner_get_object (u : User) (d : DB) (Q : Quiz) :
  NoDup (map quiz_pk (quizzes d)) -> In Q (quizzes d) ->
  quiz_owner Q <> user_pk u ->
  get_object (user_quizzes u d) (quiz_pk Q) = inl Http404.
Proof.
  intros ND HQ Hown. unfold get_object, get_object_or_404, user_quizzes.
  replace (filter _ (filter _ (quizzes d))) with (@nil Quiz); [reflexivity|].
  symmetry. apply filter_nil_iff. intros q Hq.
  apply filter_In in Hq as [Hq Ho]. apply Z.eqb_eq in Ho.
  apply Z.eqb_neq. intros E.
  assert (q = Q) by (eapply unique_key; eauto). subst q. auto.
Qed.

(** C1: a signed-in teacher who is not the owner of a stored quiz gets the
    not-found page from the update view (shown or submitted) and from the
    delete view, never another answer, and the store, pending failures
    included, is exactly what it was. *)
Theorem not_owner_update_delete_not_found :
  forall (F : Forms) (request : Request) (w : World) (Q : Quiz),
    is_authenticated (user request) = true ->
    is_teacher (user request) = true ->
    NoDup (map quiz_pk (quizzes (db w))) ->
    In Q (quizzes (db w)) ->
    quiz_owner Q <> user_pk (user request) ->
    QuizUpdateView_get request (quiz_pk Q) w = (NotFound, w)
    /\ QuizUpdateView_post request (quiz_pk Q) w = (NotFound, w)
    /\ QuizDeleteView_delete request (quiz_pk Q) w = (NotFound, w).
Proof.
  intros F request w Q Ha Ht ND HQ Hown.
  pose proof (not_owner_get_object (user request) (db w) Q ND HQ Hown) as E.
  unfold QuizUpdateView_get, QuizUpdateView_post, QuizDeleteView_delete,
    teacher_only, login_required, teacher_required, respond, bind, query,
    QuizUpdateView_get_queryset, QuizDeleteView_get_queryset.
  rewrite Ha, Ht, E. simpl. auto.
Qed.

Lemma school_quiz_keys : NoDup (map quiz_pk (quizzes school)).
Proof. repeat constructor; simpl; intuition discriminate. Qed.

Lemma not_owner_update_delete_not_found_witness :
  let request := post_request (teacher 2) no_POST in
  QuizUpdateView_get request 1 (calm school) = (NotFound, calm school)
  /\ @QuizUpdateView_post plain_forms request 1 (calm school)
     = (NotFound, calm school)
  /\ QuizDeleteView_delete request 1 (calm school) = (NotFound, calm school).
Proof.
  apply (not_owner_update_delete_not_found plain_forms
           (post_request (teacher 2) no_POST) (calm school)
           {| quiz_pk := 1; quiz_owner := 1; quiz_name := py "Algebra";
              quiz_subject := Some 1%Z |}).
  - reflexivity.
  - reflexivity.
  - exact school_quiz_keys.
  - simpl. left. reflexivity.
  - simpl. discriminate.
Defined.

(** ** C7: the quiz as a PDF *)

Lemma fold_pdf_answer (answers : list Answer) (pdf : FPDF) (n : nat) :
  current_font pdf = Times "" 14 ->
  fold_left pdf_answer answers (pdf, n)
  = ({| current_font := Times "" 14;
        cells := cells pdf ++ answer_list n answers |},
     n + List.length answers).
Proof.
  revert pdf n. induction answers as [|a answers IH]; intros pdf n Hfont.
  - simpl. rewrite app_nil_r, Nat.add_0_r. destruct pdf; simpl in *.
    now subst.
  - cbn [fold_left].
    change (pdf_answer (pdf, n) a)
      with (cell 0 10 (numbered n (answer_text a)) 1 pdf, n + 1).
    rewrite IH by exact Hfont.
    cbn [cell cells current_font]. rewrite Hfont, <- app_assoc.
    cbn [answer_list app]. unfold line.
    f_equal; [f_equal; f_equal; f_equal; f_equal; lia | cbn; lia].
Qed.

Lemma fold_pdf_question (d : DB) (questions : list Question) (pdf : FPDF)
  (n : nat) :
  current_font pdf = Times "" 14 ->
  fold_left (pdf_question d) questions (pdf, n)
  = ({| current_font := Times "" 14;
        cells := cells pdf ++ question_blocks d n questions |},
     n + List.length questions).
Proof.
  revert pdf n. induction questions as [|q questions IH]; intros pdf n Hfont.
  - simpl. rewrite app_nil_r, Nat.add_0_r. destruct pdf; simpl in *.
    now subst.
  - cbn [fold_left].
    assert (Estep : pdf_question d (pdf, n) q
                    = ({| current_font := Times "" 14;
                          cells := cells pdf
                                   ++ question_blocks d n [q] |}, n + 1)).
    { unfold pdf_question. rewrite fold_pdf_answer by reflexivity.
      cbn. rewrite Hfont. rewrite app_nil_r.
      repeat rewrite <- app_assoc. reflexivity. }
    rewrite Estep, IH by reflexivity.
    cbn [cells question_blocks]. rewrite app_nil_r.
    repeat rewrite <- app_assoc.
    f_equal; [f_equal; do 3 f_equal; f_equal; lia | cbn; lia].
Qed.



(** ** Dictionaries *)

Lemma dict_get_set_same {V} (k : str) (v : V) (d : list (str * V)) :
  dict_get k (dict_set k v d) = Some v.
Proof.
  induction d as [|[k' v'] d IH]; simpl.
  - now rewrite PyStr_eqb_refl.
  - destruct (PyStr.eqb k' k) eqn:E; simpl; rewrite E; auto.
Qed.

Lemma dict_get_set_other {V} (k k0 : str) (v : V) (d : list (str * V)) :
  k <> k0 -> dict_get k0 (dict_set k v d) = dict_get k0 d.
Proof.
  intros Hne. induction d as [|[k' v'] d IH]; simpl.
  - apply PyStr_eqb_neq in Hne. now rewrite Hne.
  - destruct (PyStr.eqb k' k) eqn:E; simpl.
    + apply PyStr_eqb_eq in E. subst k'.
      apply PyStr_eqb_neq in Hne. now rewrite Hne.
    + now rewrite IH.
Qed.

Lemma dict_keys_set {V} (k k0 : str) (v : V) (d : list (str * V)) :
  In k0 (dict_keys (dict_set k v d)) <-> k0 = k \/ In k0 (dict_keys d).
Proof.
  unfold dict_keys. induction d as [|[k' v'] d IH]; simpl.
  - intuition.
  - destruct (PyStr.eqb k' k) eqn:E; simpl.
    + apply PyStr_eqb_eq in E. subst k'. intuition.
    + rewrite IH. intuition.
Qed.

Lemma dict_keys_set_NoDup {V} (k : str) (v : V) (d : list (str * V)) :
  NoDup (dict_keys d) -> NoDup (dict_keys (dict_set k v d)).
Proof.
  unfold dict_keys. induction d as [|[k' v'] d IH]; simpl; intros ND.
  - repeat constructor. simpl. tauto.
  - inversion ND as [|? ? Hnot ND']; subst.
    destruct (PyStr.eqb k' k) eqn:E; simpl.
    + now constructor.
    + constructor; [|auto]. intros Hin.
      apply (dict_keys_set k k' v d) in Hin as [->|Hin]; [|auto].
      now rewrite PyStr_eqb_refl in E.
Qed.

Lemma find_app {A} (p : A -> bool) (l1 l2 : list A) :
  find p (l1 ++ l2)
  = match find p l1 with Some x => Some x | None => find p l2 end.
Proof.
  induction l1 as [|x l1 IH]; simpl; [reflexivity|].
  now destruct (p x).
Qed.

Section AnswersByText.

Variable d : DB.

Let step (acc : list (str * list Answer)) (question : Question) :=
  dict_set (question_text question) (question_answers question d) acc.

Lemma fold_step_get (questions : list Question) (acc : list (str * list Answer))
  (t : str) :
  dict_get t (fold_left step questions acc)
  = match last_with_text t questions with
    | Some q => Some (question_answers q d)
    | None => dict_get t acc
    end.
Proof.
  revert acc. induction questions as [|q questions IH]; intros acc.
  - reflexivity.
  - simpl fold_left. rewrite IH. unfold last_with_text. simpl rev.
    rewrite find_app. simpl find.
    destruct (find _ (rev questions)); [reflexivity|].
    unfold step.
    destruct (PyStr.eqb (question_text q) t) eqn:E.
    + apply PyStr_eqb_eq in E. subst t. apply dict_get_set_same.
    + apply PyStr_eqb_neq in E. now apply dict_get_set_other.
Qed.

Lemma fold_step_keys (questions : list Question)
  (acc : list (str * list Answer)) (t : str) :
  In t (dict_keys (fold_left step questions acc))
  <-> In t (map question_text questions) \/ In t (dict_keys acc).
Proof.
  revert acc. induction questions as [|q questions IH]; intros acc; simpl.
  - tauto.
  - rewrite IH. unfold step. rewrite dict_keys_set. intuition.
Qed.

Lemma fold_step_NoDup (questions : list Question)
  (acc : list (str * list Answer)) :
  NoDup (dict_keys acc) -> NoDup (dict_keys (fold_left step questions acc)).
Proof.
  revert acc. induction questions as [|q questions IH]; intros acc ND; simpl.
  - assumption.
  - apply IH. now apply dict_keys_set_NoDup.
Qed.

End AnswersByText.

Lemma answers_by_text_get (questions : list Question) (d : DB) (t : str) :
  dict_get t (answers_by_text questions d)
  = option_map (fun q => question_answers q d) (last_with_text t questions).
Proof.
  unfold answers_by_text. rewrite fold_step_get.
  now destruct (last_with_text t questions).
Qed.

Lemma answers_by_text_keys (questions : list Question) (d : DB) (t : str) :
  In t (dict_keys (answers_by_text questions d))
  <-> In t (map question_text questions).
Proof.
  unfold answers_by_text. rewrite fold_step_keys. simpl. tauto.
Qed.

Lemma answers_by_text_NoDup (questions : list Question) (d : DB) :
  NoDup (dict_keys (answers_by_text questions d)).
Proof.
  unfold answers_by_text. apply fold_step_NoDup. constructor.
Qed.

Lemma answers_by_text_length (questions : list Question) (d : DB) :
  List.length (answers_by_text questions d)
  = List.length (nodup str_eq_dec (map question_text questions)).
Proof.
  transitivity (List.length (dict_keys (answers_by_text questions d))).
  - unfold dict_keys. now rewrite length_map.
  - apply Permutation_length, NoDup_Permutation.
    + apply answers_by_text_NoDup.
    + apply NoDup_nodup.
    + intros t. rewrite nodup_In. apply answers_by_text_keys.
Qed.

Lemma last_with_text_some (t : str) (questions : list Question) (q : Question) :
  last_with_text t questions = Some q ->
  In q questions /\ question_text q = t.
Proof.
  unfold last_with_text. intros E. apply find_some in E as [Hin Ht].
  apply in_rev in Hin. apply PyStr_eqb_eq in Ht. auto.
Qed.

Lemma last_with_text_in (questions : list Question) (q : Question) :
  In q questions ->
  exists q', last_with_text (question_text q) questions = Some q'.
Proof.
  intros Hin. unfold last_with_text.
  destruct (find _ (rev questions)) as [q'|] eqn:E; [now exists q'|].
  apply find_none with (x := q) in E; [|now apply in_rev in Hin].
  now rewrite PyStr_eqb_refl in E.
Qed.

(** The view without its decorators, for a quiz and a student found. *)
Lemma view_students_answers_found (request : Request) (qpk spk : Z) (d : DB)
  (quiz : Quiz) (student : Student) :
  is_authenticated (user request) = true ->
  is_teacher (user request) = true ->
  quiz_by_pk_owner qpk (user request) d = [quiz] ->
  filter (fun s => student_pk s =? spk)%Z (students d) = [student] ->
  view_students_answers request qpk spk d
  = Render "classroom/teachers/user_quiz_answers.html"
      {| ctx_quiz := quiz;
         ctx_answers := answers_by_text (quiz_questions quiz d) d;
         ctx_students_answers :=
           collect_students_answers student d
             (map (fun question => question_answers question d)
                  (quiz_questions quiz d));
         ctx_student := student |}.
Proof.
  intros Ha Ht Hq Hs.
  unfold view_students_answers, login_required, teacher_required,
    view_students_answers_body, get_object_or_404, queryset_get.
  now rewrite Ha, Ht, Hq, Hs.
Qed.

(** A page of answers is only ever rendered for a quiz and a student that
    were found. *)
Lemma view_students_answers_rendered (request : Request) (qpk spk : Z)
  (d : DB) (template : string) (ctx : StudentsAnswersContext) :
  view_students_answers request qpk spk d = Render template ctx ->
  exists quiz student,
    quiz_by_pk_owner qpk (user request) d = [quiz]
    /\ filter (fun s => student_pk s =? spk)%Z (students d) = [student]
    /\ ctx = {| ctx_quiz := quiz;
                ctx_answers := answers_by_text (quiz_questions quiz d) d;
                ctx_students_answers :=
                  collect_students_answers student d
                    (map (fun question => question_answers question d)
                         (quiz_questions quiz d));
                ctx_student := student |}.
Proof.
  unfold view_students_answers, login_required, teacher_required,
    view_students_answers_body, get_object_or_404, queryset_get.
  destruct (is_authenticated (user request)); [|discriminate].
  destruct (is_teacher (user request)); [|discriminate].
  destruct (quiz_by_pk_owner qpk (user request) d) as [|quiz [|? ?]];
    try discriminate.
  destruct (filter _ (students d)) as [|student [|? ?]]; try discriminate.
  intros E. inversion E; subst. now exists quiz, student.
Qed.

Lemma last_with_text_split (pre post : list Question) (q : Question) :
  (forall x, In x post -> question_text x <> question_text q) ->
  last_with_text (question_text q) (pre ++ q :: post) = Some q.
Proof.
  intros Hpost. unfold last_with_text.
  rewrite rev_app_distr. simpl rev. rewrite <- app_assoc, find_app.
  destruct (find _ (rev post)) as [x|] eqn:E.
  - apply find_some in E as [Hin Ht]. apply in_rev in Hin.
    apply PyStr_eqb_eq in Ht. now apply Hpost in Hin.
  - simpl. now rewrite PyStr_eqb_refl.
Qed.

(** ** C9: one entry per question text *)

(** C9: in a rendered page the mapping of answers has one entry per
    distinct question text, not per question: its keys are without repeats,
    they are exactly the texts of the questions of the quiz, and their
    number is the number of distinct texts.  The entry of a text holds the
    answers of the last question with that text; so when a later question
    repeats the text of an earlier one, the single entry for that text
    holds the later question's answers. *)
Theorem answers_mapping_keyed_by_text :
  forall (request : Request) (qpk spk : Z) (d : DB) (template : string)
         (ctx : StudentsAnswersContext),
    view_students_answers request qpk spk d = Render template ctx ->
    exists quiz,
      quiz_by_pk_owner qpk (user request) d = [quiz]
      /\ NoDup (dict_keys (ctx_answers ctx))
      /\ (forall t, In t (dict_keys (ctx_answers ctx))
                    <-> In t (map question_text (quiz_questions quiz d)))
      /\ List.length (ctx_answers ctx)
         = List.length
             (nodup str_eq_dec (map question_text (quiz_questions quiz d)))
      /\ (forall t, dict_get t (ctx_answers ctx)
                    = option_map (fun q => question_answers q d)
                        (last_with_text t (quiz_questions quiz d)))
      /\ (forall pre earlier between later post,
            quiz_questions quiz d
            = pre ++ earlier :: between ++ later :: post ->
            question_text earlier = question_text later ->
            (forall x, In x post ->
                       question_text x <> question_text later) ->
            dict_get (question_text earlier) (ctx_answers ctx)
            = Some (question_answers later d)).
Proof.
  intros request qpk spk d template ctx Hview.
  apply view_students_answers_rendered in Hview
    as (quiz & student & Hq & Hs & ->).
  exists quiz. cbn [ctx_answers].
  split; [exact Hq|].
  split; [apply answers_by_text_NoDup|].
  split; [apply answers_by_text_keys|].
  split; [apply answers_by_text_length|].
  split; [apply answers_by_text_get|].
  intros pre earlier between later post Hsplit Htext Hpost.
  rewrite answers_by_text_get, Hsplit, Htext.
  replace (pre ++ earlier :: between ++ later :: post)
    with ((pre ++ earlier :: between) ++ later :: post)
    by (rewrite <- app_assoc; reflexivity).
  now rewrite last_with_text_split.
Qed.

Lemma algebra_page_rendered :
  view_students_answers (get_request (teacher 1) []) 1 7 school
  = Render "classroom/teachers/user_quiz_answers.html" algebra_page.
Proof. reflexivity. Qed.

Lemma answers_mapping_keyed_by_text_witness :
  exists quiz,
    quiz_by_pk_owner 1 (teacher 1) school = [quiz]
    /\ NoDup (dict_keys (ctx_answers algebra_page))
    /\ (forall t, In t (dict_keys (ctx_answers algebra_page))
                  <-> In t (map question_text (quiz_questions quiz school)))
    /\ List.length (ctx_answers algebra_page)
       = List.length
           (nodup str_eq_dec
                  (map question_text (quiz_questions quiz school)))
    /\ (forall t, dict_get t (ctx_answers algebra_page)
                  = option_map (fun q => question_answers q school)
                      (last_with_text t (quiz_questions quiz school)))
    /\ (forall pre earlier between later post,
          quiz_questions quiz school
          = pre ++ earlier :: between ++ later :: post ->
          question_text earlier = question_text later ->
          (forall x, In x post ->
                     question_text x <> question_text later) ->
          dict_get (question_text earlier) (ctx_answers algebra_page)
          = Some (question_answers later school)).
Proof.
  exact (answers_mapping_keyed_by_text
           (get_request (teacher 1) []) 1 7 school
           "classroom/teachers/user_quiz_answers.html" algebra_page
           algebra_page_rendered).
Defined.

(** The two questions of "Algebra" read the same: one entry, with the
    answers of the second. *)
Example algebra_page_answers :
  ctx_answers algebra_page
  = [ (py "2+2=?",
       [ {| answer_pk := 5; answer_question := 2; answer_text := py "four";
            answer_is_correct := true |};
         {| answer_pk := 6; answer_question := 2; answer_text := py "five";
            answer_is_correct := false |} ]) ].
Proof. reflexivity. Qed.

(** ** C10: the selected answers *)

Lemma collect_inner (student : Student) (d : DB) (l acc : list Answer) :
  fold_left (fun students_answers answer =>
               if selected_by student d answer
               then students_answers ++ [answer]
               else students_answers) l acc
  = acc ++ filter (selected_by student d) l.
Proof.
  revert acc. induction l as [|a l IH]; intros acc; simpl.
  - now rewrite app_nil_r.
  - rewrite IH. destruct (selected_by student d a); [|reflexivity].
    now rewrite <- app_assoc.
Qed.

Lemma collect_outer (student : Student) (d : DB) (all : list (list Answer))
  (acc : list Answer) :
  fold_left (fun students_answers question_answer =>
               fold_left (fun students_answers answer =>
                            if selected_by student d answer
                            then students_answers ++ [answer]
                            else students_answers)
                         question_answer students_answers) all acc
  = acc ++ filter (selected_by student d) (List.concat all).
Proof.
  revert acc. induction all as [|l all IH]; intros acc; simpl.
  - now rewrite app_nil_r.
  - rewrite IH, collect_inner, filter_app, app_assoc. reflexivity.
Qed.

(** The two loops keep, in order, the answers of the quiz that the student
    selected. *)
Lemma collect_students_answers_filter (student : Student) (d : DB)
  (quiz : Quiz) :
  collect_students_answers student d
    (map (fun question => question_answers question d) (quiz_questions quiz d))
  = filter (selected_by student d) (quiz_answers quiz d).
Proof.
  unfold collect_students_answers, quiz_answers.
  rewrite collect_outer, flat_map_concat_map. reflexivity.
Qed.

Lemma NoDup_map_filter {A} (pk : A -> Z) (p : A -> bool) (rows : list A) :
  NoDup (map pk rows) -> NoDup (map pk (filter p rows)).
Proof.
  induction rows as [|r rows IH]; simpl; intros ND; [constructor|].
  inversion ND as [|? ? Hnot ND']; subst.
  destruct (p r); simpl; [|auto].
  constructor; [|auto]. intros Hin. apply Hnot.
  apply in_map_iff in Hin as [x [E Hx]]. apply filter_In in Hx as [Hx _].
  rewrite <- E. now apply in_map.
Qed.

Lemma quiz_answers_keys (quiz : Quiz) (d : DB) :
  NoDup (map question_pk (questions d)) ->
  NoDup (map answer_pk (answers d)) ->
  NoDup (map answer_pk (quiz_answers quiz d)).
Proof.
  intros NDq NDa. unfold quiz_answers, quiz_questions.
  apply (NoDup_map_filter question_pk
           (fun q => question_quiz q =? quiz_pk quiz)%Z) in NDq.
  induction (filter (fun q => question_quiz q =? quiz_pk quiz)%Z (questions d))
    as [|q qs IH]; simpl; [constructor|].
  inversion NDq as [|? ? Hnot NDq']; subst.
  rewrite map_app. apply NoDup_app.
  - now apply NoDup_map_filter.
  - now apply IH.
  - intros k H1 H2.
    apply in_map_iff in H1 as [a1 [E1 H1]].
    apply filter_In in H1 as [H1 F1]. apply Z.eqb_eq in F1.
    apply in_map_iff in H2 as [a2 [E2 H2]].
    apply in_flat_map in H2 as [q' [Hq' H2]].
    apply filter_In in H2 as [H2 F2]. apply Z.eqb_eq in F2.
    assert (a1 = a2) by (eapply unique_key; eauto; congruence). subst a2.
    apply Hnot. replace (question_pk q) with (question_pk q') by congruence.
    now apply in_map.
Qed.

Lemma selected_by_iff (student : Student) (d : DB) (a : Answer) :
  selected_by student d a = true
  <-> exists sa, In sa (student_answers d)
                 /\ student_answer_answer sa = answer_pk a
                 /\ student_answer_student sa = student_pk student.
Proof.
  unfold selected_by. rewrite existsb_exists. split.
  - intros [sa [Hin H]]. apply andb_true_iff in H as [H1 H2].
    apply Z.eqb_eq in H1, H2. eauto.
  - intros [sa [Hin [H1 H2]]]. exists sa. split; [assumption|].
    now rewrite H1, H2, !Z.eqb_refl.
Qed.

(** C10: in a rendered page no answer occurs twice among the selected
    answers (no key, hence no row, repeats), however many records link the
    student to it: an answer of the quiz is listed exactly when at least
    one such record exists. *)
Theorem selected_answers_without_repeats :
  forall (request : Request) (qpk spk : Z) (d : DB) (template : string)
         (ctx : StudentsAnswersContext),
    NoDup (map question_pk (questions d)) ->
    NoDup (map answer_pk (answers d)) ->
    view_students_answers request qpk spk d = Render template ctx ->
    NoDup (map answer_pk (ctx_students_answers ctx))
    /\ NoDup (ctx_students_answers ctx)
    /\ forall a,
         In a (ctx_students_answers ctx)
         <-> In a (quiz_answers (ctx_quiz ctx) d)
             /\ exists sa, In sa (student_answers d)
                           /\ student_answer_answer sa = answer_pk a
                           /\ student_answer_student sa
                              = student_pk (ctx_student ctx).
Proof.
  intros request qpk spk d template ctx NDq NDa Hview.
  apply view_students_answers_rendered in Hview
    as (quiz & student & Hq & Hs & ->).
  cbn [ctx_students_answers ctx_quiz ctx_student].
  rewrite collect_students_answers_filter.
  assert (ND : NoDup (map answer_pk
                        (filter (selected_by student d) (quiz_answers quiz d)))).
  { apply NoDup_map_filter. now apply quiz_answers_keys. }
  split; [exact ND|].
  split; [exact (NoDup_map_inv _ _ ND)|].
  intros a. rewrite filter_In, selected_by_iff. reflexivity.
Qed.

Lemma school_question_keys : NoDup (map question_pk (questions school)).
Proof. repeat constructor; simpl; intuition discriminate. Qed.

Lemma school_answer_keys : NoDup (map answer_pk (answers school)).
Proof. repeat constructor; simpl; intuition discriminate. Qed.

Lemma selected_answers_without_repeats_witness :
  NoDup (map answer_pk (ctx_students_answers algebra_page))
  /\ NoDup (ctx_students_answers algebra_page)
  /\ forall a,
       In a (ctx_students_answers algebra_page)
       <-> In a (quiz_answers (ctx_quiz algebra_page) school)
           /\ exists sa, In sa (student_answers school)
                         /\ student_answer_answer sa = answer_pk a
                         /\ student_answer_student sa
                            = student_pk (ctx_student algebra_page).
Proof.
  exact (selected_answers_without_repeats
           (get_request (teacher 1) []) 1 7 school
           "classroom/teachers/user_quiz_answers.html" algebra_page
           school_question_keys school_answer_keys algebra_page_rendered).
Defined.

(** Student 7 picked answer 2 in two attempts: it is listed once. *)
Example algebra_page_students_answers :
  map answer_pk (ctx_students_answers algebra_page) = [2%Z; 5%Z].
Proof. reflexivity. Qed.

(** ** C6: what the page of a student's answers holds *)

(** C6 (counterexample): both questions of "Algebra" read "2+2=?"; the
    mapping shown to teacher 1 does not send the text of the first
    question to the answers of the first question (it holds those of the
    second). *)
Lemma mapping_not_per_question :
  exists question,
    view_students_answers (get_request (teacher 1) []) 1 7 school
    = Render "classroom/teachers/user_quiz_answers.html" algebra_page
    /\ In question (quiz_questions algebra school)
    /\ dict_get (question_text question) (ctx_answers algebra_page)
       <> Some (question_answers question school).
Proof.
  exists {| question_pk := 1; question_quiz := 1;
            question_text := py "2+2=?" |}.
  split; [reflexivity|].
  split; [simpl; auto|].
  vm_compute. discriminate.
Qed.

(** C6 (amended): for a signed-in teacher the view answers not-found when
    no quiz with that key is theirs, and not-found when the quiz is theirs
    and no student has the given key.  Otherwise it renders the quiz, the
    student, a mapping and a list.  The mapping sends the text of every
    question of the quiz to all the answers of the last question of the
    quiz with that text: to the question's own answers when no other
    question of the quiz has its text; and every entry is the full list of
    answers of some question with that text.  The list holds exactly the
    answers of the quiz that the student selected, in the order of the
    quiz, and it is empty when no record links the student to an answer of
    the quiz. *)
Theorem view_students_answers_contract :
  forall (request : Request) (qpk spk : Z) (d : DB),
    is_authenticated (user request) = true ->
    is_teacher (user request) = true ->
    (quiz_by_pk_owner qpk (user request) d = [] ->
     view_students_answers request qpk spk d = NotFound)
    /\ (forall quiz,
          quiz_by_pk_owner qpk (user request) d = [quiz] ->
          filter (fun s => student_pk s =? spk)%Z (students d) = [] ->
          view_students_answers request qpk spk d = NotFound)
    /\ (forall quiz student,
          quiz_by_pk_owner qpk (user request) d = [quiz] ->
          filter (fun s => student_pk s =? spk)%Z (students d) = [student] ->
          exists ctx,
            view_students_answers request qpk spk d
            = Render "classroom/teachers/user_quiz_answers.html" ctx
            /\ ctx_quiz ctx = quiz
            /\ ctx_student ctx = student
            /\ (forall question,
                  In question (quiz_questions quiz d) ->
                  exists last,
                    last_with_text (question_text question)
                                   (quiz_questions quiz d) = Some last
                    /\ dict_get (question_text question) (ctx_answers ctx)
                       = Some (question_answers last d))
            /\ (forall question,
                  In question (quiz_questions quiz d) ->
                  (forall other,
                     In other (quiz_questions quiz d) ->
                     question_text other = question_text question ->
                     other = question) ->
                  dict_get (question_text question) (ctx_answers ctx)
                  = Some (question_answers question d))
            /\ (forall t v,
                  dict_get t (ctx_answers ctx) = Some v ->
                  exists question,
                    In question (quiz_questions quiz d)
                    /\ question_text question = t
                    /\ v = question_answers question d)
            /\ ctx_students_answers ctx
               = filter (selected_by student d) (quiz_answers quiz d)
            /\ ((forall sa a,
                   In sa (student_answers d) ->
                   In a (quiz_answers quiz d) ->
                   student_answer_student sa = student_pk student ->
                   student_answer_answer sa <> answer_pk a) ->
                ctx_students_answers ctx = [])).
Proof.
  intros request qpk spk d Ha Ht.
  split; [|split].
  - intros Hq.
    unfold view_students_answers, login_required, teacher_required,
      view_students_answers_body, get_object_or_404, queryset_get.
    now rewrite Ha, Ht, Hq.
  - intros quiz Hq Hs.
    unfold view_students_answers, login_required, teacher_required,
      view_students_answers_body, get_object_or_404, queryset_get.
    now rewrite Ha, Ht, Hq, Hs.
  - intros quiz student Hq Hs.
    eexists. split;
      [exact (view_students_answers_found request qpk spk d quiz student
                Ha Ht Hq Hs)|].
    cbn [ctx_quiz ctx_student ctx_answers ctx_students_answers].
    split; [reflexivity|]. split; [reflexivity|].
    split; [|split; [|split; [|split]]].
    + intros question Hin.
      destruct (last_with_text_in _ _ Hin) as [last Hlast].
      exists last. split; [exact Hlast|].
      now rewrite answers_by_text_get, Hlast.
    + intros question Hin Huniq.
      destruct (last_with_text_in _ _ Hin) as [last Hlast].
      rewrite answers_by_text_get, Hlast. simpl.
      apply last_with_text_some in Hlast as [Hl Htext].
      now rewrite (Huniq last Hl Htext).
    + intros t v Hget. rewrite answers_by_text_get in Hget.
      destruct (last_with_text t (quiz_questions quiz d)) as [q|] eqn:E;
        [|discriminate].
      apply last_with_text_some in E as [Hin Htext].
      exists q. inversion Hget. auto.
    + apply collect_students_answers_filter.
    + intros Hnone. rewrite collect_students_answers_filter.
      apply filter_nil_iff. intros a Hin.
      destruct (selected_by student d a) eqn:E; [|reflexivity].
      apply selected_by_iff in E as (sa & Hsa & E1 & E2).
      exfalso. exact (Hnone sa a Hsa Hin E2 E1).
Qed.

Lemma view_students_answers_contract_witness :
  exists ctx,
    view_students_answers (get_request (teacher 1) []) 1 8 school
    = Render "classroom/teachers/user_quiz_answers.html" ctx
    /\ ctx_students_answers ctx = []
    /\ dict_get (py "2+2=?") (ctx_answers ctx)
       = Some (question_answers
                 {| question_pk := 2; question_quiz := 1;
                    question_text := py "2+2=?" |} school).
Proof.
  destruct (view_students_answers_contract
              (get_request (teacher 1) []) 1 8 school eq_refl eq_refl)
    as (_ & _ & Hfound).
  destruct (Hfound algebra {| student_pk := 8 |} eq_refl eq_refl)
    as (ctx & Hview & _ & _ & Hlast & _ & _ & _ & Hnone).
  exists ctx. split; [exact Hview|]. split.
  - apply Hnone. intros sa a Hsa _ Hst.
    simpl in Hsa. destruct Hsa as [<-|[<-|[<-|[]]]]; discriminate Hst.
  - destruct (Hlast {| question_pk := 1; question_quiz := 1;
                       question_text := py "2+2=?" |})
      as (last & Hl & Hget); [simpl; auto|].
    vm_compute in Hl. injection Hl as <-. exact Hget.
Defined.

(** ** C4: attempts per day *)

Lemma date_eqb_eq (a b : date) : date_eqb a b = true <-> a = b.
Proof.
  destruct a as [y m d], b as [y' m' d']. unfold date_eqb; simpl.
  rewrite !andb_true_iff, !Nat.eqb_eq.
  split; [intros [[-> ->] ->]; reflexivity | intros E; inversion E; auto].
Qed.

Lemma date_eqb_refl (a : date) : date_eqb a a = true.
Proof. now apply date_eqb_eq. Qed.

Lemma distinct_dates_In (l : list date) (x : date) :
  In x (distinct_dates l) <-> In x l.
Proof.
  induction l as [|y l IH]; simpl; [tauto|].
  rewrite filter_In, IH. split.
  - intros [->|[H _]]; auto.
  - intros [->|H]; [auto|].
    destruct (date_eqb x y) eqn:E.
    + apply date_eqb_eq in E. auto.
    + right. split; [assumption | reflexivity].
Qed.

Lemma distinct_dates_NoDup (l : list date) : NoDup (distinct_dates l).
Proof.
  induction l as [|y l IH]; simpl; constructor.
  - rewrite filter_In. intros [_ H]. cbv beta in H.
    now rewrite date_eqb_refl in H.
  - now apply NoDup_filter.
Qed.





Lemma analytics_loop (queryset : list (date * nat)) (labels0 : list str)
  (data0 : list nat) :
  fold_left (fun '(labels, data) entry =>
               (labels ++ [strftime_mdY (fst entry)], data ++ [snd entry]))
            queryset (labels0, data0)
  = (labels0 ++ map (fun entry => strftime_mdY (fst entry)) queryset,
     data0 ++ map snd queryset).
Proof.
  revert labels0 data0.
  induction queryset as [|e queryset IH]; intros labels0 data0; simpl.
  - now rewrite !app_nil_r.
  - rewrite IH, <- !app_assoc. reflexivity.
Qed.




Example analytics_scenario :
  @get_analytics_by_count_taken_quizzes scan_order
     (get_request (teacher 1) []) school
  = Render "classroom/teachers/analytics.html"
      {| labels := [py "01/01/2024"; py "01/03/2024"]; data := [2; 1] |}.
Proof. reflexivity. Qed.

(** ** Writes that succeed, writes that fail *)

Lemma write_ok (f : DB -> DB) (w w' : World) (u : unit) :
  write f w = (inr u, w') -> db w' = f (db w).
Proof.
  unfold write. destruct (faults w) as [|[|] fs]; intros E;
    inversion E; reflexivity.
Qed.

Lemma for_each_ok {A} (g : A -> Tx unit) (eff : A -> DB -> DB) :
  (forall x w w' u, g x w = (inr u, w') -> db w' = eff x (db w)) ->
  forall l w w' u,
    for_each g l w = (inr u, w') ->
    db w' = fold_left (fun d x => eff x d) l (db w).
Proof.
  intros Hg l. induction l as [|x l IH]; intros w w' u E; simpl in *.
  - unfold ret in E. now inversion E.
  - unfold bind in E. destruct (g x w) as [[e|u1] w1] eqn:E1; [discriminate|].
    apply Hg in E1. apply IH in E. now rewrite E, E1.
Qed.

Lemma save_existing_objects_ok (forms : list AnswerForm) (w w' : World)
  (u : unit) :
  save_existing_objects forms w = (inr u, w') ->
  db w' = fold_left (fun d f => existing_saved f d)
                    (filter is_initial forms) (db w).
Proof.
  apply for_each_ok. intros f w0 w1 u0. unfold existing_saved.
  destruct (instance f) as [obj|].
  - destruct (should_delete_form f); [apply write_ok|].
    destruct (has_changed f); [apply write_ok|].
    unfold ret. intros E; now inversion E.
  - unfold ret. intros E; now inversion E.
Qed.

Lemma save_new_objects_ok (question : Question) (forms : list AnswerForm)
  (w w' : World) (u : unit) :
  save_new_objects question forms w = (inr u, w') ->
  db w' = fold_left (fun d f => new_saved question f d)
                    (filter (fun f => negb (is_initial f)) forms) (db w).
Proof.
  apply for_each_ok. intros f w0 w1 u0. unfold new_saved.
  destruct (negb (has_changed f)); [unfold ret; intros E; now inversion E|].
  destruct (should_delete_form f); [unfold ret; intros E; now inversion E|].
  apply write_ok.
Qed.

(** The two saves of [question_change], when neither fails. *)
Lemma saves_ok (question : Question) (forms : list AnswerForm)
  (w w' : World) (u : unit) :
  (form_save question ;;; formset_save question forms)%tx w = (inr u, w') ->
  db w' = all_saved question forms (db w).
Proof.
  unfold bind, form_save, formset_save, bind, all_saved.
  destruct (write _ w) as [[e|u0] w0] eqn:E0; [discriminate|].
  apply write_ok in E0.
  destruct (save_existing_objects forms w0) as [[e|u1] w1] eqn:E1;
    [discriminate|].
  apply save_existing_objects_ok in E1.
  intros E2. apply save_new_objects_ok in E2.
  now rewrite E2, E1, E0.
Qed.

(** A transaction either went through or left the store as it found it. *)
Lemma transaction_atomic_cases {A} (body : Tx A) (w : World) :
  (exists x w', body w = (inr x, w')
                /\ transaction_atomic body w = (inr x, w'))
  \/ (exists e w', transaction_atomic body w = (inl e, w') /\ db w' = db w).
Proof.
  unfold transaction_atomic. destruct (body w) as [[e|x] w'].
  - right. now exists e, {| db := db w; faults := faults w' |}.
  - left. now exists x, w'.
Qed.

(** ** The view that changes a question, case by case *)

Section QuestionChange.

Context {F : Forms}.
Variable request : Request.
Variables qpk qnpk : Z.
Variable w : World.

Let text := post_text (POST request).
Let fs := post_answers (POST request).

Lemma question_change_denied :
  is_authenticated (user request) && is_teacher (user request) = false ->
  question_change request qpk qnpk w = (RedirectToLogin, w).
Proof.
  unfold question_change, teacher_only, login_required, teacher_required.
  destruct (is_authenticated (user request)), (is_teacher (user request));
    simpl; intros E; try discriminate; reflexivity.
Qed.

Lemma question_change_no_quiz (e : Exception) :
  is_authenticated (user request) = true ->
  is_teacher (user request) = true ->
  get_object_or_404 (quiz_by_pk_owner qpk (user request) (db w)) = inl e ->
  question_change request qpk qnpk w = (handle_exception e, w).
Proof.
  intros Ha Ht Hq.
  unfold question_change, teacher_only, login_required, teacher_required,
    respond, bind, query.
  now rewrite Ha, Ht, Hq.
Qed.

Lemma question_change_no_question (quiz : Quiz) (e : Exception) :
  is_authenticated (user request) = true ->
  is_teacher (user request) = true ->
  get_object_or_404 (quiz_by_pk_owner qpk (user request) (db w)) = inr quiz ->
  get_object_or_404 (question_of_quiz qnpk quiz (db w)) = inl e ->
  question_change request qpk qnpk w = (handle_exception e, w).
Proof.
  intros Ha Ht Hq Hn.
  unfold question_change, teacher_only, login_required, teacher_required,
    respond, bind, query.
  rewrite Ha, Ht, Hq. unfold question_of_quiz in Hn. now rewrite Hn.
Qed.

Lemma question_change_get (quiz : Quiz) (question : Question) :
  is_authenticated (user request) = true ->
  is_teacher (user request) = true ->
  get_object_or_404 (quiz_by_pk_owner qpk (user request) (db w)) = inr quiz ->
  get_object_or_404 (question_of_quiz qnpk quiz (db w)) = inr question ->
  PyStr.eqb (method request) (py "POST") = false ->
  question_change request qpk qnpk w
  = (Render "classroom/teachers/question_change_form.html"
       {| change_quiz := quiz; change_question := question;
          change_form_errors := []; change_formset_errors := [];
          change_non_form_errors := [] |}, w).
Proof.
  intros Ha Ht Hq Hn Hm.
  unfold question_change, teacher_only, login_required, teacher_required,
    respond, bind, query.
  rewrite Ha, Ht, Hq. unfold question_of_quiz in Hn. now rewrite Hn, Hm.
Qed.

Lemma question_change_invalid (quiz : Quiz) (question : Question) :
  is_authenticated (user request) = true ->
  is_teacher (user request) = true ->
  get_object_or_404 (quiz_by_pk_owner qpk (user request) (db w)) = inr quiz ->
  get_object_or_404 (question_of_quiz qnpk quiz (db w)) = inr question ->
  PyStr.eqb (method request) (py "POST") = true ->
  no_errors (Question_text_errors text)
  && formset_is_valid (question_answers question (db w)) fs
       (formset_forms question fs (db w)) = false ->
  question_change request qpk qnpk w
  = (Render "classroom/teachers/question_change_form.html"
       {| change_quiz := quiz;
          change_question :=
            if no_errors (Question_text_errors text)
            then with_text question text else question;
          change_form_errors := Question_text_errors text;
          change_formset_errors :=
            map (form_errors (question_answers question (db w)))
                (filter (fun f => negb (should_delete_form f))
                        (formset_forms question fs (db w)));
          change_non_form_errors :=
            non_form_errors (question_answers question (db w)) fs
              (formset_forms question fs (db w)) |}, w).
Proof.
  intros Ha Ht Hq Hn Hm Hv.
  unfold question_change, teacher_only, login_required, teacher_required,
    respond, bind, query, read.
  rewrite Ha, Ht, Hq. unfold question_of_quiz in Hn. rewrite Hn, Hm.
  fold text fs. rewrite Hv. reflexivity.
Qed.

Lemma question_change_valid (quiz : Quiz) (question : Question) :
  is_authenticated (user request) = true ->
  is_teacher (user request) = true ->
  get_object_or_404 (quiz_by_pk_owner qpk (user request) (db w)) = inr quiz ->
  get_object_or_404 (question_of_quiz qnpk quiz (db w)) = inr question ->
  PyStr.eqb (method request) (py "POST") = true ->
  no_errors (Question_text_errors text)
  && formset_is_valid (question_answers question (db w)) fs
       (formset_forms question fs (db w)) = true ->
  question_change request qpk qnpk w
  = match
      transaction_atomic
        (form_save (with_text question text) ;;;
         formset_save (with_text question text)
           (formset_forms question fs (db w)))%tx w
    with
    | (inr _, w') => (Redirect "teachers:quiz_change" [quiz_pk quiz], w')
    | (inl e, w') => (handle_exception e, w')
    end.
Proof.
  intros Ha Ht Hq Hn Hm Hv.
  unfold question_change, teacher_only, login_required, teacher_required,
    respond, bind, query, read.
  rewrite Ha, Ht, Hq. unfold question_of_quiz in Hn. rewrite Hn, Hm.
  fold text fs. rewrite Hv.
  apply andb_true_iff in Hv as [Hv _]. rewrite Hv.
  fold (with_text question text).
  destruct (transaction_atomic _ w) as [[e|u] w']; reflexivity.
Qed.

End QuestionChange.

(** ** C2: both saves or none *)

Lemma existing_saved_questions (forms : list AnswerForm) (d : DB) :
  questions (fold_left (fun d f => existing_saved f d) forms d) = questions d.
Proof.
  revert d. induction forms as [|f forms IH]; intros d; simpl; [reflexivity|].
  rewrite IH. unfold existing_saved.
  destruct (instance f); [|reflexivity].
  destruct (should_delete_form f); [reflexivity|].
  now destruct (has_changed f).
Qed.

Lemma new_saved_questions (question : Question) (forms : list AnswerForm)
  (d : DB) :
  questions (fold_left (fun d f => new_saved question f d) forms d)
  = questions d.
Proof.
  revert d. induction forms as [|f forms IH]; intros d; simpl; [reflexivity|].
  rewrite IH. unfold new_saved.
  destruct (negb (has_changed f)); [reflexivity|].
  now destruct (should_delete_form f).
Qed.

Lemma all_saved_questions (question : Question) (forms : list AnswerForm)
  (d : DB) :
  questions (all_saved question forms d)
  = update_row question_pk question (questions d).
Proof.
  unfold all_saved. now rewrite new_saved_questions, existing_saved_questions.
Qed.

Lemma update_row_In {A} (pk : A -> Z) (row old : A) (rows : list A) :
  In old rows -> pk old = pk row -> In row (update_row pk row rows).
Proof.
  intros Hin E. unfold update_row. apply in_map_iff.
  exists old. split; [|assumption]. now rewrite E, Z.eqb_refl.
Qed.

Lemma get_object_or_404_In {A} (queryset : list A) (x : A) :
  get_object_or_404 queryset = inr x -> queryset = [x].
Proof.
  unfold get_object_or_404, queryset_get.
  destruct queryset as [|y [|z l]]; intros E; inversion E; reflexivity.
Qed.

(** C2: whatever the request and whichever writes the store refuses, after
    [question_change] the store is either the store as it was, or the
    store with both the new text of the question and the whole formset
    saved, in which case the view redirects to the quiz; there is no third
    outcome. *)
Theorem question_change_all_or_nothing :
  forall (F : Forms) (request : Request) (qpk qnpk : Z) (w : World),
    db (snd (question_change request qpk qnpk w)) = db w
    \/ exists quiz question,
         get_object_or_404 (quiz_by_pk_owner qpk (user request) (db w))
         = inr quiz
         /\ get_object_or_404 (question_of_quiz qnpk quiz (db w))
            = inr question
         /\ fst (question_change request qpk qnpk w)
            = Redirect "teachers:quiz_change" [quiz_pk quiz]
         /\ db (snd (question_change request qpk qnpk w))
            = all_saved (with_text question (post_text (POST request)))
                (formset_forms question (post_answers (POST request)) (db w))
                (db w)
         /\ In (with_text question (post_text (POST request)))
               (questions (db (snd (question_change request qpk qnpk w)))).
Proof.
  intros F request qpk qnpk w.
  destruct (is_authenticated (user request) && is_teacher (user request))
    eqn:Hauth.
  2: { left. now rewrite question_change_denied. }
  apply andb_true_iff in Hauth as [Ha Ht].
  destruct (get_object_or_404 (quiz_by_pk_owner qpk (user request) (db w)))
    as [e|quiz] eqn:Hq.
  { left. now rewrite (question_change_no_quiz _ _ _ _ e). }
  destruct (get_object_or_404 (question_of_quiz qnpk quiz (db w)))
    as [e|question] eqn:Hn.
  { left. now rewrite (question_change_no_question _ _ _ _ quiz e). }
  destruct (PyStr.eqb (method request) (py "POST")) eqn:Hm.
  2: { left. now rewrite (question_change_get _ _ _ _ quiz question). }
  destruct (no_errors (Question_text_errors (post_text (POST request)))
            && formset_is_valid (question_answers question (db w))
                 (post_answers (POST request))
                 (formset_forms question (post_answers (POST request)) (db w)))
    eqn:Hv.
  2: { left. now rewrite (question_change_invalid _ _ _ _ quiz question). }
  rewrite (question_change_valid _ _ _ _ quiz question) by assumption.
  destruct (transaction_atomic_cases
              (form_save (with_text question (post_text (POST request))) ;;;
               formset_save (with_text question (post_text (POST request)))
                 (formset_forms question (post_answers (POST request))
                    (db w)))%tx w)
    as [(u & w' & Hbody & ->)|(e & w' & -> & Hdb)].
  - right. exists quiz, question. cbn [fst snd].
    apply saves_ok in Hbody.
    repeat split; try assumption.
    rewrite Hbody, all_saved_questions.
    apply get_object_or_404_In in Hn.
    assert (Hin : In question (question_of_quiz qnpk quiz (db w)))
      by (rewrite Hn; now left).
    apply filter_In in Hin as [Hin _].
    now apply update_row_In with (old := question).
  - left. exact Hdb.
Qed.

(** The third write of the sample submission is refused: the transaction
    is undone and nothing of it is left in the store. *)
Example question_change_refused_write :
  @question_change plain_forms (post_request (teacher 1) nine_question) 1 2
     {| db := school; faults := [false; false; true] |}
  = (ServerError DatabaseError, calm school).
Proof. reflexivity. Qed.

(** The same two saves outside of a transaction would leave the new text
    and the reworded answer behind, next to the answer that was to go. *)
Example saves_without_transaction :
  let question := {| question_pk := 2; question_quiz := 1;
                     question_text := py "3*3=?" |} in
  let left_behind :=
    db (snd ((form_save question ;;;
              formset_save question
                (formset_forms question (post_answers nine_question) school))%tx
               {| db := school; faults := [false; false; true] |})) in
  In question (questions left_behind)
  /\ map answer_pk (question_answers question left_behind) = [5%Z; 6%Z]
  /\ left_behind <> school.
Proof.
  cbv zeta. split; [|split].
  - vm_compute. auto.
  - reflexivity.
  - vm_compute. discriminate.
Qed.

Example saves_without_transaction_texts :
  let question := {| question_pk := 2; question_quiz := 1;
                     question_text := py "3*3=?" |} in
  map answer_text
    (question_answers question
       (db (snd ((form_save question ;;;
                  formset_save question
                    (formset_forms question (post_answers nine_question)
                       school))%tx
                   {| db := school; faults := [false; false; true] |}))))
  = [py "nine"; py "five"].
Proof. reflexivity. Qed.

(** With no write refused the sample submission is saved whole. *)
Example question_change_saved :
  let after :=
    db (snd (@question_change plain_forms
               (post_request (teacher 1) nine_question) 1 2 (calm school))) in
  question_answers {| question_pk := 2; question_quiz := 1;
                      question_text := py "3*3=?" |} after
  = [ {| answer_pk := 5; answer_question := 2; answer_text := py "nine";
         answer_is_correct := true |};
      {| answer_pk := 6; answer_question := 2; answer_text := py "six";
         answer_is_correct := false |} ].
Proof. reflexivity. Qed.

(** ** C3: a submission with too few or too many answers *)

Lemma unchanged_not_deleted (f : AnswerForm) :
  has_changed f = false -> should_delete_form f = false.
Proof.
  unfold has_changed, should_delete_form.
  destruct (instance f); intros E; apply orb_false_iff in E; tauto.
Qed.

Lemma count_partition {A} (p q : A -> bool) (l : list A) :
  (forall x, p x = true -> q x = false) ->
  List.length (filter p l) + List.length (filter q l)
  + List.length (filter (fun x => negb (p x) && negb (q x)) l)
  = List.length l.
Proof.
  intros Hpq. induction l as [|x l IH]; simpl; [reflexivity|].
  destruct (p x) eqn:Ep.
  - rewrite (Hpq x Ep). simpl. lia.
  - destruct (q x); simpl; lia.
Qed.

(** Once every kept form is valid, the forms counted by [full_clean] are
    those of the answer set. *)
Lemma counted_forms (forms : list AnswerForm) :
  List.length forms
  - List.length
      (filter (fun f =>
                 if negb (is_initial f) && negb (has_changed f) then false
                 else should_delete_form f) forms)
  - List.length
      (filter (fun f => negb (has_changed f) && negb (is_initial f)) forms)
  = List.length (filter in_answer_set forms).
Proof.
  set (deleted := fun f : AnswerForm =>
         if negb (is_initial f) && negb (has_changed f) then false
         else should_delete_form f).
  set (blank := fun f : AnswerForm =>
         negb (has_changed f) && negb (is_initial f)).
  assert (Hcount :
            List.length (filter deleted forms)
            + List.length (filter blank forms)
            + List.length
                (filter (fun f => negb (deleted f) && negb (blank f)) forms)
            = List.length forms).
  { apply count_partition. intros f. unfold deleted, blank.
    destruct (is_initial f), (has_changed f); simpl; auto. }
  rewrite (filter_ext in_answer_set
             (fun f => negb (deleted f) && negb (blank f))); [lia|].
  intros f. unfold in_answer_set, left_blank, deleted, blank.
  destruct (is_initial f), (has_changed f) eqn:Hc; simpl;
    try (rewrite andb_true_r); try reflexivity.
  apply unchanged_not_deleted in Hc. now rewrite Hc.
Qed.

Lemma formset_forms_all (question : Question) (fs : FormSetData) (d : DB) :
  (absolute_max <? List.length (forms_data fs))%nat = false ->
  formset_forms question fs d = submitted_forms question fs d.
Proof.
  intros H. apply Nat.ltb_ge in H.
  unfold formset_forms, submitted_forms. now rewrite firstn_all2.
Qed.

Lemma bad_count_invalid (F : Forms) (question : Question) (fs : FormSetData)
  (d : DB) :
  List.length (answer_set question fs d) < 2
  \/ 10 < List.length (answer_set question fs d) ->
  forms_valid (question_answers question d) (formset_forms question fs d)
  = true ->
  no_errors (non_form_errors (question_answers question d) fs
               (formset_forms question fs d)) = false.
Proof.
  intros Hn Hv. unfold non_form_errors, deleted_forms. rewrite Hv.
  destruct (absolute_max <? List.length (forms_data fs))%nat eqn:Habs.
  { now rewrite orb_true_r. }
  rewrite orb_false_r.
  pose proof (counted_forms (formset_forms question fs d)) as Hcount.
  rewrite (formset_forms_all question fs d Habs) in *.
  fold (answer_set question fs d) in Hcount.
  unfold max_num, min_num.
  destruct (10 <? _)%nat eqn:Hmax; [reflexivity|].
  apply Nat.ltb_ge in Hmax.
  destruct (_ <? 2)%nat eqn:Hmin; [reflexivity|].
  apply Nat.ltb_ge in Hmin. lia.
Qed.

Lemma some_form_errors {A} (g : A -> list string) (l : list A) :
  forallb (fun f => no_errors (g f)) l = false ->
  Exists (fun errors => errors <> []) (map g l).
Proof.
  induction l as [|f l IH]; simpl; [discriminate|].
  destruct (g f) eqn:E; simpl.
  - intros H. apply Exists_cons_tl. auto.
  - intros _. apply Exists_cons_hd. discriminate.
Qed.

(** C3: when a signed-in teacher posts, for a question of one of their
    quizzes, a formset whose answer set has fewer than 2 or more than 10
    answers, the view shows the form again with a validation error (an
    error of the formset as a whole, or of one of the forms it keeps), no
    write is attempted and the store, the stored answers of the question
    with it, is exactly what it was. *)
Theorem question_change_bad_answer_count :
  forall (F : Forms) (request : Request) (qpk qnpk : Z) (w : World)
         (quiz : Quiz) (question : Question),
    is_authenticated (user request) = true ->
    is_teacher (user request) = true ->
    method request = py "POST" ->
    get_object_or_404 (quiz_by_pk_owner qpk (user request) (db w)) = inr quiz ->
    get_object_or_404 (question_of_quiz qnpk quiz (db w)) = inr question ->
    List.length (answer_set question (post_answers (POST request)) (db w)) < 2
    \/ 10 < List.length
              (answer_set question (post_answers (POST request)) (db w)) ->
    exists ctx,
      question_change request qpk qnpk w
      = (Render "classroom/teachers/question_change_form.html" ctx, w)
      /\ (change_non_form_errors ctx <> []
          \/ Exists (fun errors => errors <> []) (change_formset_errors ctx)).
Proof.
  intros F request qpk qnpk w quiz question Ha Ht Hm Hq Hn Hbad.
  assert (Hpost : PyStr.eqb (method request) (py "POST") = true)
    by (rewrite Hm; apply PyStr_eqb_refl).
  set (fs := post_answers (POST request)) in *.
  set (queryset := question_answers question (db w)).
  set (forms := formset_forms question fs (db w)).
  assert (Hinvalid : formset_is_valid queryset fs forms = false).
  { unfold formset_is_valid.
    destruct (forms_valid queryset forms) eqn:Hv; [|reflexivity].
    simpl. now apply bad_count_invalid. }
  eexists. split.
  - apply (question_change_invalid request qpk qnpk w quiz question);
      try assumption.
    fold fs queryset forms. rewrite Hinvalid. apply andb_false_r.
  - cbn [change_non_form_errors change_formset_errors].
    fold fs queryset forms.
    unfold formset_is_valid in Hinvalid.
    destruct (forms_valid queryset forms) eqn:Hv.
    + left. simpl in Hinvalid.
      destruct (non_form_errors queryset fs forms); [discriminate|].
      discriminate.
    + right. unfold forms_valid in Hv. now apply some_form_errors.
Qed.

Lemma question_change_bad_answer_count_witness :
  exists ctx,
    @question_change plain_forms (post_request (teacher 1) one_answer) 1 2
       (calm school)
    = (Render "classroom/teachers/question_change_form.html" ctx, calm school)
    /\ (change_non_form_errors ctx <> []
        \/ Exists (fun errors => errors <> []) (change_formset_errors ctx)).
Proof.
  apply (question_change_bad_answer_count plain_forms
           (post_request (teacher 1) one_answer) 1 2 (calm school) algebra
           {| question_pk := 2; question_quiz := 1;
              question_text := py "2+2=?" |});
    try reflexivity.
  left. vm_compute. lia.
Defined.

Example one_answer_too_few :
  change_non_form_errors
    (match fst (@question_change plain_forms
                  (post_request (teacher 1) one_answer) 1 2 (calm school)) with
     | Render _ ctx => ctx
     | _ => {| change_quiz := algebra;
               change_question :=
                 {| question_pk := 0; question_quiz := 0;
                    question_text := [] |};
               change_form_errors := []; change_formset_errors := [];
               change_non_form_errors := [] |}
     end)
  = ["too_few_forms"%string].
Proof. reflexivity. Qed.

(** ** C8: a question is added, then given three answers *)

Lemma next_pk_fresh (pks : list Z) (k : Z) : In k pks -> (k < next_pk pks)%Z.
Proof.
  unfold next_pk. induction pks as [|p pks IH]; cbn [fold_right In];
    [tauto|].
  intros [->|H]; [lia|]. apply IH in H. lia.
Qed.

Lemma handle_exception_not_redirect {C} (e : Exception) (to : string)
  (args : list Z) :
  @handle_exception C e <> Redirect to args.
Proof. destruct e; discriminate. Qed.


(** What a redirect of [question_change] tells: quiz and question were
    found, the submission was valid and both saves went through. *)
Lemma question_change_redirected (F : Forms) (request : Request)
  (qpk qnpk : Z) (w w' : World) (to : string) (args : list Z) :
  question_change request qpk qnpk w = (Redirect to args, w') ->
  exists quiz question,
    get_object_or_404 (quiz_by_pk_owner qpk (user request) (db w)) = inr quiz
    /\ get_object_or_404 (question_of_quiz qnpk quiz (db w)) = inr question
    /\ formset_is_valid (question_answers question (db w))
         (post_answers (POST request))
         (formset_forms question (post_answers (POST request)) (db w))
       = true
    /\ db w'
       = all_saved (with_text question (post_text (POST request)))
           (formset_forms question (post_answers (POST request)) (db w))
           (db w).
Proof.
  destruct (is_authenticated (user request) && is_teacher (user request))
    eqn:Hauth.
  2: { now rewrite question_change_denied. }
  apply andb_true_iff in Hauth as [Ha Ht].
  destruct (get_object_or_404 (quiz_by_pk_owner qpk (user request) (db w)))
    as [e|quiz] eqn:Hq.
  { rewrite (question_change_no_quiz _ _ _ _ e) by assumption.
    intros E. inversion E as [[E1 E2]].
    now apply handle_exception_not_redirect in E1. }
  destruct (get_object_or_404 (question_of_quiz qnpk quiz (db w)))
    as [e|question] eqn:Hn.
  { rewrite (question_change_no_question _ _ _ _ quiz e) by assumption.
    intros E. inversion E as [[E1 E2]].
    now apply handle_exception_not_redirect in E1. }
  destruct (PyStr.eqb (method request) (py "POST")) eqn:Hm.
  2: { now rewrite (question_change_get _ _ _ _ quiz question). }
  destruct (no_errors (Question_text_errors (post_text (POST request)))
            && formset_is_valid (question_answers question (db w))
                 (post_answers (POST request))
                 (formset_forms question (post_answers (POST request)) (db w)))
    eqn:Hv.
  2: { now rewrite (question_change_invalid _ _ _ _ quiz question). }
  rewrite (question_change_valid _ _ _ _ quiz question) by assumption.
  destruct (transaction_atomic_cases
              (form_save (with_text question (post_text (POST request))) ;;;
               formset_save (with_text question (post_text (POST request)))
                 (formset_forms question (post_answers (POST request))
                    (db w)))%tx w)
    as [(u & w1 & Hbody & ->)|(e & w1 & -> & Hdb)].
  - intros E. inversion E; subst. exists quiz, question.
    apply andb_true_iff in Hv as [_ Hv].
    apply saves_ok in Hbody. auto.
  - intros E. inversion E as [[E1 E2]].
    now apply handle_exception_not_redirect in E1.
Qed.

Lemma construct_forms_In (queryset : list Answer) (n : nat)
  (data : list AnswerFormData) (f : AnswerForm) :
  In f (construct_forms queryset n data) ->
  exists i fd, f = construct_form queryset n i fd.
Proof.
  unfold construct_forms. intros H. apply in_map_iff in H as [[i fd] [E _]].
  now exists i, fd.
Qed.




Lemma valid_not_over_absolute_max (F : Forms) (queryset : list Answer)
  (fs : FormSetData) (forms : list AnswerForm) :
  formset_is_valid queryset fs forms = true ->
  (absolute_max <? List.length (forms_data fs))%nat = false.
Proof.
  unfold formset_is_valid, non_form_errors. intros H.
  apply andb_true_iff in H as [_ H].
  destruct (absolute_max <? List.length (forms_data fs))%nat; [|reflexivity].
  now rewrite orb_true_r in H.
Qed.


(** The new answers of a question, as they are stored: after the answers
    it had, one per extra form that was filled in and is not marked for
    deletion, with the text and the mark of the form. *)
Lemma new_saved_answers (question : Question) (forms : list AnswerForm)
  (d : DB) :
  map answer_fields
    (answers_of (question_pk question)
       (fold_left (fun d f => new_saved question f d) forms d))
  = map answer_fields (answers_of (question_pk question) d)
    ++ map form_fields
         (filter (fun f => has_changed f && negb (should_delete_form f))
                 forms).
Proof.
  revert d. induction forms as [|f forms IH]; intros d; simpl.
  - now rewrite app_nil_r.
  - rewrite IH. unfold new_saved.
    destruct (has_changed f); simpl; [|reflexivity].
    destruct (should_delete_form f); simpl; [reflexivity|].
    unfold answers_of. simpl. rewrite filter_app. simpl.
    rewrite Z.eqb_refl, map_app, <- app_assoc. reflexivity.
Qed.






Example three_answers_stored :
  let request := post_request (teacher 1) three_answers in
  let w1 := snd (@question_add plain_forms request 1 (calm school)) in
  let w2 := snd (@question_change plain_forms request 1 4 w1) in
  map answer_fields (answers_of 4 (db w2))
  = [(py "six", false); (py "nine", true); (py "twelve", false)].
Proof. reflexivity. Qed.

(** For a question that already has answers the outcome depends on the
    initial forms: a submission that names none of the stored answers
    leaves them where they are and adds its own. *)
Example resubmission_without_initial_forms :
  let request := post_request (teacher 1) three_answers in
  map answer_text
    (answers_of 2 (db (snd (@question_change plain_forms request 1 2
                              (calm school)))))
  = [py "four"; py "five"; py "six"; py "nine"; py "twelve"].
Proof. reflexivity. Qed.

(** ** Sorting *)



Section InsertionSort.

Context {A : Type}.
Variable le : A -> A -> bool.
Hypothesis le_total : forall a b, le a b = false -> le b a = true.




End InsertionSort.



(** ** More on the quiz list *)

Lemma filter_map_commute {A B} (f : A -> B) (p : B -> bool) (l : list A) :
  filter p (map f l) = map f (filter (fun a => p (f a)) l).
Proof.
  induction l as [|a l IH]; simpl; [reflexivity|].
  destruct (p (f a)); simpl; now rewrite IH.
Qed.

(** X3: when the quiz list does not fail, the rows it selects are, in the
    order of the table, the annotated quizzes that the requesting user
    owns, whose name contains the value of [q] whatever the case of ASCII
    letters (when [q] is given), and whose subject is the number written
    by [type] (when [type] is given and is all digits); a [type] that is
    not all digits filters nothing out. *)
Theorem QuizListView_get_queryset_selects :
  forall (request : Request) (d : DB) (qs : QuerySet),
    QuizListView_get_queryset request d = inr qs ->
    selected qs
    = map (annotate_counts d)
        (filter (fun q => subject_matches request q)
           (filter (fun q => name_matches request q)
              (user_quizzes (user request) d))).
Proof.
  intros request d qs.
  unfold QuizListView_get_queryset, filter_subject_pk, filter_name_icontains,
    name_matches, subject_matches.
  destruct (QueryDict_get (GET request) (py "q")) as [v|];
    destruct (QueryDict_get (GET request) (py "type")) as [t|];
    try destruct (PyStr.isdigit t); try destruct (PyStr.int t);
    try discriminate;
    destruct (QueryDict_get (GET request) (py "ordering")) as [o|];
    try destruct (PyStr.eqb o (py "name") || PyStr.eqb o (py "-name"));
    intros E; inversion E; subst; cbn [selected];
    repeat rewrite filter_map_commute; cbn [row_quiz annotate_counts];
    repeat match goal with
           | |- context [filter (fun _ => true) ?l] =>
               replace (filter (fun _ => true) l) with l
                 by (clear; induction l; simpl; congruence)
           end;
    reflexivity.
Qed.

Lemma QuizListView_get_queryset_selects_witness :
  [annotate_counts school algebra]
  = map (annotate_counts school)
      (filter (fun q => subject_matches
                          (get_request (teacher 1)
                             [(py "q", py "ALG"); (py "type", py "1")]) q)
         (filter (fun q => name_matches
                             (get_request (teacher 1)
                                [(py "q", py "ALG"); (py "type", py "1")]) q)
            (user_quizzes (teacher 1) school))).
Proof.
  exact (QuizListView_get_queryset_selects
           (get_request (teacher 1) [(py "q", py "ALG"); (py "type", py "1")])
           school
           {| selected := [annotate_counts school algebra];
              order_by := None |}
           eq_refl).
Defined.




(** ** Creating, changing and deleting quizzes *)

Lemma next_pk_not_in (pks : list Z) : ~ In (next_pk pks) pks.
Proof. intros H. apply next_pk_fresh in H. lia. Qed.

Lemma NoDup_snoc {A} (l : list A) (x : A) :
  NoDup l -> ~ In x l -> NoDup (l ++ [x]).
Proof.
  intros ND Hx. apply NoDup_app; [assumption | repeat constructor; simpl; tauto|].
  intros a Ha [<-|[]]. contradiction.
Qed.

(** X5: the create view redirects only after it has stored one new quiz:
    the requester is a signed-in teacher, the form had no error, and the
    store differs from the old one by one row at the end of the quizzes:
    owned by the requester, with the name and subject that were posted,
    under a key that no quiz had, which is the key of the redirect.  Keys
    that were unique stay unique. *)
Theorem QuizCreateView_post_redirected :
  forall (F : Forms) (request : Request) (w w' : World) (to : string)
         (args : list Z),
    QuizCreateView_post request w = (Redirect to args, w') ->
    let quiz :=
      {| quiz_pk := next_pk (map quiz_pk (quizzes (db w)));
         quiz_owner := user_pk (user request);
         quiz_name := post_name (POST request);
         quiz_subject := post_subject (POST request) |} in
    is_authenticated (user request) = true
    /\ is_teacher (user request) = true
    /\ Quiz_name_errors (post_name (POST request))
       ++ Quiz_subject_errors (db w) (post_subject (POST request)) = []
    /\ to = "teachers:quiz_change"%string
    /\ args = [quiz_pk quiz]
    /\ ~ In (quiz_pk quiz) (map quiz_pk (quizzes (db w)))
    /\ quizzes (db w') = quizzes (db w) ++ [quiz]
    /\ same_but_quizzes (db w) (db w')
    /\ (NoDup (map quiz_pk (quizzes (db w))) ->
        NoDup (map quiz_pk (quizzes (db w')))).
Proof.
  intros F request w w' to args.
  unfold QuizCreateView_post, teacher_only, login_required, teacher_required.
  destruct (is_authenticated (user request)); [|discriminate].
  destruct (is_teacher (user request)); [|discriminate].
  unfold respond, bind, read.
  destruct (Quiz_name_errors (post_name (POST request))
            ++ Quiz_subject_errors (db w) (post_subject (POST request)))
    eqn:Herr; [|discriminate].
  unfold insert_quiz, bind, read, ret.
  destruct (write _ w) as [[e|u] w1] eqn:Ew.
  { intros E. inversion E as [[E1 E2]].
    now apply handle_exception_not_redirect in E1. }
  apply write_ok in Ew. intros E. inversion E; subst. cbv zeta.
  pose proof (next_pk_not_in (map quiz_pk (quizzes (db w)))) as Hfresh.
  repeat split; try reflexivity; try assumption; rewrite Ew; try reflexivity.
  intros ND. cbn [quizzes set_quizzes]. rewrite map_app. cbn [map].
  now apply NoDup_snoc.
Qed.

Lemma QuizCreateView_post_redirected_witness :
  let request := post_request (teacher 2) geography in
  let w' := snd (@QuizCreateView_post plain_forms request (calm school)) in
  let quiz := {| quiz_pk := 3; quiz_owner := 2; quiz_name := py "Geography";
                 quiz_subject := Some 1%Z |} in
  is_authenticated (user request) = true
  /\ is_teacher (user request) = true
  /\ @Quiz_name_errors plain_forms (post_name (POST request))
     ++ @Quiz_subject_errors plain_forms school (post_subject (POST request))
     = []
  /\ "teachers:quiz_change"%string = "teachers:quiz_change"%string
  /\ [3%Z] = [quiz_pk quiz]
  /\ ~ In (quiz_pk quiz) (map quiz_pk (quizzes school))
  /\ quizzes (db w') = quizzes school ++ [quiz]
  /\ same_but_quizzes school (db w')
  /\ (NoDup (map quiz_pk (quizzes school)) ->
      NoDup (map quiz_pk (quizzes (db w')))).
Proof.
  exact (QuizCreateView_post_redirected plain_forms
           (post_request (teacher 2) geography) (calm school)
           (snd (@QuizCreateView_post plain_forms
                   (post_request (teacher 2) geography) (calm school)))
           "teachers:quiz_change" [3%Z] eq_refl).
Defined.

Lemma get_object_fresh (u : User) (rows : list Quiz) (quiz : Quiz) :
  ~ In (quiz_pk quiz) (map quiz_pk rows) ->
  filter (fun q => quiz_pk q =? quiz_pk quiz)%Z
    (filter (fun q => quiz_owner q =? user_pk u)%Z (rows ++ [quiz]))
  = if (quiz_owner quiz =? user_pk u)%Z then [quiz] else [].
Proof.
  intros Hfresh. rewrite !filter_app.
  replace (filter _ (filter _ rows)) with (@nil Quiz).
  - simpl. destruct (quiz_owner quiz =? user_pk u)%Z; simpl;
      [now rewrite Z.eqb_refl | reflexivity].
  - symmetry. apply filter_nil_iff. intros q Hq.
    apply filter_In in Hq as [Hq _]. apply Z.eqb_neq. intros E.
    apply Hfresh. rewrite <- E. now apply in_map.
Qed.

(** X6: right after a quiz was created, its owner is shown its change
    form under the key of the redirect, and every other signed-in teacher
    who asks for that key gets the not-found page. *)
Theorem QuizCreateView_then_QuizUpdateView :
  forall (F : Forms) (request : Request) (w w' : World) (to : string)
         (pk : Z),
    QuizCreateView_post request w = (Redirect to [pk], w') ->
    (forall request',
       user request' = user request ->
       exists ctx,
         QuizUpdateView_get request' pk w'
         = (Render "classroom/teachers/quiz_change_form.html" ctx, w')
         /\ quiz_pk (ctx_object ctx) = pk
         /\ quiz_owner (ctx_object ctx) = user_pk (user request)
         /\ quiz_name (ctx_object ctx) = post_name (POST request))
    /\ (forall request',
          is_authenticated (user request') = true ->
          is_teacher (user request') = true ->
          user_pk (user request') <> user_pk (user request) ->
          QuizUpdateView_get request' pk w' = (NotFound, w')
          /\ QuizUpdateView_post request' pk w' = (NotFound, w')
          /\ QuizDeleteView_delete request' pk w' = (NotFound, w')).
Proof.
  intros F request w w' to pk Hpost.
  apply QuizCreateView_post_redirected in Hpost
    as (Ha & Ht & _ & _ & Hargs & Hfresh & Hquizzes & _ & _).
  injection Hargs as ->.
  set (quiz := {| quiz_pk := next_pk (map quiz_pk (quizzes (db w)));
                  quiz_owner := user_pk (user request);
                  quiz_name := post_name (POST request);
                  quiz_subject := post_subject (POST request) |}) in *.
  split.
  - intros request' Hu. eexists.
    unfold QuizUpdateView_get, QuizUpdateView_get_context_data, teacher_only,
      login_required, teacher_required, respond, bind, query, read, ret,
      QuizUpdateView_get_queryset, get_object, user_quizzes.
    rewrite Hu, Ha, Ht, Hquizzes.
    change (next_pk (map quiz_pk (quizzes (db w)))) with (quiz_pk quiz).
    rewrite (get_object_fresh (user request) _ quiz Hfresh).
    cbn [quiz quiz_owner]. rewrite Z.eqb_refl. cbn.
    repeat split; reflexivity.
  - intros request' Ha' Ht' Hother.
    assert (E : get_object (user_quizzes (user request') (db w'))
                  (quiz_pk quiz) = inl Http404).
    { unfold get_object, user_quizzes. rewrite Hquizzes.
      rewrite (get_object_fresh (user request') _ quiz Hfresh).
      cbn [quiz quiz_owner].
      destruct (Z.eqb_spec (user_pk (user request)) (user_pk (user request')));
        [congruence | reflexivity]. }
    change (next_pk (map quiz_pk (quizzes (db w)))) with (quiz_pk quiz).
    unfold QuizUpdateView_get, QuizUpdateView_post, QuizDeleteView_delete,
      teacher_only, login_required, teacher_required, respond, bind, query,
      QuizUpdateView_get_queryset, QuizDeleteView_get_queryset.
    rewrite Ha', Ht', E. simpl. auto.
Qed.

Lemma QuizCreateView_then_QuizUpdateView_witness :
  let request := post_request (teacher 2) geography in
  let w' := snd (@QuizCreateView_post plain_forms request (calm school)) in
  (forall request',
     user request' = user request ->
     exists ctx,
       QuizUpdateView_get request' 3 w'
       = (Render "classroom/teachers/quiz_change_form.html" ctx, w')
       /\ quiz_pk (ctx_object ctx) = 3%Z
       /\ quiz_owner (ctx_object ctx) = user_pk (user request)
       /\ quiz_name (ctx_object ctx) = post_name (POST request))
  /\ (forall request',
        is_authenticated (user request') = true ->
        is_teacher (user request') = true ->
        user_pk (user request') <> user_pk (user request) ->
        QuizUpdateView_get request' 3 w' = (NotFound, w')
        /\ @QuizUpdateView_post plain_forms request' 3 w' = (NotFound, w')
        /\ QuizDeleteView_delete request' 3 w' = (NotFound, w')).
Proof.
  exact (QuizCreateView_then_QuizUpdateView plain_forms
           (post_request (teacher 2) geography) (calm school)
           (snd (@QuizCreateView_post plain_forms
                   (post_request (teacher 2) geography) (calm school)))
           "teachers:quiz_change" 3 eq_refl).
Defined.

(** The quiz as the update form saves it. *)
Lemma QuizUpdateView_post_cases (F : Forms) (request : Request) (pk : Z)
  (w : World) :
  (db (snd (QuizUpdateView_post request pk w)) = db w
   /\ forall to args, fst (QuizUpdateView_post request pk w) <> Redirect to args)
  \/ exists old,
       get_object (user_quizzes (user request) (db w)) pk = inr old
       /\ is_authenticated (user request) = true
       /\ is_teacher (user request) = true
       /\ Quiz_name_errors (post_name (POST request))
          ++ Quiz_subject_errors (db w) (post_subject (POST request)) = []
       /\ fst (QuizUpdateView_post request pk w)
          = Redirect "teachers:quiz_change" [quiz_pk old]
       /\ db (snd (QuizUpdateView_post request pk w))
          = set_quizzes
              (update_row quiz_pk
                 {| quiz_pk := quiz_pk old; quiz_owner := quiz_owner old;
                    quiz_name := post_name (POST request);
                    quiz_subject := post_subject (POST request) |})
              (db w).
Proof.
  unfold QuizUpdateView_post, teacher_only, login_required, teacher_required.
  destruct (is_authenticated (user request));
    [|left; split; [reflexivity | discriminate]].
  destruct (is_teacher (user request));
    [|left; split; [reflexivity | discriminate]].
  unfold respond, bind, query, read, QuizUpdateView_get_queryset.
  destruct (get_object (user_quizzes (user request) (db w)) pk)
    as [e|old] eqn:Hobj.
  { left. split; [reflexivity|]. intros to' args'. cbn [fst].
    apply handle_exception_not_redirect. }
  destruct (Quiz_name_errors (post_name (POST request))) as [|e1 l1] eqn:E1;
    destruct (Quiz_subject_errors (db w) (post_subject (POST request)))
      as [|e2 l2] eqn:E2; cbn [app no_errors].
  - destruct (write _ w) as [[e|u] w1] eqn:Ew.
    + left. unfold write in Ew.
      destruct (faults w) as [|[|] fs]; inversion Ew; subst.
      split; [reflexivity|]. intros to' args'. discriminate.
    + right. exists old. apply write_ok in Ew. cbn [fst snd ret].
      repeat split; try reflexivity. exact Ew.
  - left. unfold QuizUpdateView_get_context_data, bind, query, read, ret,
      QuizUpdateView_get_queryset. rewrite Hobj.
    split; [reflexivity | discriminate].
  - left. unfold QuizUpdateView_get_context_data, bind, query, read, ret,
      QuizUpdateView_get_queryset. rewrite Hobj.
    split; [reflexivity | discriminate].
  - left. unfold QuizUpdateView_get_context_data, bind, query, read, ret,
      QuizUpdateView_get_queryset. rewrite Hobj.
    split; [reflexivity | discriminate].
Qed.

Lemma get_object_found (queryset : list Quiz) (pk : Z) (q : Quiz) :
  get_object queryset pk = inr q -> In q queryset /\ quiz_pk q = pk.
Proof.
  unfold get_object. intros E. apply get_object_or_404_In in E.
  assert (Hin : In q (filter (fun x => quiz_pk x =? pk)%Z queryset))
    by (rewrite E; now left).
  apply filter_In in Hin as [Hin Hpk]. apply Z.eqb_eq in Hpk. auto.
Qed.

(** X7: whatever is posted to the update view of a store with unique quiz
    keys, no quiz changes its key or its owner, none is added or removed,
    every quiz with another key stays as it is and nothing but the table
    of quizzes is written.  When the view redirects, the requester owns
    the quiz of that key and it now carries the posted name and subject;
    in every other case the store is as it was. *)
Theorem QuizUpdateView_post_keeps_owners :
  forall (F : Forms) (request : Request) (pk : Z) (w : World),
    NoDup (map quiz_pk (quizzes (db w))) ->
    let result := QuizUpdateView_post request pk w in
    map (fun q => (quiz_pk q, quiz_owner q)) (quizzes (db (snd result)))
    = map (fun q => (quiz_pk q, quiz_owner q)) (quizzes (db w))
    /\ same_but_quizzes (db w) (db (snd result))
    /\ (forall q, In q (quizzes (db w)) -> quiz_pk q <> pk ->
                  In q (quizzes (db (snd result))))
    /\ ((forall to args, fst result <> Redirect to args) ->
        db (snd result) = db w)
    /\ (forall to args,
          fst result = Redirect to args ->
          args = [pk]
          /\ In {| quiz_pk := pk; quiz_owner := user_pk (user request);
                   quiz_name := post_name (POST request);
                   quiz_subject := post_subject (POST request) |}
                (quizzes (db (snd result)))).
Proof.
  intros F request pk w ND result. subst result.
  destruct (QuizUpdateView_post_cases F request pk w)
    as [[Hsame Hno]|(old & Hobj & _ & _ & _ & Hfst & Hdb)].
  - rewrite Hsame.
    split; [reflexivity|]. split; [repeat split; reflexivity|].
    split; [auto|]. split; [reflexivity|].
    intros to args E. now apply Hno in E.
  - apply get_object_found in Hobj as [Hin Hpk].
    apply filter_In in Hin as [Hin Hown]. apply Z.eqb_eq in Hown.
    rewrite Hdb, Hfst. cbn [quizzes set_quizzes].
    split; [|split; [|split; [|split]]].
    + unfold update_row. rewrite map_map. apply map_ext_in.
      intros q Hq. cbn [quiz_pk].
      destruct (Z.eqb_spec (quiz_pk q) (quiz_pk old)) as [E|_];
        [|reflexivity].
      assert (q = old) by (eapply unique_key; eauto). now subst q.
    + repeat split; reflexivity.
    + intros q Hq Hne. unfold update_row. apply in_map_iff. exists q.
      split; [|assumption]. cbn [quiz_pk].
      destruct (Z.eqb_spec (quiz_pk q) (quiz_pk old)); [congruence|reflexivity].
    + intros Hno. exfalso. eapply Hno. reflexivity.
    + intros to args E. inversion E; subst. split; [reflexivity|].
      rewrite <- Hown.
      apply update_row_In with (old := old); [assumption | reflexivity].
Qed.

Lemma QuizUpdateView_post_keeps_owners_witness :
  let request := post_request (teacher 1) rename_algebra in
  let result := @QuizUpdateView_post plain_forms request 1 (calm school) in
  map (fun q => (quiz_pk q, quiz_owner q)) (quizzes (db (snd result)))
  = map (fun q => (quiz_pk q, quiz_owner q)) (quizzes school)
  /\ same_but_quizzes school (db (snd result))
  /\ (forall q, In q (quizzes school) -> quiz_pk q <> 1%Z ->
                In q (quizzes (db (snd result))))
  /\ ((forall to args, fst result <> Redirect to args) ->
      db (snd result) = school)
  /\ (forall to args,
        fst result = Redirect to args ->
        args = [1%Z]
        /\ In {| quiz_pk := 1; quiz_owner := 1;
                 quiz_name := py "Linear algebra";
                 quiz_subject := Some 1%Z |}
              (quizzes (db (snd result)))).
Proof.
  exact (QuizUpdateView_post_keeps_owners plain_forms
           (post_request (teacher 1) rename_algebra) 1 (calm school)
           school_quiz_keys).
Defined.

Example rename_algebra_redirects :
  fst (@QuizUpdateView_post plain_forms
         (post_request (teacher 1) rename_algebra) 1 (calm school))
  = Redirect "teachers:quiz_change" [1%Z].
Proof. reflexivity. Qed.

Lemma delete_row_In {A} (pk : A -> Z) (key : Z) (rows : list A) (r : A) :
  In r (delete_row pk key rows) <-> In r rows /\ pk r <> key.
Proof.
  unfold delete_row. rewrite filter_In, negb_true_iff, Z.eqb_neq. tauto.
Qed.

Lemma QuizDeleteView_delete_cases (request : Request) (pk : Z) (w : World) :
  (db (snd (QuizDeleteView_delete request pk w)) = db w
   /\ forall to args,
        fst (QuizDeleteView_delete request pk w) <> Redirect to args)
  \/ exists quiz,
       get_object (user_quizzes (user request) (db w)) pk = inr quiz
       /\ fst (QuizDeleteView_delete request pk w)
          = Redirect "teachers:quiz_change_list" []
       /\ db (snd (QuizDeleteView_delete request pk w))
          = set_quizzes (delete_row quiz_pk (quiz_pk quiz))
              (set_questions
                 (filter (fun q => negb (question_quiz q =? quiz_pk quiz)%Z))
                 (set_answers
                    (filter (fun a =>
                       negb (existsb
                               (fun q => (question_pk q =? answer_question a)%Z
                                         && (question_quiz q =? quiz_pk quiz)%Z)
                               (questions (db w)))))
                    (db w))).
Proof.
  unfold QuizDeleteView_delete, teacher_only, login_required,
    teacher_required.
  destruct (is_authenticated (user request));
    [|left; split; [reflexivity | discriminate]].
  destruct (is_teacher (user request));
    [|left; split; [reflexivity | discriminate]].
  unfold respond, bind, query, QuizDeleteView_get_queryset.
  destruct (get_object (user_quizzes (user request) (db w)) pk)
    as [e|quiz] eqn:Hobj.
  { left. split; [reflexivity|]. intros to' args'. cbn [fst].
    apply handle_exception_not_redirect. }
  unfold delete_quiz.
  match goal with
  | |- context [transaction_atomic ?body w] =>
      destruct (transaction_atomic_cases body w)
        as [(u & w1 & Hbody & ->)|(e & w1 & -> & Hdb)]
  end.
  - right. exists quiz. cbn [fst snd ret].
    split; [reflexivity|]. split; [reflexivity|].
    unfold bind in Hbody.
    destruct (write _ w) as [[e|u1] wa] eqn:E1; [discriminate|].
    destruct (write _ wa) as [[e|u2] wb] eqn:E2; [discriminate|].
    apply write_ok in E1, E2, Hbody. now rewrite Hbody, E2, E1.
  - left. split; [exact Hdb|]. intros to' args'. cbn [fst].
    apply handle_exception_not_redirect.
Qed.

(** X8: the delete view changes the store only when it redirects, and then
    all at once: the quiz of the given key, which the requester owned, is
    gone with its questions and with the answers of its questions; every
    other quiz, question and answer is still there, and the other tables
    are as they were.  From then on every signed-in teacher who asks for
    that key, to change or to delete, gets the not-found page. *)
Theorem QuizDeleteView_delete_effect :
  forall (request : Request) (pk : Z) (w : World),
    let result := QuizDeleteView_delete request pk w in
    ((forall to args, fst result <> Redirect to args) ->
     db (snd result) = db w)
    /\ (forall to args,
          fst result = Redirect to args ->
          (exists quiz, In quiz (quizzes (db w)) /\ quiz_pk quiz = pk
                        /\ quiz_owner quiz = user_pk (user request))
          /\ (forall q, In q (quizzes (db (snd result)))
                        <-> In q (quizzes (db w)) /\ quiz_pk q <> pk)
          /\ (forall q, In q (questions (db (snd result)))
                        <-> In q (questions (db w)) /\ question_quiz q <> pk)
          /\ (forall a, In a (answers (db (snd result)))
                        <-> In a (answers (db w))
                            /\ forall q, In q (questions (db w)) ->
                                         question_pk q = answer_question a ->
                                         question_quiz q <> pk)
          /\ subjects (db (snd result)) = subjects (db w)
          /\ students (db (snd result)) = students (db w)
          /\ taken_quizzes (db (snd result)) = taken_quizzes (db w)
          /\ student_answers (db (snd result)) = student_answers (db w)
          /\ forall (F : Forms) request',
               is_authenticated (user request') = true ->
               is_teacher (user request') = true ->
               QuizUpdateView_get request' pk (snd result)
               = (NotFound, snd result)
               /\ QuizUpdateView_post request' pk (snd result)
                  = (NotFound, snd result)
               /\ QuizDeleteView_delete request' pk (snd result)
                  = (NotFound, snd result)).
Proof.
  intros request pk w result. subst result.
  pose proof (QuizDeleteView_delete_cases request pk w) as Hcases.
  destruct (QuizDeleteView_delete request pk w) as [r w'].
  cbn [fst snd] in *.
  destruct Hcases as [[Hsame Hno]|(quiz & Hobj & Hfst & Hdb)].
  - split; [intros _; exact Hsame|].
    intros to args E. now apply Hno in E.
  - split; [intros Hno; exfalso; eapply Hno; exact Hfst|].
    intros to args _.
    apply get_object_found in Hobj as [Hin Hpk].
    apply filter_In in Hin as [Hin Hown]. apply Z.eqb_eq in Hown.
    rewrite Hpk in Hdb.
    assert (Hquizzes : forall q, In q (quizzes (db w'))
                                 <-> In q (quizzes (db w)) /\ quiz_pk q <> pk).
    { intros q. rewrite Hdb. apply delete_row_In. }
    split; [exists quiz; auto|].
    split; [exact Hquizzes|].
    split.
    { intros q. rewrite Hdb. cbn [questions set_quizzes set_questions].
      rewrite filter_In, negb_true_iff, Z.eqb_neq. tauto. }
    split.
    { intros a. rewrite Hdb.
      cbn [answers set_quizzes set_questions set_answers].
      rewrite filter_In, negb_true_iff. split.
      - intros [Ha Hex]. split; [assumption|]. intros q Hq E Hquiz.
        assert (Hyes : existsb
                         (fun q => (question_pk q =? answer_question a)%Z
                                   && (question_quiz q =? pk)%Z)
                         (questions (db w)) = true).
        { apply existsb_exists. exists q. split; [assumption|].
          now rewrite E, Hquiz, !Z.eqb_refl. }
        congruence.
      - intros [Ha Hall]. split; [assumption|].
        destruct (existsb _ (questions (db w))) eqn:Hex; [|reflexivity].
        apply existsb_exists in Hex as (q & Hq & Hb).
        apply andb_true_iff in Hb as [H1 H2]. apply Z.eqb_eq in H1, H2.
        now apply Hall in H1. }
    split; [now rewrite Hdb|]. split; [now rewrite Hdb|].
    split; [now rewrite Hdb|]. split; [now rewrite Hdb|].
    intros F request' Ha' Ht'.
    assert (E : get_object (user_quizzes (user request') (db w')) pk
                = inl Http404).
    { unfold get_object, get_object_or_404, user_quizzes.
      replace (filter _ (filter _ (quizzes (db w')))) with (@nil Quiz);
        [reflexivity|].
      symmetry. apply filter_nil_iff. intros q Hq.
      apply filter_In in Hq as [Hq _]. apply Hquizzes in Hq as [_ Hq].
      now apply Z.eqb_neq. }
    unfold QuizUpdateView_get, QuizUpdateView_post, QuizDeleteView_delete,
      teacher_only, login_required, teacher_required, respond, bind, query,
      QuizUpdateView_get_queryset, QuizDeleteView_get_queryset.
    rewrite Ha', Ht', E. simpl. auto.
Qed.

Example delete_algebra :
  let after :=
    db (snd (QuizDeleteView_delete (post_request (teacher 1) no_POST) 1
               (calm school))) in
  map quiz_pk (quizzes after) = [2%Z]
  /\ map question_pk (questions after) = [3%Z]
  /\ answers after = [].
Proof. cbv zeta. repeat split; reflexivity. Qed.

(** ** Deleting a question *)

Lemma QuestionDeleteView_delete_cases (request : Request) (pk : Z)
  (w : World) :
  (db (snd (QuestionDeleteView_delete request pk w)) = db w
   /\ forall to args,
        fst (QuestionDeleteView_delete request pk w) <> Redirect to args)
  \/ exists question,
       get_question (QuestionDeleteView_get_queryset request (db w)) pk
       = inr question
       /\ fst (QuestionDeleteView_delete request pk w)
          = Redirect "teachers:quiz_change" [question_quiz question]
       /\ db (snd (QuestionDeleteView_delete request pk w))
          = set_questions (delete_row question_pk (question_pk question))
              (set_answers
                 (filter (fun a =>
                    negb (answer_question a =? question_pk question)%Z))
                 (db w)).
Proof.
  unfold QuestionDeleteView_delete, teacher_only, login_required,
    teacher_required.
  destruct (is_authenticated (user request));
    [|left; split; [reflexivity | discriminate]].
  destruct (is_teacher (user request));
    [|left; split; [reflexivity | discriminate]].
  unfold respond, bind, query.
  destruct (get_question (QuestionDeleteView_get_queryset request (db w)) pk)
    as [e|question] eqn:Hobj.
  { left. split; [reflexivity|]. intros to' args'. cbn [fst].
    apply handle_exception_not_redirect. }
  unfold delete_question.
  match goal with
  | |- context [transaction_atomic ?body w] =>
      destruct (transaction_atomic_cases body w)
        as [(u & w1 & Hbody & ->)|(e & w1 & -> & Hdb)]
  end.
  - right. exists question. cbn [fst snd ret].
    split; [reflexivity|]. split; [reflexivity|].
    unfold bind in Hbody.
    destruct (write _ w) as [[e|u1] wa] eqn:E1; [discriminate|].
    apply write_ok in E1, Hbody. now rewrite Hbody, E1.
  - left. split; [exact Hdb|]. intros to' args'. cbn [fst].
    apply handle_exception_not_redirect.
Qed.

(** X9: the view that deletes a question changes the store only when it
    redirects, and then all at once.  It redirects to the quiz of the
    question, which the requester owns; the question of the given key is
    gone with its answers, every other question and answer is still there,
    and nothing but questions and answers is written.  In particular a
    teacher cannot delete a question of a quiz of another teacher. *)
Theorem QuestionDeleteView_delete_effect :
  forall (request : Request) (pk : Z) (w : World),
    let result := QuestionDeleteView_delete request pk w in
    ((forall to args, fst result <> Redirect to args) ->
     db (snd result) = db w)
    /\ (forall to args,
          fst result = Redirect to args ->
          (exists question quiz,
             In question (questions (db w)) /\ question_pk question = pk
             /\ In quiz (quizzes (db w))
             /\ quiz_pk quiz = question_quiz question
             /\ quiz_owner quiz = user_pk (user request)
             /\ to = "teachers:quiz_change"%string
             /\ args = [quiz_pk quiz])
          /\ (forall q, In q (questions (db (snd result)))
                        <-> In q (questions (db w)) /\ question_pk q <> pk)
          /\ (forall a, In a (answers (db (snd result)))
                        <-> In a (answers (db w)) /\ answer_question a <> pk)
          /\ same_but_questions_answers (db w) (db (snd result))).
Proof.
  intros request pk w result. subst result.
  pose proof (QuestionDeleteView_delete_cases request pk w) as Hcases.
  destruct (QuestionDeleteView_delete request pk w) as [r w'].
  cbn [fst snd] in *.
  destruct Hcases as [[Hsame Hno]|(question & Hobj & Hfst & Hdb)].
  - split; [intros _; exact Hsame|].
    intros to args E. now apply Hno in E.
  - split; [intros Hno; exfalso; eapply Hno; exact Hfst|].
    intros to args E. rewrite Hfst in E. inversion E; subst to args.
    unfold get_question in Hobj. apply get_object_or_404_In in Hobj.
    assert (Hin : In question
                    (filter (fun q => question_pk q =? pk)%Z
                       (QuestionDeleteView_get_queryset request (db w))))
      by (rewrite Hobj; now left).
    apply filter_In in Hin as [Hin Hpk]. apply Z.eqb_eq in Hpk.
    apply filter_In in Hin as [Hin Hquiz].
    apply existsb_exists in Hquiz as (quiz & Hq & Hb).
    apply andb_true_iff in Hb as [H1 H2]. apply Z.eqb_eq in H1, H2.
    rewrite Hpk in Hdb.
    split.
    { exists question, quiz. rewrite H1. repeat split; auto. }
    split.
    { intros q. rewrite Hdb. apply delete_row_In. }
    split.
    { intros a. rewrite Hdb. cbn [answers set_questions set_answers].
      rewrite filter_In, negb_true_iff, Z.eqb_neq. tauto. }
    rewrite Hdb. repeat split; reflexivity.
Qed.

Example delete_first_question :
  let result :=
    QuestionDeleteView_delete (post_request (teacher 1) no_POST) 1
      (calm school) in
  fst result = Redirect "teachers:quiz_change" [1%Z]
  /\ map question_pk (questions (db (snd result))) = [2%Z; 3%Z]
  /\ map answer_pk (answers (db (snd result))) = [5%Z; 6%Z].
Proof. cbv zeta. repeat split; reflexivity. Qed.

Example delete_question_of_another_teacher :
  QuestionDeleteView_delete (post_request (teacher 2) no_POST) 1 (calm school)
  = (NotFound, calm school).
Proof. reflexivity. Qed.

(** ** Adding a question *)

(** X10: [question_add] changes the store only when it redirects.  It
    redirects only for a POST, by a signed-in teacher who owns the quiz,
    of a text the form accepts; the store then differs from the old one by
    one question at the end of the table: of that quiz, with that text,
    under a key no question had, which the redirect carries after the key
    of the quiz.  Question keys that were unique stay unique. *)
Theorem question_add_effect :
  forall (F : Forms) (request : Request) (pk : Z) (w : World),
    let result := question_add request pk w in
    ((forall to args, fst result <> Redirect to args) ->
     db (snd result) = db w)
    /\ (forall to args,
          fst result = Redirect to args ->
          let question :=
            {| question_pk := next_pk (map question_pk (questions (db w)));
               question_quiz := pk;
               question_text := post_text (POST request) |} in
          (exists quiz, In quiz (quizzes (db w)) /\ quiz_pk quiz = pk
                        /\ quiz_owner quiz = user_pk (user request))
          /\ method request = py "POST"
          /\ Question_text_errors (post_text (POST request)) = []
          /\ to = "teachers:question_change"%string
          /\ args = [pk; question_pk question]
          /\ ~ In (question_pk question)
                  (map question_pk (questions (db w)))
          /\ questions (db (snd result)) = questions (db w) ++ [question]
          /\ answers (db (snd result)) = answers (db w)
          /\ same_but_questions_answers (db w) (db (snd result))
          /\ (NoDup (map question_pk (questions (db w))) ->
              NoDup (map question_pk (questions (db (snd result)))))).
Proof.
  intros F request pk w result. subst result.
  unfold question_add, teacher_only, login_required, teacher_required.
  destruct (is_authenticated (user request));
    [|split; [reflexivity | discriminate]].
  destruct (is_teacher (user request));
    [|split; [reflexivity | discriminate]].
  unfold respond, bind, query.
  destruct (get_object_or_404 (quiz_by_pk_owner pk (user request) (db w)))
    as [e|quiz] eqn:Hquiz.
  { split; [reflexivity|]. intros to args E. cbn [fst] in E.
    now apply handle_exception_not_redirect in E. }
  destruct (PyStr.eqb (method request) (py "POST")) eqn:Hm;
    [|split; [reflexivity | discriminate]].
  destruct (Question_text_errors (post_text (POST request))) eqn:Herr;
    [|split; [reflexivity | discriminate]].
  unfold insert_question, bind, read, ret.
  destruct (write _ w) as [[e|u] w1] eqn:Ew.
  { unfold write in Ew. destruct (faults w) as [|[|] fs]; inversion Ew; subst.
    split; [reflexivity | discriminate]. }
  apply write_ok in Ew. cbn [fst snd].
  split; [intros Hno; exfalso; eapply Hno; reflexivity|].
  intros to args E. inversion E; subst to args. cbv zeta.
  apply get_object_or_404_In in Hquiz.
  assert (Hin : In quiz (quiz_by_pk_owner pk (user request) (db w)))
    by (rewrite Hquiz; now left).
  apply filter_In in Hin as [Hin Hb].
  apply andb_true_iff in Hb as [H1 H2]. apply Z.eqb_eq in H1, H2.
  apply PyStr_eqb_eq in Hm.
  pose proof (next_pk_not_in (map question_pk (questions (db w)))) as Hfresh.
  rewrite Ew, H1. cbn [questions answers set_questions].
  split; [exists quiz; auto|].
  repeat (split; [first [assumption | reflexivity]|]).
  split; [repeat split; reflexivity|].
  intros ND. rewrite map_app. cbn [map]. now apply NoDup_snoc.
Qed.

(** ** Quizzes of other teachers, questions of other quizzes *)

Lemma not_owner_quiz_by_pk_owner (u : User) (d : DB) (Q : Quiz) :
  NoDup (map quiz_pk (quizzes d)) -> In Q (quizzes d) ->
  quiz_owner Q <> user_pk u ->
  quiz_by_pk_owner (quiz_pk Q) u d = [].
Proof.
  intros ND HQ Hown. unfold quiz_by_pk_owner. apply filter_nil_iff.
  intros q Hq. apply andb_false_iff.
  destruct (Z.eqb_spec (quiz_pk q) (quiz_pk Q)) as [E|]; [|now left].
  right. assert (q = Q) by (eapply unique_key; eauto). subst q.
  now apply Z.eqb_neq.
Qed.

Lemma at_most_one {A} (pk : A -> Z) (k : Z) (p : A -> bool) (rows : list A) :
  NoDup (map pk rows) -> (forall x, p x = true -> pk x = k) ->
  filter p rows = [] \/ exists x, filter p rows = [x].
Proof.
  intros ND Hp. induction rows as [|r rows IH]; simpl; [now left|].
  inversion ND as [|? ? Hnot ND']; subst.
  destruct (p r) eqn:E.
  - right. exists r. f_equal. apply filter_nil_iff. intros x Hx.
    destruct (p x) eqn:Ex; [|reflexivity].
    exfalso. apply Hnot. rewrite (Hp r E), <- (Hp x Ex). now apply in_map.
  - now apply IH.
Qed.

(** X11: a signed-in teacher who is not the owner of a stored quiz gets
    the not-found page from every view that takes the key of a quiz: to
    add a question, to change a question, to see the answers of a student,
    to export the quiz and to see its results; and the store is left as it
    was. *)
Theorem not_owner_views_not_found :
  forall (F : Forms) (S : Scoring) (request : Request) (w : World) (Q : Quiz),
    is_authenticated (user request) = true ->
    is_teacher (user request) = true ->
    NoDup (map quiz_pk (quizzes (db w))) ->
    In Q (quizzes (db w)) ->
    quiz_owner Q <> user_pk (user request) ->
    question_add request (quiz_pk Q) w = (NotFound, w)
    /\ (forall question_pk',
          question_change request (quiz_pk Q) question_pk' w = (NotFound, w))
    /\ (forall student_pk',
          view_students_answers request (quiz_pk Q) student_pk' (db w)
          = NotFound)
    /\ get_quiz_in_pdf request (quiz_pk Q) (db w) = NotFound
    /\ QuizResultsView request (quiz_pk Q) (db w) = NotFound.
Proof.
  intros F S request w Q Ha Ht ND HQ Hown.
  pose proof (not_owner_quiz_by_pk_owner (user request) (db w) Q ND HQ Hown)
    as Hnone.
  pose proof (not_owner_get_object (user request) (db w) Q ND HQ Hown)
    as Hobj.
  split; [|split; [|split; [|split]]].
  - unfold question_add, teacher_only, login_required, teacher_required,
      respond, bind, query.
    now rewrite Ha, Ht, Hnone.
  - intros question_pk'.
    apply (question_change_no_quiz request (quiz_pk Q) question_pk' w Http404
             Ha Ht).
    now rewrite Hnone.
  - intros student_pk'.
    unfold view_students_answers, login_required, teacher_required,
      view_students_answers_body.
    now rewrite Ha, Ht, Hnone.
  - unfold get_quiz_in_pdf, login_required, teacher_required,
      get_quiz_in_pdf_body.
    now rewrite Ha, Ht, Hnone.
  - unfold QuizResultsView, login_required, teacher_required,
      QuizResultsView_get_queryset.
    now rewrite Ha, Ht, Hobj.
Qed.

Lemma not_owner_views_not_found_witness :
  let request := post_request (teacher 2) three_answers in
  @question_add plain_forms request 1 (calm school) = (NotFound, calm school)
  /\ (forall question_pk',
        @question_change plain_forms request 1 question_pk' (calm school)
        = (NotFound, calm school))
  /\ (forall student_pk',
        view_students_answers request 1 student_pk' school = NotFound)
  /\ get_quiz_in_pdf request 1 school = NotFound
  /\ @QuizResultsView no_scores request 1 school = NotFound.
Proof.
  apply (not_owner_views_not_found plain_forms no_scores
           (post_request (teacher 2) three_answers) (calm school) algebra).
  - reflexivity.
  - reflexivity.
  - exact school_quiz_keys.
  - simpl. left. reflexivity.
  - simpl. discriminate.
Defined.

(** X12: a question can only be changed through the quiz it belongs to.
    For a signed-in teacher, the key of a stored question together with
    the key of any other quiz, be it one the teacher owns, gives the
    not-found page and leaves the store as it was. *)
Theorem question_change_other_quiz_not_found :
  forall (F : Forms) (request : Request) (qpk : Z) (w : World)
         (question : Question),
    is_authenticated (user request) = true ->
    is_teacher (user request) = true ->
    NoDup (map quiz_pk (quizzes (db w))) ->
    NoDup (map question_pk (questions (db w))) ->
    In question (questions (db w)) ->
    question_quiz question <> qpk ->
    question_change request qpk (question_pk question) w = (NotFound, w).
Proof.
  intros F request qpk w question Ha Ht NDq NDn Hin Hother.
  destruct (at_most_one quiz_pk qpk
              (fun q => (quiz_pk q =? qpk)%Z
                        && (quiz_owner q =? user_pk (user request))%Z)
              (quizzes (db w)) NDq) as [Hnone|[quiz Hone]].
  { intros x Hx. apply andb_true_iff in Hx as [Hx _].
    now apply Z.eqb_eq in Hx. }
  - apply (question_change_no_quiz request qpk (question_pk question) w
             Http404 Ha Ht).
    unfold quiz_by_pk_owner. now rewrite Hnone.
  - assert (Hpk : quiz_pk quiz = qpk).
    { assert (Hq : In quiz (quiz_by_pk_owner qpk (user request) (db w)))
        by (unfold quiz_by_pk_owner; rewrite Hone; now left).
      apply filter_In in Hq as [_ Hq].
      apply andb_true_iff in Hq as [Hq _]. now apply Z.eqb_eq in Hq. }
    apply (question_change_no_question request qpk (question_pk question) w
             quiz Http404 Ha Ht).
    + unfold quiz_by_pk_owner. now rewrite Hone.
    + unfold question_of_quiz.
      replace (filter _ (questions (db w))) with (@nil Question);
        [reflexivity|].
      symmetry. apply filter_nil_iff. intros q Hq.
      apply andb_false_iff.
      destruct (Z.eqb_spec (question_pk q) (question_pk question)) as [E|];
        [|now left].
      right. assert (q = question) by (eapply unique_key; eauto). subst q.
      apply Z.eqb_neq. congruence.
Qed.

Lemma question_change_other_quiz_not_found_witness :
  @question_change plain_forms (post_request (teacher 1) three_answers) 1 3
     (calm school)
  = (NotFound, calm school).
Proof.
  apply (question_change_other_quiz_not_found plain_forms
           (post_request (teacher 1) three_answers) 1 (calm school)
           {| question_pk := 3; question_quiz := 2;
              question_text := py "Sides of a square?" |}).
  - reflexivity.
  - reflexivity.
  - exact school_quiz_keys.
  - exact school_question_keys.
  - simpl. right. right. left. reflexivity.
  - simpl. discriminate.
Defined.

(** ** What changing a question leaves alone *)

Lemma question_change_cases (F : Forms) (request : Request) (qpk qnpk : Z)
  (w : World) :
  (db (snd (question_change request qpk qnpk w)) = db w
   /\ forall to args,
        fst (question_change request qpk qnpk w) <> Redirect to args)
  \/ exists quiz question,
       get_object_or_404 (quiz_by_pk_owner qpk (user request) (db w))
       = inr quiz
       /\ get_object_or_404 (question_of_quiz qnpk quiz (db w)) = inr question
       /\ db (snd (question_change request qpk qnpk w))
          = all_saved (with_text question (post_text (POST request)))
              (formset_forms question (post_answers (POST request)) (db w))
              (db w).
Proof.
  destruct (is_authenticated (user request) && is_teacher (user request))
    eqn:Hauth.
  2: { left. rewrite question_change_denied by assumption.
       split; [reflexivity | discriminate]. }
  apply andb_true_iff in Hauth as [Ha Ht].
  destruct (get_object_or_404 (quiz_by_pk_owner qpk (user request) (db w)))
    as [e|quiz] eqn:Hq.
  { left. rewrite (question_change_no_quiz _ _ _ _ e) by assumption.
    split; [reflexivity|]. intros to' args'.
    apply handle_exception_not_redirect. }
  destruct (get_object_or_404 (question_of_quiz qnpk quiz (db w)))
    as [e|question] eqn:Hn.
  { left. rewrite (question_change_no_question _ _ _ _ quiz e) by assumption.
    split; [reflexivity|]. intros to' args'.
    apply handle_exception_not_redirect. }
  destruct (PyStr.eqb (method request) (py "POST")) eqn:Hm.
  2: { left. rewrite (question_change_get _ _ _ _ quiz question) by assumption.
       split; [reflexivity | discriminate]. }
  destruct (no_errors (Question_text_errors (post_text (POST request)))
            && formset_is_valid (question_answers question (db w))
                 (post_answers (POST request))
                 (formset_forms question (post_answers (POST request)) (db w)))
    eqn:Hv.
  2: { left.
       rewrite (question_change_invalid _ _ _ _ quiz question) by assumption.
       split; [reflexivity | discriminate]. }
  rewrite (question_change_valid _ _ _ _ quiz question) by assumption.
  destruct (transaction_atomic_cases
              (form_save (with_text question (post_text (POST request))) ;;;
               formset_save (with_text question (post_text (POST request)))
                 (formset_forms question (post_answers (POST request))
                    (db w)))%tx w)
    as [(u & w1 & Hbody & ->)|(e & w1 & -> & Hdb)].
  - right. exists quiz, question. apply saves_ok in Hbody. auto.
  - left. split; [exact Hdb|]. intros to' args'.
    apply handle_exception_not_redirect.
Qed.

Lemma filter_absorb {A} (p q : A -> bool) (rows : list A) :
  (forall r, In r rows -> p r = true -> q r = true) ->
  filter p (filter q rows) = filter p rows.
Proof.
  intros H. induction rows as [|r rows IH]; simpl; [reflexivity|].
  destruct (q r) eqn:Eq; simpl.
  - destruct (p r); rewrite IH; auto; intros; apply H; auto; now right.
  - destruct (p r) eqn:Ep.
    + rewrite (H r (or_introl eq_refl) Ep) in Eq. discriminate.
    + apply IH. intros; apply H; auto; now right.
Qed.

Lemma filter_map_unaffected {A} (p : A -> bool) (g : A -> A) (rows : list A) :
  (forall r, In r rows -> g r = r \/ (p r = false /\ p (g r) = false)) ->
  filter p (map g rows) = filter p rows.
Proof.
  intros H. induction rows as [|r rows IH]; simpl; [reflexivity|].
  rewrite IH by (intros; apply H; now right).
  destruct (H r (or_introl eq_refl)) as [->|[-> ->]]; reflexivity.
Qed.

Section OneQuestion.

(** [keys] are the keys of the stored answers of the question [qn]; in a
    store that is [tidy] no answer of another question has one of them. *)
Variable qn : Z.
Variable keys : list Z.

Let tidy (d : DB) : Prop :=
  forall a, In a (answers d) -> In (answer_pk a) keys ->
            answer_question a = qn.

Lemma existing_saved_elsewhere (f : AnswerForm) (d : DB) (other : Z) :
  tidy d ->
  (forall obj, instance f = Some obj ->
               In (answer_pk obj) keys /\ answer_question obj = qn) ->
  other <> qn ->
  answers_of other (existing_saved f d) = answers_of other d
  /\ tidy (existing_saved f d).
Proof.
  intros Htidy Hobj Hother. unfold existing_saved.
  destruct (instance f) as [obj|]; [|now split].
  destruct (Hobj obj eq_refl) as [Hkey Hq].
  destruct (should_delete_form f).
  - split.
    + unfold answers_of. cbn [answers set_answers]. unfold delete_row.
      apply filter_absorb. intros r Hr Hp. apply Z.eqb_eq in Hp.
      apply negb_true_iff, Z.eqb_neq. intros E.
      rewrite <- E in Hkey. apply (Htidy r Hr) in Hkey. congruence.
    + intros a Ha. cbn [answers set_answers] in Ha.
      apply delete_row_In in Ha as [Ha _]. now apply Htidy.
  - destruct (has_changed f); [|now split].
    split.
    + unfold answers_of. cbn [answers set_answers]. unfold update_row.
      apply filter_map_unaffected. intros r Hr. cbn [answer_pk].
      destruct (Z.eqb_spec (answer_pk r) (answer_pk obj)) as [E|];
        [|now left].
      right. rewrite <- E in Hkey. apply (Htidy r Hr) in Hkey.
      cbn [answer_question]. rewrite Hkey, Hq.
      split; apply Z.eqb_neq; congruence.
    + intros a Ha. cbn [answers set_answers] in Ha.
      unfold update_row in Ha. apply in_map_iff in Ha as (r & E & Hr).
      cbn [answer_pk] in E.
      destruct (answer_pk r =? answer_pk obj)%Z; subst a;
        [intros _; exact Hq | now apply Htidy].
Qed.

Lemma existing_saved_fold_elsewhere (forms : list AnswerForm) (d : DB)
  (other : Z) :
  tidy d ->
  (forall f obj, In f forms -> instance f = Some obj ->
                 In (answer_pk obj) keys /\ answer_question obj = qn) ->
  other <> qn ->
  answers_of other (fold_left (fun d f => existing_saved f d) forms d)
  = answers_of other d
  /\ tidy (fold_left (fun d f => existing_saved f d) forms d).
Proof.
  revert d. induction forms as [|f forms IH]; intros d Htidy Hobj Hother;
    simpl; [now split|].
  destruct (existing_saved_elsewhere f d other Htidy) as [E Ht];
    [intros obj; apply Hobj; now left | assumption |].
  destruct (IH (existing_saved f d) Ht) as [E' Ht'];
    [intros g obj Hg; apply Hobj; now right | assumption |].
  split; [now rewrite E' | assumption].
Qed.

Lemma new_saved_fold_elsewhere (question : Question)
  (forms : list AnswerForm) (d : DB) (other : Z) :
  question_pk question = qn -> other <> qn ->
  answers_of other (fold_left (fun d f => new_saved question f d) forms d)
  = answers_of other d.
Proof.
  intros Hq Hother. revert d.
  induction forms as [|f forms IH]; intros d; simpl; [reflexivity|].
  rewrite IH. unfold new_saved.
  destruct (negb (has_changed f)); [reflexivity|].
  destruct (should_delete_form f); [reflexivity|].
  unfold answers_of. cbn [answers set_answers]. rewrite filter_app. simpl.
  rewrite Hq. destruct (Z.eqb_spec qn other); [congruence|].
  apply app_nil_r.
Qed.

End OneQuestion.

Lemma formset_forms_instance (question : Question) (fs : FormSetData)
  (d : DB) (f : AnswerForm) (obj : Answer) :
  In f (formset_forms question fs d) -> instance f = Some obj ->
  In obj (question_answers question d).
Proof.
  unfold formset_forms. intros Hf Hi.
  apply construct_forms_In in Hf as (i & fd & ->).
  unfold construct_form in Hi; simpl in Hi.
  destruct (i <? INITIAL_FORMS fs)%nat; [|discriminate].
  destruct (af_id fd); [|discriminate].
  now apply find_some in Hi as [Hi _].
Qed.

Lemma existing_saved_same (forms : list AnswerForm) (d : DB) :
  same_but_questions_answers d
    (fold_left (fun d f => existing_saved f d) forms d).
Proof.
  revert d. induction forms as [|f forms IH]; intros d; simpl.
  - repeat split; reflexivity.
  - destruct (IH (existing_saved f d)) as (H1 & H2 & H3 & H4 & H5).
    unfold same_but_questions_answers.
    rewrite H1, H2, H3, H4, H5. unfold existing_saved.
    destruct (instance f); [|repeat split; reflexivity].
    destruct (should_delete_form f); [repeat split; reflexivity|].
    destruct (has_changed f); repeat split; reflexivity.
Qed.

Lemma new_saved_same (question : Question) (forms : list AnswerForm)
  (d : DB) :
  same_but_questions_answers d
    (fold_left (fun d f => new_saved question f d) forms d).
Proof.
  revert d. induction forms as [|f forms IH]; intros d; simpl.
  - repeat split; reflexivity.
  - destruct (IH (new_saved question f d)) as (H1 & H2 & H3 & H4 & H5).
    unfold same_but_questions_answers.
    rewrite H1, H2, H3, H4, H5. unfold new_saved.
    destruct (negb (has_changed f)); [repeat split; reflexivity|].
    destruct (should_delete_form f); repeat split; reflexivity.
Qed.

(** X13: whatever is posted to [question_change], in a store with unique
    question keys and unique answer keys, the view writes nothing but the
    question of the given key and the answers of that question: the
    answers of every other question are what they were, every other
    question is still there, no question changes its key or its quiz, and
    quizzes, subjects, students, attempts and selected answers are as they
    were. *)
Theorem question_change_touches_one_question :
  forall (F : Forms) (request : Request) (qpk qnpk : Z) (w : World),
    NoDup (map question_pk (questions (db w))) ->
    NoDup (map answer_pk (answers (db w))) ->
    let d' := db (snd (question_change request qpk qnpk w)) in
    same_but_questions_answers (db w) d'
    /\ (forall other, other <> qnpk ->
                      answers_of other d' = answers_of other (db w))
    /\ (forall q, In q (questions (db w)) -> question_pk q <> qnpk ->
                  In q (questions d'))
    /\ map (fun q => (question_pk q, question_quiz q)) (questions d')
       = map (fun q => (question_pk q, question_quiz q)) (questions (db w)).
Proof.
  intros F request qpk qnpk w NDq NDa d'. subst d'.
  destruct (question_change_cases F request qpk qnpk w)
    as [[Hsame _]|(quiz & question & _ & Hfound & Hdb)].
  { rewrite Hsame. split; [repeat split; reflexivity|]. auto. }
  rewrite Hdb. clear Hdb.
  apply get_object_or_404_In in Hfound.
  assert (Hin : In question (question_of_quiz qnpk quiz (db w)))
    by (rewrite Hfound; now left).
  apply filter_In in Hin as [Hin Hb].
  apply andb_true_iff in Hb as [Hpk _]. apply Z.eqb_eq in Hpk.
  set (text := post_text (POST request)).
  set (forms := formset_forms question (post_answers (POST request)) (db w)).
  set (saved_question := with_text question text).
  set (d1 := set_questions (update_row question_pk saved_question) (db w)).
  split; [|split; [|split]].
  - unfold all_saved. fold d1.
    destruct (new_saved_same saved_question
                (filter (fun f => negb (is_initial f)) forms)
                (fold_left (fun d f => existing_saved f d)
                   (filter is_initial forms) d1)) as (H1 & H2 & H3 & H4 & H5).
    destruct (existing_saved_same (filter is_initial forms) d1)
      as (G1 & G2 & G3 & G4 & G5).
    unfold same_but_questions_answers.
    rewrite H1, H2, H3, H4, H5, G1, G2, G3, G4, G5.
    repeat split; reflexivity.
  - intros other Hother. unfold all_saved. fold d1.
    rewrite (new_saved_fold_elsewhere qnpk saved_question) by auto.
    set (keys := map answer_pk (question_answers question (db w))).
    destruct (existing_saved_fold_elsewhere qnpk keys
                (filter is_initial forms) d1 other) as [E _]; auto.
    + intros a Ha Hkey. cbn [d1 answers set_questions] in Ha.
      apply in_map_iff in Hkey as (b & Eb & Hb).
      apply filter_In in Hb as [Hb Hbq]. apply Z.eqb_eq in Hbq.
      assert (a = b) by (eapply unique_key; eauto). subst b. congruence.
    + intros f obj Hf Hi. apply filter_In in Hf as [Hf _].
      apply (formset_forms_instance question (post_answers (POST request))
               (db w) f obj Hf) in Hi.
      split; [now apply in_map|].
      apply filter_In in Hi as [_ Hi]. apply Z.eqb_eq in Hi. congruence.
  - intros q Hq Hne. rewrite all_saved_questions.
    unfold update_row. apply in_map_iff. exists q. split; [|assumption].
    cbn [saved_question with_text question_pk].
    destruct (Z.eqb_spec (question_pk q) (question_pk question));
      [congruence | reflexivity].
  - rewrite all_saved_questions. unfold update_row. rewrite map_map.
    apply map_ext_in. intros q Hq.
    cbn [saved_question with_text question_pk].
    destruct (Z.eqb_spec (question_pk q) (question_pk question)) as [E|_];
      [|reflexivity].
    assert (q = question) by (eapply unique_key; eauto). now subst q.
Qed.

Lemma question_change_touches_one_question_witness :
  let request := post_request (teacher 1) nine_question in
  let d' := db (snd (@question_change plain_forms request 1 2 (calm school))) in
  same_but_questions_answers school d'
  /\ (forall other, other <> 2%Z ->
                    answers_of other d' = answers_of other school)
  /\ (forall q, In q (questions school) -> question_pk q <> 2%Z ->
                In q (questions d'))
  /\ map (fun q => (question_pk q, question_quiz q)) (questions d')
     = map (fun q => (question_pk q, question_quiz q)) (questions school).
Proof.
  exact (question_change_touches_one_question plain_forms
           (post_request (teacher 1) nine_question) 1 2 (calm school)
           school_question_keys school_answer_keys).
Defined.

(** ** More on the attempts per day *)

Lemma list_sum_perm (l l' : list nat) :
  Permutation l l' -> list_sum l = list_sum l'.
Proof.
  induction 1; simpl; lia.
Qed.

Lemma count_one (dates : list date) (x : date) :
  NoDup dates -> In x dates ->
  list_sum (map (fun y => if date_eqb y x then 1 else 0) dates) = 1.
Proof.
  induction dates as [|y dates IH]; simpl; [tauto|].
  intros ND Hin. inversion ND as [|? ? Hnot ND']; subst.
  destruct (date_eqb y x) eqn:E.
  - apply date_eqb_eq in E. subst y.
    replace (list_sum _) with 0; [reflexivity|].
    clear -Hnot. induction dates as [|z dates IH]; simpl; [reflexivity|].
    destruct (date_eqb z x) eqn:E.
    + apply date_eqb_eq in E. subst z. exfalso. apply Hnot. now left.
    + apply IH. intros H. apply Hnot. now right.
  - destruct Hin as [->|Hin]; [now rewrite date_eqb_refl in E|].
    now apply IH.
Qed.

Lemma list_sum_cons (a : nat) (l : list nat) :
  list_sum (a :: l) = a + list_sum l.
Proof. reflexivity. Qed.

Lemma counts_cons (dates l : list date) (x : date) :
  list_sum (map (fun y => List.length (filter (date_eqb y) (x :: l))) dates)
  = list_sum (map (fun y => if date_eqb y x then 1 else 0) dates)
    + list_sum (map (fun y => List.length (filter (date_eqb y) l)) dates).
Proof.
  induction dates as [|y dates IHd]; [reflexivity|].
  cbn [map]. rewrite !list_sum_cons, IHd. cbn [filter].
  destruct (date_eqb y x); cbn [List.length]; lia.
Qed.

Lemma counts_add_up (dates l : list date) :
  NoDup dates -> (forall x, In x l -> In x dates) ->
  list_sum (map (fun y => List.length (filter (date_eqb y) l)) dates)
  = List.length l.
Proof.
  intros ND. induction l as [|x l IH]; intros Hall.
  - clear. induction dates as [|y dates IHd]; simpl in *; auto.
  - rewrite counts_cons.
    rewrite count_one by (auto; apply Hall; now left).
    rewrite IH by (intros; apply Hall; now right). reflexivity.
Qed.

(** X14: the counts shown to a signed-in teacher add up to the number of
    attempts at the quizzes of that teacher: every such attempt is counted
    once, whatever its date, and no attempt at a quiz of someone else is
    counted. *)
Theorem analytics_counts_every_attempt :
  forall (B : Backend) (request : Request) (d : DB),
    is_authenticated (user request) = true ->
    is_teacher (user request) = true ->
    exists ctx,
      get_analytics_by_count_taken_quizzes request d
      = Render "classroom/teachers/analytics.html" ctx
      /\ list_sum (data ctx)
         = List.length
             (filter (fun t =>
                existsb (fun q => (quiz_pk q =? taken_quiz t)%Z
                                  && (quiz_owner q =? user_pk (user request))%Z)
                        (quizzes d))
                (taken_quizzes d)).
Proof.
  intros B request d Ha Ht. eexists.
  unfold get_analytics_by_count_taken_quizzes, login_required,
    teacher_required.
  rewrite Ha, Ht, analytics_loop. simpl app.
  split; [reflexivity|]. cbn [data].
  unfold analytics_queryset.
  rewrite <- (list_sum_perm _ _
                (Permutation_map snd (emit_groups_perm _ _))).
  unfold group_by_date. rewrite map_map. cbn [snd].
  rewrite counts_add_up.
  - now rewrite length_map.
  - apply distinct_dates_NoDup.
  - intros x. apply distinct_dates_In.
Qed.

Lemma analytics_counts_every_attempt_witness :
  exists ctx,
    @get_analytics_by_count_taken_quizzes reverse_order
       (get_request (teacher 1) []) school
    = Render "classroom/teachers/analytics.html" ctx
    /\ list_sum (data ctx)
       = List.length
           (filter (fun t =>
              existsb (fun q => (quiz_pk q =? taken_quiz t)%Z
                                && (quiz_owner q =? 1)%Z)
                      (quizzes school))
              (taken_quizzes school)).
Proof.
  exact (analytics_counts_every_attempt reverse_order
           (get_request (teacher 1) []) school eq_refl eq_refl).
Defined.

(** ** The results of a quiz *)



Example algebra_results :
  match @QuizResultsView no_scores (get_request (teacher 1) []) 1 school with
  | Render _ ctx =>
      (map taken_pk (results_taken_quizzes ctx), total_taken_quizzes ctx)
  | _ => ([], 0)
  end
  = ([3%Z; 1%Z; 2%Z], 3).
Proof. reflexivity. Qed.

(** ** Visitors who are not signed-in teachers *)



(** ** A submission that names every stored answer *)

Lemma others_have_other_keys {A} (pk : A -> Z) (P R : list A) (r a : A) :
  NoDup (map pk (P ++ r :: R)) -> In a (P ++ R) -> pk a <> pk r.
Proof.
  rewrite map_app. cbn [map]. intros ND Hin E.
  apply NoDup_remove_2 in ND. apply ND. rewrite <- map_app, <- E.
  now apply in_map.
Qed.

Lemma filter_remove_row {A} (pk : A -> Z) (P R : list A) (r : A) :
  NoDup (map pk (P ++ r :: R)) ->
  filter (fun a => negb (pk a =? pk r)%Z) (P ++ r :: R) = P ++ R.
Proof.
  intros ND. rewrite filter_app. cbn [filter]. rewrite Z.eqb_refl. cbn [negb].
  rewrite <- filter_app. apply forallb_filter_id. apply forallb_forall.
  intros a Ha. apply negb_true_iff, Z.eqb_neq.
  now apply (others_have_other_keys pk P R r a ND).
Qed.

Lemma map_replace_row {A} (pk : A -> Z) (P R : list A) (r r' : A) :
  NoDup (map pk (P ++ r :: R)) ->
  map (fun a => if (pk a =? pk r)%Z then r' else a) (P ++ r :: R)
  = P ++ r' :: R.
Proof.
  intros ND.
  assert (Hid : forall l, (forall a, In a l -> In a (P ++ R)) ->
                          map (fun a => if (pk a =? pk r)%Z then r' else a) l
                          = l).
  { intros l Hl. induction l as [|a l IH]; simpl; [reflexivity|].
    rewrite IH by (intros; apply Hl; now right).
    destruct (Z.eqb_spec (pk a) (pk r)) as [E|_]; [|reflexivity].
    exfalso. apply (others_have_other_keys pk P R r a ND); [|exact E].
    apply Hl. now left. }
  rewrite map_app. cbn [map]. rewrite Z.eqb_refl.
  rewrite (Hid P), (Hid R); [reflexivity| |];
    intros a Ha; apply in_or_app; auto.
Qed.

Lemma filter_commute {A} (p q : A -> bool) (l : list A) :
  filter p (filter q l) = filter q (filter p l).
Proof.
  induction l as [|a l IH]; simpl; [reflexivity|].
  destruct (p a) eqn:Ep, (q a) eqn:Eq; simpl; rewrite ?Ep, ?Eq, IH;
    reflexivity.
Qed.

Lemma filter_map_same {A} (p : A -> bool) (g : A -> A) (l : list A) :
  (forall a, In a l -> p (g a) = p a) ->
  filter p (map g l) = map g (filter p l).
Proof.
  intros H. induction l as [|a l IH]; simpl; [reflexivity|].
  rewrite (H a (or_introl eq_refl)), IH by (intros; apply H; now right).
  now destruct (p a).
Qed.

Section NamedAnswers.

Variable qn : Z.

(** The stored answers of the question [qn] while the initial forms are
    saved one after the other: those already gone through, then those
    still to come. *)
Lemma existing_saved_fields (forms : list AnswerForm) (d : DB)
  (P R : list Answer) :
  NoDup (map answer_pk (answers d)) ->
  answers_of qn d = P ++ R ->
  map instance forms = map Some R ->
  map answer_fields
    (answers_of qn (fold_left (fun d f => existing_saved f d) forms d))
  = map answer_fields P
    ++ map form_fields (filter (fun f => negb (should_delete_form f)) forms).
Proof.
  revert d P R. induction forms as [|f forms IH]; intros d P R ND Hrows Hinst.
  - destruct R; [|discriminate]. simpl. rewrite Hrows. now rewrite !app_nil_r.
  - destruct R as [|r R]; [discriminate|].
    cbn [map] in Hinst. injection Hinst as Hf Hinst.
    assert (NDrows : NoDup (map answer_pk (P ++ r :: R))).
    { rewrite <- Hrows. unfold answers_of. now apply NoDup_map_filter. }
    assert (Hr : In r (answers d) /\ answer_question r = qn).
    { assert (Hin : In r (answers_of qn d))
        by (rewrite Hrows; apply in_or_app; right; now left).
      apply filter_In in Hin as [Hin E]. apply Z.eqb_eq in E. auto. }
    destruct Hr as [Hr Hrq].
    cbn [fold_left filter]. unfold existing_saved at 2. rewrite Hf.
    destruct (should_delete_form f) eqn:Hdel; cbn [negb].
    + apply (IH _ P R).
      * cbn [answers set_answers]. now apply NoDup_map_filter.
      * unfold answers_of in *. cbn [answers set_answers]. unfold delete_row.
        rewrite filter_commute, Hrows. now apply filter_remove_row.
      * exact Hinst.
    + destruct (has_changed f) eqn:Hch.
      * set (r' := {| answer_pk := answer_pk r;
                      answer_question := answer_question r;
                      answer_text := af_text (form_data f);
                      answer_is_correct := af_is_correct (form_data f) |}).
        rewrite (IH _ (P ++ [r']) R).
        -- rewrite map_app, <- app_assoc. reflexivity.
        -- cbn [answers set_answers]. unfold update_row. rewrite map_map.
           erewrite map_ext; [exact ND|].
           intros a.
           destruct (Z.eqb_spec (answer_pk a) (answer_pk r')) as [E|_];
             [symmetry; exact E | reflexivity].
        -- unfold answers_of in *. cbn [answers set_answers].
           unfold update_row. rewrite filter_map_same.
           ++ rewrite Hrows.
              change (answer_pk r') with (answer_pk r).
              rewrite (map_replace_row answer_pk P R r r' NDrows).
              now rewrite <- app_assoc.
           ++ intros a Ha. change (answer_pk r') with (answer_pk r).
              destruct (Z.eqb_spec (answer_pk a) (answer_pk r)) as [E|_];
                [|reflexivity].
              rewrite (unique_key answer_pk (answers d) a r ND Ha Hr E).
              reflexivity.
        -- exact Hinst.
      * rewrite (IH _ (P ++ [r]) R); try assumption.
        -- rewrite map_app, <- app_assoc. cbn [map app]. do 2 f_equal.
           unfold has_changed in Hch. rewrite Hf in Hch.
           apply orb_false_iff in Hch as [Hch _].
           apply orb_false_iff in Hch as [Ht Hc].
           apply negb_false_iff in Ht, Hc.
           apply PyStr_eqb_eq in Ht. apply Bool.eqb_prop in Hc.
           unfold answer_fields, form_fields. now rewrite Ht, Hc.
        -- now rewrite <- app_assoc.
Qed.

End NamedAnswers.

Lemma no_initial_from (queryset : list Answer) (n s : nat)
  (data : list AnswerFormData) :
  n <= s ->
  filter is_initial
    (map (fun p => construct_form queryset n (fst p) (snd p))
         (combine (seq s (List.length data)) data))
  = [].
Proof.
  revert s. induction data as [|fd data IH]; intros s Hs; [reflexivity|].
  cbn [List.length seq combine map filter construct_form is_initial fst snd].
  replace (s <? n)%nat with false by (symmetry; apply Nat.ltb_ge; lia).
  apply IH. lia.
Qed.

Lemma initial_then_extra_from (queryset : list Answer) (n s : nat)
  (data : list AnswerFormData) :
  let forms :=
    map (fun p => construct_form queryset n (fst p) (snd p))
        (combine (seq s (List.length data)) data) in
  filter is_initial forms ++ filter (fun f => negb (is_initial f)) forms
  = forms.
Proof.
  revert s. induction data as [|fd data IH]; intros s; [reflexivity|].
  cbn zeta in *.
  cbn [List.length seq combine map filter construct_form is_initial fst snd].
  destruct (s <? n)%nat eqn:E; cbn [negb app].
  - f_equal. apply IH.
  - specialize (IH (S s)).
    rewrite no_initial_from in * by (apply Nat.ltb_ge in E; lia).
    cbn [app] in *. now rewrite IH.
Qed.

(** The forms of a formset are its initial forms followed by its extra
    forms. *)
Lemma initial_then_extra (queryset : list Answer) (n : nat)
  (data : list AnswerFormData) :
  filter is_initial (construct_forms queryset n data)
  ++ filter (fun f => negb (is_initial f)) (construct_forms queryset n data)
  = construct_forms queryset n data.
Proof. apply (initial_then_extra_from queryset n 0 data). Qed.

Lemma filter_within {A} (p p' q : A -> bool) (l : list A) :
  (forall x, q x = true -> p x = p' x) ->
  filter p (filter q l) = filter p' (filter q l).
Proof.
  intros H. apply filter_ext_in. intros x Hx.
  apply filter_In in Hx as [_ Hx]. now apply H.
Qed.

Lemma answer_set_parts (forms : list AnswerForm) :
  filter is_initial forms ++ filter (fun f => negb (is_initial f)) forms
  = forms ->
  filter in_answer_set forms
  = filter (fun f => negb (should_delete_form f)) (filter is_initial forms)
    ++ filter (fun f => has_changed f && negb (should_delete_form f))
         (filter (fun f => negb (is_initial f)) forms).
Proof.
  intros Hparts.
  transitivity
    (filter in_answer_set
       (filter is_initial forms
        ++ filter (fun f => negb (is_initial f)) forms));
    [now rewrite Hparts|].
  rewrite filter_app. f_equal.
  - apply filter_within. intros f Hi. unfold in_answer_set, left_blank.
    rewrite Hi. cbn. now rewrite andb_false_r, andb_true_r.
  - apply filter_within. intros f Hi. apply negb_true_iff in Hi.
    unfold in_answer_set, left_blank. rewrite Hi. cbn.
    rewrite andb_true_r, negb_involutive. apply andb_comm.
Qed.

Lemma formset_forms_same_key (q1 q2 : Question) (fs : FormSetData) (d : DB) :
  question_pk q1 = question_pk q2 ->
  formset_forms q1 fs d = formset_forms q2 fs d
  /\ submitted_forms q1 fs d = submitted_forms q2 fs d.
Proof.
  intros E. unfold formset_forms, submitted_forms, question_answers.
  now rewrite E.
Qed.

(** X17: when [question_change] succeeds on a submission whose initial
    forms name, one each and in their order, the stored answers of the
    question (as the form shown by the view does), the question is left
    with exactly the answer set of the submission: the stored answers of
    the question, in the order of the table, carry the texts and marks of
    the forms that are neither marked for deletion nor left blank, in the
    order of the forms.  Answer keys are assumed unique. *)
Theorem question_change_replaces_answer_set :
  forall (F : Forms) (request : Request) (qpk qnpk : Z) (w w' : World)
         (to : string) (args : list Z),
    NoDup (map answer_pk (answers (db w))) ->
    question_change request qpk qnpk w = (Redirect to args, w') ->
    let question :=
      {| question_pk := qnpk; question_quiz := qpk; question_text := [] |} in
    let fs := post_answers (POST request) in
    map instance (filter is_initial (formset_forms question fs (db w)))
    = map Some (answers_of qnpk (db w)) ->
    map answer_fields (answers_of qnpk (db w'))
    = map form_fields (answer_set question fs (db w)).
Proof.
  intros F request qpk qnpk w w' to args ND Hchange question fs Hnamed.
  apply question_change_redirected in Hchange
    as (quiz & found & _ & Hfound & Hvalid & Hw').
  apply get_object_or_404_In in Hfound.
  assert (Hpk : question_pk found = qnpk).
  { assert (Hin : In found (question_of_quiz qnpk quiz (db w)))
      by (rewrite Hfound; now left).
    apply filter_In in Hin as [_ Hin].
    apply andb_true_iff in Hin as [Hin _]. now apply Z.eqb_eq in Hin. }
  destruct (formset_forms_same_key found question fs (db w) Hpk)
    as [Hforms Hsubmitted].
  pose proof (valid_not_over_absolute_max _ _ _ _ Hvalid) as Habs.
  fold fs in Hw', Habs. rewrite Hforms in Hw'.
  pose proof (formset_forms_all question fs (db w) Habs) as Hall.
  unfold answer_set. rewrite <- Hall.
  set (forms := formset_forms question fs (db w)) in *.
  assert (Hparts : filter is_initial forms
                   ++ filter (fun f => negb (is_initial f)) forms = forms).
  { rewrite Hall. apply initial_then_extra. }
  rewrite (answer_set_parts forms Hparts), map_app.
  rewrite Hw'. unfold all_saved.
  set (saved := with_text found (post_text (POST request))).
  pose proof (new_saved_answers saved
                (filter (fun f => negb (is_initial f)) forms)
                (fold_left (fun d f => existing_saved f d)
                   (filter is_initial forms)
                   (set_questions (update_row question_pk saved) (db w))))
    as Hnew.
  change (question_pk saved) with (question_pk found) in Hnew.
  rewrite Hpk in Hnew. rewrite Hnew. f_equal.
  apply (existing_saved_fields qnpk (filter is_initial forms)
           (set_questions (update_row question_pk saved) (db w))
           [] (answers_of qnpk (db w))).
  - exact ND.
  - reflexivity.
  - exact Hnamed.
Qed.

Lemma question_change_replaces_answer_set_witness :
  let request := post_request (teacher 1) nine_question in
  let w' := snd (@question_change plain_forms request 1 2 (calm school)) in
  let question :=
    {| question_pk := 2; question_quiz := 1; question_text := [] |} in
  map answer_fields (answers_of 2 (db w'))
  = map form_fields (answer_set question (post_answers nine_question) school).
Proof.
  exact (question_change_replaces_answer_set plain_forms
           (post_request (teacher 1) nine_question) 1 2 (calm school)
           (snd (@question_change plain_forms
                   (post_request (teacher 1) nine_question) 1 2 (calm school)))
           "teachers:quiz_change" [1%Z]
           school_answer_keys eq_refl eq_refl).
Defined.

Example nine_question_answer_set :
  map answer_fields
    (answers_of 2
       (db (snd (@question_change plain_forms
                   (post_request (teacher 1) nine_question) 1 2
                   (calm school)))))
  = [(py "nine", true); (py "six", false)].
Proof. reflexivity. Qed.

(** ** What the exported document does not tell *)

Lemma answer_list_texts (g : Answer -> Answer) (l : list Answer) (n : nat) :
  (forall a, answer_text (g a) = answer_text a) ->
  answer_list n (map g l) = answer_list n l.
Proof.
  intros Hg. revert n. induction l as [|a l IH]; intros n; simpl;
    [reflexivity|].
  now rewrite Hg, IH.
Qed.

Lemma question_blocks_marks (mark : Answer -> bool) (d : DB) (n : nat)
  (l : list Question) :
  question_blocks (with_marks mark d) n l = question_blocks d n l.
Proof.
  revert n. induction l as [|q l IH]; intros n; simpl; [reflexivity|].
  rewrite IH. do 3 f_equal.
  unfold question_answers, with_marks. cbn [answers set_answers].
  rewrite filter_map_same by reflexivity.
  f_equal. now apply answer_list_texts.
Qed.

(** X18: the exported document does not depend on which answers are marked
    as correct: for every request, the answer of [get_quiz_in_pdf] is the
    same whatever the marks of the stored answers. *)
Theorem get_quiz_in_pdf_hides_marks :
  forall (mark : Answer -> bool) (request : Request) (pk : Z) (d : DB),
    get_quiz_in_pdf request pk (with_marks mark d)
    = get_quiz_in_pdf request pk d.
Proof.
  intros mark request pk d.
  unfold get_quiz_in_pdf, get_quiz_in_pdf_body, login_required,
    teacher_required.
  change (quiz_by_pk_owner pk (user request) (with_marks mark d))
    with (quiz_by_pk_owner pk (user request) d).
  destruct (is_authenticated (user request)); [|reflexivity].
  destruct (is_teacher (user request)); [|reflexivity].
  destruct (get_object_or_404 (quiz_by_pk_owner pk (user request) d))
    as [e|quiz]; [reflexivity|].
  destruct (queryset_get (quiz_by_pk_owner pk (user request) d))
    as [e|quiz']; [reflexivity|].
  change (quiz_questions quiz' (with_marks mark d))
    with (quiz_questions quiz' d).
  rewrite !fold_pdf_question by reflexivity.
  now rewrite question_blocks_marks.
Qed.

(** ** The counts of the quiz list *)

Lemma nodup_NoDup (l : list Z) : NoDup l -> nodup Z.eq_dec l = l.
Proof.
  induction 1 as [|x l Hnot ND IH]; simpl; [reflexivity|].
  destruct (in_dec Z.eq_dec x l); [contradiction | now rewrite IH].
Qed.

(** X19: in a store with unique question keys and unique attempt keys, the
    two counts the quiz list shows next to a quiz are the number of its
    questions and the number of attempts at it. *)
Theorem annotate_counts_counts :
  forall (d : DB) (q : Quiz),
    NoDup (map question_pk (questions d)) ->
    NoDup (map taken_pk (taken_quizzes d)) ->
    questions_count (annotate_counts d q) = List.length (quiz_questions q d)
    /\ taken_count (annotate_counts d q)
       = List.length (quiz_taken_quizzes q d).
Proof.
  intros d q NDq NDt. unfold annotate_counts, count_distinct. cbn.
  rewrite !nodup_NoDup by now apply NoDup_map_filter.
  now rewrite !length_map.
Qed.

Lemma school_taken_keys : NoDup (map taken_pk (taken_quizzes school)).
Proof. repeat constructor; simpl; intuition discriminate. Qed.

Lemma annotate_counts_counts_witness :
  questions_count (annotate_counts school algebra) = 2
  /\ taken_count (annotate_counts school algebra) = 3.
Proof.
  exact (annotate_counts_counts school algebra
           school_question_keys school_taken_keys).
Defined.

(** ** No server error *)











